(** * entra-exporter: the collector / cache / refresh subsystem

    A shallow embedding of the Go sources of the exporter:

    - [config.CollectorConfig.IsEnabled] and the collector wiring of [main];
    - the two [BaseCollector] variants found in the repository: the one that
      sits next to the users collector (token validation, [recover] around
      every cycle), here [Hardened], and the one that sits next to the devices
      and general collectors, here [Plain];
    - the users and devices collectors ([collect] and [Collect]), which are the
      same code up to the entity type, the selected fields and the label set;
    - the general (statistics) collector.

    Go's effects are made explicit.  A statement runs in the monad [M]: it
    threads a state made of the collector struct, the state of the outside
    world (identity provider, Graph service, clock, environment) and the trace
    of the external calls performed so far; it ends by returning, by panicking,
    or it is still running when the observation bound is reached.  Log lines
    are not modelled, nor are the reads of the environment that only feed log
    lines.  Mutexes are not modelled in the sequential definitions; the two
    critical sections of [GetGraphClient] are separate definitions so that the
    model of concurrent callers can schedule them as atomic steps.  Gauge
    values and durations are integers: every value the collectors set is the
    conversion of an integer (a length, a count, a Unix time, 1), and a
    duration is kept in nanoseconds. *)

From stdpp Require Import base strings gmap list.
From Stdlib Require Import ZArith QArith.QArith_base Lia.

Open Scope string_scope.
Open Scope list_scope.
Open Scope Z_scope.

(** ** Go statements: state, panics, unbounded loops *)

Module Go.

(** How a statement ends. [Running] stands for a loop that has not finished
    when the observation bound (fuel) is used up. *)
Inductive Res (A : Type) : Type :=
| Val (a : A)
| Panic (v : string)
| Running.
Arguments Val {A} a.
Arguments Panic {A} v.
Arguments Running {A}.

Definition M (S A : Type) : Type := S → Res A * S.

Definition ret {S A} (a : A) : M S A := λ s, (Val a, s).

Definition bind {S A B} (m : M S A) (k : A → M S B) : M S B :=
  λ s, match m s with
       | (Val a, s') => k a s'
       | (Panic v, s') => (Panic v, s')
       | (Running, s') => (Running, s')
       end.

Definition gets {S A} (f : S → A) : M S A := λ s, (Val (f s), s).
Definition modify {S} (f : S → S) : M S unit := λ s, (Val tt, f s).
Definition panic {S A} (v : string) : M S A := λ s, (Panic v, s).
Definition running {S A} : M S A := λ s, (Running, s).

(** [defer func() { if r := recover(); r != nil { ... } }()] around [m]:
    a panic of [m] is stopped and its value handed over; the state reached
    when the panic was raised is kept. *)
Definition recover {S} (m : M S unit) : M S (option string) :=
  λ s, match m s with
       | (Val _, s') => (Val None, s')
       | (Panic v, s') => (Val (Some v), s')
       | (Running, s') => (Running, s')
       end.

(** [*p] for a pointer [p] that may be nil. *)
Definition nil_dereference : string :=
  "runtime error: invalid memory address or nil pointer dereference".

Definition deref {S A} (p : option A) : M S A :=
  match p with
  | Some a => ret a
  | None => panic nil_dereference
  end.

(** [for _, x := range l { body x }] over a slice. *)
Fixpoint for_each {S A} (l : list A) (body : A → M S unit) : M S unit :=
  match l with
  | [] => ret tt
  | x :: l' => bind (body x) (λ _, for_each l' body)
  end.

End Go.

Import Go.

Declare Scope go_scope.
Delimit Scope go_scope with go.
Notation "'let*' x ':=' m 'in' k" := (bind m (λ x, k))
  (at level 10, x name, m at level 100, k at level 200) : go_scope.
Notation "m ';;' k" := (bind m (λ _, k))
  (at level 100, right associativity) : go_scope.
Open Scope go_scope.

(** ** package config *)

(** [time.Duration]: a signed 64-bit count of nanoseconds. *)
Definition Duration := Z.
Definition Second : Duration := 1000000000.

(** [Duration.Seconds]: [sec := d / Second; nsec := d % Second;
    float64(sec) + float64(nsec)/1e9], with Go's truncating [/] and [%].
    The float is represented by the exact rational it rounds; rounding is
    monotone and keeps zero, so the comparison with 0 in [IsEnabled] is the
    one of the rational. *)
Definition Seconds (d : Duration) : Q :=
  (inject_Z (Z.quot d Second) + inject_Z (Z.rem d Second) / inject_Z Second)%Q.

Record CollectorConfig : Type := { ScrapeTime : Duration }.

(** [return c.ScrapeTime.Seconds() > 0] *)
Definition IsEnabled (c : CollectorConfig) : bool :=
  negb (Qle_bool (Seconds (ScrapeTime c)) 0).

Record Config : Type := {
  Tenants : list string;                 (* cfg.Azure.Tenants *)
  General : CollectorConfig;
  Users : CollectorConfig;
  Devices : CollectorConfig;
  Applications : CollectorConfig;
  ServicePrincipals : CollectorConfig;
  Groups : CollectorConfig;
  ConditionalAccessPolicies : CollectorConfig;
  DirectoryRoles : CollectorConfig
}.

(** ** The outside world

    Everything the collectors call and do not implement: the process
    environment, the clock, the Azure identity SDK and the Graph SDK.  Values
    behind Go pointers are handles (the pointer), so that two results are the
    same instance exactly when the handles are equal. *)

Definition Error := string.
Definition Credential := nat.
Definition AuthProvider := nat.
Definition Adapter := nat.
Definition Client := nat.               (* *mgraph.GraphServiceClient *)

(** [models.Userable], the getters the collector uses; [None] is a nil pointer. *)
Record User : Type := {
  user_GetId : option string;
  user_GetUserPrincipalName : option string;
  user_GetDisplayName : option string;
  user_GetAccountEnabled : option bool;
  user_GetUserType : option string;
  user_GetCreationType : option string
}.

(** [models.Deviceable]; the registration time is an instant in seconds. *)
Record Device : Type := {
  device_GetId : option string;
  device_GetDisplayName : option string;
  device_GetDeviceCategory : option string;
  device_GetOperatingSystem : option string;
  device_GetOperatingSystemVersion : option string;
  device_GetTrustType : option string;
  device_GetEnrollmentType : option string;
  device_GetAccountEnabled : option bool;
  device_GetManagementType : option string;
  device_GetRegistrationDateTime : option Z
}.

(** Applications, service principals and groups are only counted. *)
Definition DirectoryObject := unit.

(** [*RequestBuilderGetRequestConfiguration] with its [QueryParameters]. *)
Record RequestConfiguration : Type := {
  Top : option Z;
  Select : list string
}.

(** A collection response ([UserCollectionResponseable] and the like). *)
Record CollectionResponse (E : Type) : Type := {
  GetValue : option (list E);
  GetOdataNextLink : option string;
  GetOdataCount : option Z
}.
Arguments GetValue {E} _.
Arguments GetOdataNextLink {E} _.
Arguments GetOdataCount {E} _.

(** What [Get] returns: an error, or a response pointer that may be nil. *)
Definition Fetched (E : Type) : Type := Error + option (CollectionResponse E).

(** The handlers of the outside world over its state [W].  The second
    argument of a [Get] handler is the raw URL of the request builder:
    [None] for the builder of the collection itself ([client.Users()]), [Some
    link] for [client.Users().WithUrl(link)]. *)
Record World (W : Type) : Type := {
  Getenv : string → W → string;
  Now : W → Z * W;                       (* time.Now(), nanoseconds *)
  Sleep : Duration → W → W;
  FormatRFC3339 : Z → string;
  NewDefaultAzureCredential : string → W → (Error + Credential) * W;
  GetToken : Credential → list string → W → (Error + unit) * W;
  NewAzureIdentityAuthenticationProvider :
    Credential → W → (Error + AuthProvider) * W;
  NewGraphRequestAdapter : AuthProvider → W → (Error + Adapter) * W;
  NewGraphServiceClient : Adapter → W → Client * W;
  UsersGet : Client → option string → option RequestConfiguration →
             W → Fetched User * W;
  DevicesGet : Client → option string → option RequestConfiguration →
               W → Fetched Device * W;
  ApplicationsGet : Client → option string → option RequestConfiguration →
                    W → Fetched DirectoryObject * W;
  ServicePrincipalsGet : Client → option string → option RequestConfiguration →
                         W → Fetched DirectoryObject * W;
  GroupsGet : Client → option string → option RequestConfiguration →
              W → Fetched DirectoryObject * W
}.
Arguments Getenv {W} _ _ _.
Arguments Now {W} _ _.
Arguments Sleep {W} _ _ _.
Arguments FormatRFC3339 {W} _ _.
Arguments NewDefaultAzureCredential {W} _ _ _.
Arguments GetToken {W} _ _ _ _.
Arguments NewAzureIdentityAuthenticationProvider {W} _ _ _.
Arguments NewGraphRequestAdapter {W} _ _ _.
Arguments NewGraphServiceClient {W} _ _ _.
Arguments UsersGet {W} _ _ _ _ _.
Arguments DevicesGet {W} _ _ _ _ _.
Arguments ApplicationsGet {W} _ _ _ _ _.
Arguments ServicePrincipalsGet {W} _ _ _ _ _.
Arguments GroupsGet {W} _ _ _ _ _.

(** The external calls a run performs, in order. *)
Inductive Collection : Type :=
  UsersC | DevicesC | ApplicationsC | ServicePrincipalsC | GroupsC.

Inductive Event : Type :=
| CallNewDefaultAzureCredential (tenantID : string)
| CallGetToken (cred : Credential) (scopes : list string)
| CallNewAzureIdentityAuthenticationProvider (cred : Credential)
| CallNewGraphRequestAdapter (auth : AuthProvider)
| CallNewGraphServiceClient (adapter : Adapter) (client : Client)
| CallGet (client : Client) (coll : Collection) (rawUrl : option string)
          (cfg : option RequestConfiguration)
| CallSleep (d : Duration).

(** The state a statement runs in: the collector struct [C] it is a method
    of, the world, and the trace. *)
Record St (C W : Type) : Type := {
  coll : C;
  world : W;
  trace : list Event
}.
Arguments coll {C W} _.
Arguments world {C W} _.
Arguments trace {C W} _.

Section Primitives.
Context {W : Type} (Γ : World W) {C : Type}.

(** An external call: the handler moves the world, the call is traced. *)
Definition extern {A} (h : W → A * W) (ev : A → Event) : M (St C W) A :=
  λ s, let '(a, w') := h (world s) in
       (Val a, {| coll := coll s; world := w'; trace := trace s ++ [ev a] |}).

(** A read of the world that is not traced (environment, clock). *)
Definition peek {A} (h : W → A * W) : M (St C W) A :=
  λ s, let '(a, w') := h (world s) in
       (Val a, {| coll := coll s; world := w'; trace := trace s |}).

Definition os_Getenv (k : string) : M (St C W) string :=
  peek (λ w, (Getenv Γ k w, w)).

Definition time_Now : M (St C W) Z := peek (Now Γ).

Definition time_Sleep (d : Duration) : M (St C W) unit :=
  extern (λ w, (tt, Sleep Γ d w)) (λ _, CallSleep d).

Definition this : M (St C W) C := gets coll.

Definition update (f : C → C) : M (St C W) unit :=
  modify (λ s, {| coll := f (coll s); world := world s; trace := trace s |}).

End Primitives.

(** A method of an embedded struct [B] run on the embedding struct [C]. *)
Definition embedded {W B C A} (getb : C → B) (setb : B → C → C)
    (m : M (St B W) A) : M (St C W) A :=
  λ s, let '(r, s') :=
         m {| coll := getb (coll s); world := world s; trace := trace s |} in
       (r, {| coll := setb (coll s') (coll s);
              world := world s'; trace := trace s' |}).

(** ** package collector: the base collector *)

(** Prometheus vectors, by label values.  A child, once created, stays in its
    vector until it is deleted or the vector is reset; the collectors do
    neither. *)
Definition CounterVec_Inc (l : string) (v : gmap string nat) : gmap string nat :=
  <[l := S (default O (v !! l))]> v.

Definition SummaryVec_Observe (l : string) (x : Duration)
    (v : gmap string (list Duration)) : gmap string (list Duration) :=
  <[l := default [] (v !! l) ++ [x]]> v.

Record BaseCollector : Type := {
  name : string;
  config : Config;
  scrapeTime : Duration;
  graphClients : gmap string Client;
  scrapeErrors : gmap string nat;
  scrapeDuration : gmap string (list Duration);
  lastScrapeTime : gmap string Z
}.

Definition NewBaseCollector (name : string) (scrapeTime : Duration)
    (config : Config) : BaseCollector :=
  {| name := name; config := config; scrapeTime := scrapeTime;
     graphClients := ∅; scrapeErrors := ∅; scrapeDuration := ∅;
     lastScrapeTime := ∅ |}.

Definition set_graphClients (f : gmap string Client → gmap string Client)
    (c : BaseCollector) : BaseCollector :=
  {| name := name c; config := config c; scrapeTime := scrapeTime c;
     graphClients := f (graphClients c); scrapeErrors := scrapeErrors c;
     scrapeDuration := scrapeDuration c; lastScrapeTime := lastScrapeTime c |}.

Definition set_scrapeErrors (f : gmap string nat → gmap string nat)
    (c : BaseCollector) : BaseCollector :=
  {| name := name c; config := config c; scrapeTime := scrapeTime c;
     graphClients := graphClients c; scrapeErrors := f (scrapeErrors c);
     scrapeDuration := scrapeDuration c; lastScrapeTime := lastScrapeTime c |}.

Definition set_scrapeDuration
    (f : gmap string (list Duration) → gmap string (list Duration))
    (c : BaseCollector) : BaseCollector :=
  {| name := name c; config := config c; scrapeTime := scrapeTime c;
     graphClients := graphClients c; scrapeErrors := scrapeErrors c;
     scrapeDuration := f (scrapeDuration c); lastScrapeTime := lastScrapeTime c |}.

Definition set_lastScrapeTime (f : gmap string Z → gmap string Z)
    (c : BaseCollector) : BaseCollector :=
  {| name := name c; config := config c; scrapeTime := scrapeTime c;
     graphClients := graphClients c; scrapeErrors := scrapeErrors c;
     scrapeDuration := scrapeDuration c; lastScrapeTime := f (lastScrapeTime c) |}.

(** [BaseCollector.Describe]: the metric families of the base collector. *)
Definition BaseCollector_Describe (name : string) : list string :=
  [ "entraid_" +:+ name +:+ "_scrape_errors_total";
    "entraid_" +:+ name +:+ "_scrape_duration_seconds";
    "entraid_" +:+ name +:+ "_last_scrape_time" ].

(** The methods of the base collector the domain collectors call. *)
Record BaseOps (W : Type) : Type := {
  ops_GetTenants : M (St BaseCollector W) (list string);
  ops_GetGraphClient : string → M (St BaseCollector W) (Error + Client)
}.
Arguments ops_GetTenants {W} _.
Arguments ops_GetGraphClient {W} _ _.

Definition graph_scopes : list string :=
  [ "https://graph.microsoft.com/.default" ].

(** *** The base collector next to the users collector *)

Module Hardened.
Section Hardened.
Context {W : Type} (Γ : World W).

(** First critical section (read lock): the cached client, if any. *)
Definition GetGraphClient_fast (tenantID : string)
    : M (St BaseCollector W) (option Client) :=
  let* c := this in
  ret (graphClients c !! tenantID).

(** Second critical section (write lock): check again, then create. *)
Definition GetGraphClient_slow (tenantID : string)
    : M (St BaseCollector W) (Error + Client) :=
  let* c := this in
  match graphClients c !! tenantID with
  | Some client => ret (inr client)
  | None =>
    let* tenantID :=
      (if decide (tenantID = "")
       then os_Getenv Γ "AZURE_TENANT_ID"
       else ret tenantID) in
    let* cred := extern (NewDefaultAzureCredential Γ tenantID)
                        (λ _, CallNewDefaultAzureCredential tenantID) in
    match cred with
    | inl err => ret (inl ("failed to create credential: " +:+ err))
    | inr cred =>
      let* tok := extern (GetToken Γ cred graph_scopes)
                         (λ _, CallGetToken cred graph_scopes) in
      match tok with
      | inl err => ret (inl ("failed to validate credential: " +:+ err))
      | inr _ =>
        let* authProvider :=
          extern (NewAzureIdentityAuthenticationProvider Γ cred)
                 (λ _, CallNewAzureIdentityAuthenticationProvider cred) in
        match authProvider with
        | inl err => ret (inl ("failed to create auth provider: " +:+ err))
        | inr authProvider =>
          let* adapter := extern (NewGraphRequestAdapter Γ authProvider)
                                 (λ _, CallNewGraphRequestAdapter authProvider) in
          match adapter with
          | inl err => ret (inl ("failed to create adapter: " +:+ err))
          | inr adapter =>
            let* client := extern (NewGraphServiceClient Γ adapter)
                                  (CallNewGraphServiceClient adapter) in
            update (set_graphClients (<[tenantID := client]>)) ;;
            ret (inr client)
          end
        end
      end
    end
  end.

Definition GetGraphClient (tenantID : string)
    : M (St BaseCollector W) (Error + Client) :=
  let* cached := GetGraphClient_fast tenantID in
  match cached with
  | Some client => ret (inr client)
  | None => GetGraphClient_slow tenantID
  end.

Definition GetTenants : M (St BaseCollector W) (list string) :=
  let* c := this in
  let tenants := Tenants (config c) in
  if decide (length tenants = O) then
    let* envTenant := os_Getenv Γ "AZURE_TENANT_ID" in
    if decide (envTenant ≠ "") then ret [envTenant] else ret [""]
  else ret tenants.

Definition ops : BaseOps W :=
  {| ops_GetTenants := GetTenants; ops_GetGraphClient := GetGraphClient |}.

(** The goroutine of [StartCacheInvalidator], observed for [n] iterations of
    its [for] loop.  [scrape] reads [c.scrapeTime] through the embedding. *)
Section Loop.
Context {C : Type} (scrape : C → Duration).

Fixpoint cycles (n : nat) (collect : M (St C W) unit) : M (St C W) unit :=
  match n with
  | O => running
  | S n' =>
    let* recovered := recover collect in
    let* c := this in
    time_Sleep Γ (scrape c) ;;
    cycles n' collect
  end.

(** The deferred [recover] of the goroutine itself: after a panic that
    escaped the loop it sleeps five seconds and starts the loop again. *)
Fixpoint StartCacheInvalidator (restarts n : nat)
    (collect : M (St C W) unit) : M (St C W) unit :=
  λ s, match cycles n collect s with
       | (Panic v, s') =>
         match restarts with
         | O => (Running, s')
         | S r =>
           (time_Sleep Γ (5 * Second) ;;
            StartCacheInvalidator r n collect) s'
         end
       | other => other
       end.
End Loop.

End Hardened.
End Hardened.

(** *** The base collector next to the devices and general collectors *)

Module Plain.
Section Plain.
Context {W : Type} (Γ : World W).

Definition GetGraphClient_fast (tenantID : string)
    : M (St BaseCollector W) (option Client) :=
  let* c := this in
  ret (graphClients c !! tenantID).

Definition GetGraphClient_slow (tenantID : string)
    : M (St BaseCollector W) (Error + Client) :=
  let* c := this in
  match graphClients c !! tenantID with
  | Some client => ret (inr client)
  | None =>
    let* cred := extern (NewDefaultAzureCredential Γ tenantID)
                        (λ _, CallNewDefaultAzureCredential tenantID) in
    match cred with
    | inl err => ret (inl ("failed to create credential: " +:+ err))
    | inr cred =>
      let* authProvider :=
        extern (NewAzureIdentityAuthenticationProvider Γ cred)
               (λ _, CallNewAzureIdentityAuthenticationProvider cred) in
      match authProvider with
      | inl err => ret (inl ("failed to create auth provider: " +:+ err))
      | inr authProvider =>
        let* adapter := extern (NewGraphRequestAdapter Γ authProvider)
                               (λ _, CallNewGraphRequestAdapter authProvider) in
        match adapter with
        | inl err => ret (inl ("failed to create adapter: " +:+ err))
        | inr adapter =>
          let* client := extern (NewGraphServiceClient Γ adapter)
                                (CallNewGraphServiceClient adapter) in
          update (set_graphClients (<[tenantID := client]>)) ;;
          ret (inr client)
        end
      end
    end
  end.

Definition GetGraphClient (tenantID : string)
    : M (St BaseCollector W) (Error + Client) :=
  let* cached := GetGraphClient_fast tenantID in
  match cached with
  | Some client => ret (inr client)
  | None => GetGraphClient_slow tenantID
  end.

Definition GetTenants : M (St BaseCollector W) (list string) :=
  let* c := this in
  if decide (0 < length (Tenants (config c)))%nat
  then ret (Tenants (config c))
  else ret [""].

Definition ops : BaseOps W :=
  {| ops_GetTenants := GetTenants; ops_GetGraphClient := GetGraphClient |}.

(** The goroutine of [StartCacheInvalidator]: no [recover]; a panic of
    [collect] unwinds the goroutine and ends the process. *)
Section Loop.
Context {C : Type} (scrape : C → Duration).

Fixpoint StartCacheInvalidator (n : nat) (collect : M (St C W) unit)
    : M (St C W) unit :=
  match n with
  | O => running
  | S n' =>
    collect ;;
    let* c := this in
    time_Sleep Γ (scrape c) ;;
    StartCacheInvalidator n' collect
  end.
End Loop.

End Plain.
End Plain.

(** ** The users and devices collectors

    [UsersCollector] and [DevicesCollector] are the same struct and the same
    [collect] up to the entity type [E], the collection queried and the
    selected fields: [entityList] is [usersList] / [devicesList],
    [entityTotal] is [usersTotal] / [devicesTotal] and [entityInfo] is
    [usersInfo] / [devicesInfo] (gauge vectors, by label values). *)

Record EntityCollector (E : Type) : Type := {
  Base : BaseCollector;
  entityList : gmap string (list E);
  entityTotal : gmap string Z;
  entityInfo : gmap (list string) Z
}.
Arguments Base {E} _.
Arguments entityList {E} _.
Arguments entityTotal {E} _.
Arguments entityInfo {E} _.

Section EntityCollector.
Context {W : Type} (Γ : World W) {E : Type}.

Definition set_Base (b : BaseCollector) (c : EntityCollector E)
    : EntityCollector E :=
  {| Base := b; entityList := entityList c;
     entityTotal := entityTotal c; entityInfo := entityInfo c |}.

Definition set_entityList (f : gmap string (list E) → gmap string (list E))
    (c : EntityCollector E) : EntityCollector E :=
  {| Base := Base c; entityList := f (entityList c);
     entityTotal := entityTotal c; entityInfo := entityInfo c |}.

Definition set_entityTotal (f : gmap string Z → gmap string Z)
    (c : EntityCollector E) : EntityCollector E :=
  {| Base := Base c; entityList := entityList c;
     entityTotal := f (entityTotal c); entityInfo := entityInfo c |}.

Definition set_entityInfo (f : gmap (list string) Z → gmap (list string) Z)
    (c : EntityCollector E) : EntityCollector E :=
  {| Base := Base c; entityList := entityList c;
     entityTotal := entityTotal c; entityInfo := f (entityInfo c) |}.

Definition on_Base (f : BaseCollector → BaseCollector)
    (c : EntityCollector E) : EntityCollector E :=
  set_Base (f (Base c)) c.

Context (base : BaseOps W)
        (Get : Client → option string → option RequestConfiguration →
               W → Fetched E * W)
        (which : Collection)
        (query : RequestConfiguration).

(** [client.Users().Get(context.Background(), cfg)]: the request builder is
    always the one of the collection, never one made from a next link. *)
Definition fetch (client : Client) (cfg : option RequestConfiguration)
    : M (St (EntityCollector E) W) (Fetched E) :=
  extern (Get client None cfg) (λ _, CallGet client which None cfg).

(** [if result.GetValue() != nil { list = append(list, result.GetValue()...) }] *)
Definition append_value (entities : list E) (result : CollectionResponse E)
    : list E :=
  match GetValue result with
  | Some value => entities ++ value
  | None => entities
  end.

(** The next link of [result] is not nil and the string it points to is not
    empty. *)
Definition has_next (result : CollectionResponse E) : bool :=
  match GetOdataNextLink result with
  | Some link => bool_decide (0 < String.length link)%nat
  | None => false
  end.

Definition scrapeErrors_Inc (tenantID : string)
    : M (St (EntityCollector E) W) unit :=
  update (on_Base (set_scrapeErrors (CounterVec_Inc tenantID))).

(** The pagination loop, observed for at most [fuel] iterations.  It
    returns the list accumulated when the loop is left, by its condition or
    by [break]. *)
Fixpoint next_pages (fuel : nat) (tenantID : string) (client : Client)
    (result : CollectionResponse E) (entities : list E)
    : M (St (EntityCollector E) W) (list E) :=
  if has_next result then
    match fuel with
    | O => running
    | S fuel' =>
      let nextReqConfig : option RequestConfiguration := None in
      let* fetched := fetch client nextReqConfig in
      match fetched with
      | inl err => scrapeErrors_Inc tenantID ;; ret entities
      | inr result =>
        let* result := deref result in
        next_pages fuel' tenantID client result (append_value entities result)
      end
    end
  else ret entities.

(** The body of [for _, tenantID := range c.GetTenants()]. *)
Definition collect_tenant (fuel : nat) (tenantID : string)
    : M (St (EntityCollector E) W) unit :=
  let* start := time_Now Γ in
  let* got := embedded Base set_Base (ops_GetGraphClient base tenantID) in
  match got with
  | inl err => scrapeErrors_Inc tenantID
  | inr client =>
    let* fetched := fetch client (Some query) in
    match fetched with
    | inl err => scrapeErrors_Inc tenantID
    | inr result =>
      let* result := deref result in
      let entities := append_value [] result in
      let* entities := next_pages fuel tenantID client result entities in
      update (set_entityList (<[tenantID := entities]>)) ;;
      let* finish := time_Now Γ in
      update (on_Base (set_scrapeDuration
                         (SummaryVec_Observe tenantID (finish - start)))) ;;
      let* now := time_Now Γ in
      update (on_Base (set_lastScrapeTime (<[tenantID := now `div` Second]>)))
    end
  end.

Definition collect (fuel : nat) : M (St (EntityCollector E) W) unit :=
  let* tenants := embedded Base set_Base (ops_GetTenants base) in
  for_each tenants (collect_tenant fuel).

(** [Collect]: the render step of a scrape.  [labels] builds the label
    values of the info sample of one entity.  The samples sent on the
    channel are the children of the vectors when [Collect] returns.  Go
    ranges over the cache in an unspecified order, [map_to_list] fixes one;
    a render that does not panic ends in the same vectors for every order
    (the totals have distinct keys, the info samples all have the value
    1). *)
Definition Collect (labels : string → E → M (St (EntityCollector E) W) (list string))
    : M (St (EntityCollector E) W) unit :=
  let* c := this in
  for_each (map_to_list (entityList c)) (λ '(tenantID, entities),
    update (set_entityTotal (<[tenantID := Z.of_nat (length entities)]>)) ;;
    for_each entities (λ entity,
      let* values := labels tenantID entity in
      update (set_entityInfo (<[values := 1]>)))).

End EntityCollector.

Module UsersCollector.
Section UsersCollector.
Context {W : Type} (Γ : World W) (base : BaseOps W).

Definition query : RequestConfiguration :=
  {| Top := Some 100;
     Select := [ "id"; "userPrincipalName"; "displayName";
                 "accountEnabled"; "userType"; "creationType" ] |}.

Definition collect_tenant :=
  collect_tenant Γ base (UsersGet Γ) UsersC query.

Definition collect := collect Γ base (UsersGet Γ) UsersC query.

(** The label values of [usersInfo] for one user. *)
Definition labels (tenantID : string) (user : User)
    : M (St (EntityCollector User) W) (list string) :=
  let accountEnabled :=
    match user_GetAccountEnabled user with
    | Some true => "true"
    | _ => "false"
    end in
  let userType :=
    match user_GetUserType user with Some t => t | None => "unknown" end in
  let creationType :=
    match user_GetCreationType user with Some t => t | None => "unknown" end in
  let* id := deref (user_GetId user) in
  let* userPrincipalName := deref (user_GetUserPrincipalName user) in
  let* displayName := deref (user_GetDisplayName user) in
  ret [ tenantID; id; userPrincipalName; displayName;
        accountEnabled; userType; creationType ].

Definition Collect : M (St (EntityCollector User) W) unit := Collect labels.

Definition Describe : list string :=
  BaseCollector_Describe "users" ++ [ "entraid_users_total"; "entraid_users_info" ].

End UsersCollector.
End UsersCollector.

Module DevicesCollector.
Section DevicesCollector.
Context {W : Type} (Γ : World W) (base : BaseOps W).

Definition query : RequestConfiguration :=
  {| Top := Some 100;
     Select := [ "id"; "displayName"; "operatingSystem";
                 "operatingSystemVersion"; "accountEnabled"; "trustType";
                 "enrollmentType"; "deviceCategory"; "managementType";
                 "registrationDateTime" ] |}.

Definition collect_tenant :=
  collect_tenant Γ base (DevicesGet Γ) DevicesC query.

Definition collect := collect Γ base (DevicesGet Γ) DevicesC query.

Definition or_unknown (p : option string) : string :=
  match p with Some v => v | None => "unknown" end.

Definition labels (tenantID : string) (device : Device)
    : M (St (EntityCollector Device) W) (list string) :=
  let accountEnabled :=
    match device_GetAccountEnabled device with
    | Some true => "true"
    | _ => "false"
    end in
  let operatingSystem := or_unknown (device_GetOperatingSystem device) in
  let operatingSystemVersion :=
    or_unknown (device_GetOperatingSystemVersion device) in
  let trustType := or_unknown (device_GetTrustType device) in
  let deviceCategory := or_unknown (device_GetDeviceCategory device) in
  let enrollmentType := or_unknown (device_GetEnrollmentType device) in
  let managementType := or_unknown (device_GetManagementType device) in
  let registrationDateTime :=
    match device_GetRegistrationDateTime device with
    | Some t => FormatRFC3339 Γ t
    | None => "unknown"
    end in
  let* id := deref (device_GetId device) in
  let* displayName := deref (device_GetDisplayName device) in
  ret [ tenantID; id; displayName; deviceCategory; operatingSystem;
        operatingSystemVersion; trustType; enrollmentType; accountEnabled;
        managementType; "n/a"; registrationDateTime ].

Definition Collect : M (St (EntityCollector Device) W) unit := Collect labels.

Definition Describe : list string :=
  BaseCollector_Describe "devices"
    ++ [ "entraid_devices_total"; "entraid_devices_info" ].

End DevicesCollector.
End DevicesCollector.

(** ** The general collector *)

Record GeneralCollector : Type := {
  gBase : BaseCollector;
  stats : gmap string (gmap string Z);
  statsMetric : gmap (string * string) Z      (* by tenant_id, metric *)
}.

Module GeneralCollector.
Section GeneralCollector.
Context {W : Type} (Γ : World W) (base : BaseOps W).

Definition set_gBase (b : BaseCollector) (c : GeneralCollector)
    : GeneralCollector :=
  {| gBase := b; stats := stats c; statsMetric := statsMetric c |}.

Definition set_stats
    (f : gmap string (gmap string Z) → gmap string (gmap string Z))
    (c : GeneralCollector) : GeneralCollector :=
  {| gBase := gBase c; stats := f (stats c); statsMetric := statsMetric c |}.

Definition set_statsMetric
    (f : gmap (string * string) Z → gmap (string * string) Z)
    (c : GeneralCollector) : GeneralCollector :=
  {| gBase := gBase c; stats := stats c; statsMetric := f (statsMetric c) |}.

Definition on_gBase (f : BaseCollector → BaseCollector)
    (c : GeneralCollector) : GeneralCollector :=
  set_gBase (f (gBase c)) c.

Definition scrapeErrors_Inc (tenantID : string)
    : M (St GeneralCollector W) unit :=
  update (on_gBase (set_scrapeErrors (CounterVec_Inc tenantID))).

(** One count query:
    [page, err := client.X().Get(context.Background(), nil)], then the error
    counter on an error, else the count into [stats] when the page and its
    count are not nil. *)
Definition count {E} (Get : Client → option string → option RequestConfiguration →
                            W → Fetched E * W)
    (which : Collection) (metric : string)
    (tenantID : string) (client : Client) (stats : gmap string Z)
    : M (St GeneralCollector W) (gmap string Z) :=
  let* fetched := extern (Get client None None)
                         (λ _, CallGet client which None None) in
  match fetched with
  | inl err => scrapeErrors_Inc tenantID ;; ret stats
  | inr (Some page) =>
    match GetOdataCount page with
    | Some n => ret (<[metric := n]> stats)
    | None => ret stats
    end
  | inr None => ret stats
  end.

Definition collect_tenant (tenantID : string)
    : M (St GeneralCollector W) unit :=
  let* start := time_Now Γ in
  let* got := embedded gBase set_gBase (ops_GetGraphClient base tenantID) in
  match got with
  | inl err => scrapeErrors_Inc tenantID
  | inr client =>
    let stats : gmap string Z := ∅ in
    let* stats := count (UsersGet Γ) UsersC "user_count"
                        tenantID client stats in
    let* stats := count (DevicesGet Γ) DevicesC "device_count"
                        tenantID client stats in
    let* stats := count (ApplicationsGet Γ) ApplicationsC "application_count"
                        tenantID client stats in
    let* stats := count (ServicePrincipalsGet Γ) ServicePrincipalsC
                        "service_principal_count" tenantID client stats in
    let* stats := count (GroupsGet Γ) GroupsC "group_count"
                        tenantID client stats in
    update (set_stats (<[tenantID := stats]>)) ;;
    let* finish := time_Now Γ in
    update (on_gBase (set_scrapeDuration
                        (SummaryVec_Observe tenantID (finish - start)))) ;;
    let* now := time_Now Γ in
    update (on_gBase (set_lastScrapeTime (<[tenantID := now `div` Second]>)))
  end.

Definition collect : M (St GeneralCollector W) unit :=
  let* tenants := embedded gBase set_gBase (ops_GetTenants base) in
  for_each tenants collect_tenant.

(** [Collect]: every cached statistic is set in the gauge vector; the
    children of the vector that are not set stay as they are. *)
Definition Collect : M (St GeneralCollector W) unit :=
  let* c := this in
  for_each (map_to_list (stats c)) (λ '(tenantID, metrics),
    for_each (map_to_list metrics) (λ '(metric, value),
      update (set_statsMetric (<[(tenantID, metric) := value]>)))).

Definition Describe : list string :=
  BaseCollector_Describe "general" ++ [ "entraid_stats" ].

End GeneralCollector.
End GeneralCollector.

(** ** package main: the collector wiring *)

Inductive Domain : Type := DGeneral | DUsers | DDevices.

Definition domain_config (cfg : Config) (d : Domain) : CollectorConfig :=
  match d with
  | DGeneral => General cfg
  | DUsers => Users cfg
  | DDevices => Devices cfg
  end.

(** The metric families a domain's collector describes. *)
Definition domain_families (d : Domain) : list string :=
  match d with
  | DGeneral => GeneralCollector.Describe
  | DUsers => UsersCollector.Describe
  | DDevices => DevicesCollector.Describe
  end.

(** What the wiring leaves behind: the collectors constructed, the goroutines
    started by [StartCacheInvalidator], the families in the registry. *)
Record Process : Type := {
  constructed : list Domain;
  goroutines : list Domain;
  registry : list string
}.

Definition NewRegistry : Process :=
  {| constructed := []; goroutines := []; registry := [] |}.

(** [NewGeneralCollector], [NewUsersCollector], [NewDevicesCollector]: build
    the struct, then [c.StartCacheInvalidator(c.collect)]. *)
Definition NewCollector (d : Domain) (p : Process) : Process :=
  {| constructed := constructed p ++ [d];
     goroutines := goroutines p ++ [d];
     registry := registry p |}.

Definition MustRegister (d : Domain) (p : Process) : Process :=
  {| constructed := constructed p;
     goroutines := goroutines p;
     registry := registry p ++ domain_families d |}.

Definition enable (cfg : Config) (d : Domain) (p : Process) : Process :=
  if IsEnabled (domain_config cfg d)
  then MustRegister d (NewCollector d p)
  else p.

Definition main (cfg : Config) : Process :=
  let p := NewRegistry in
  let p := enable cfg DGeneral p in
  let p := enable cfg DUsers p in
  let p := enable cfg DDevices p in
  p.

(** The structs as the constructors build them (the goroutine they start is
    accounted for by [NewCollector]). *)
Definition NewEntityCollector {E} (name : string) (scrapeTime : Duration)
    (config : Config) : EntityCollector E :=
  {| Base := NewBaseCollector name scrapeTime config;
     entityList := ∅; entityTotal := ∅; entityInfo := ∅ |}.

Definition NewUsersCollector (config : Config) : EntityCollector User :=
  NewEntityCollector "users" (ScrapeTime (Users config)) config.

Definition NewDevicesCollector (config : Config) : EntityCollector Device :=
  NewEntityCollector "devices" (ScrapeTime (Devices config)) config.

Definition NewGeneralCollector (config : Config) : GeneralCollector :=
  {| gBase := NewBaseCollector "general" (ScrapeTime (General config)) config;
     stats := ∅; statsMetric := ∅ |}.

(** ** A scripted world, to run the collectors on concrete inputs

    The state counts the clock reads, the handles given out and the [Get]
    requests served; a [Script] says what each call answers. *)

Record Sim : Type := {
  sim_clock : Z;
  sim_handles : nat;
  sim_gets : nat
}.

Record Script : Type := {
  script_env : string → string;
  script_credential : string → option Error;      (* by tenant *)
  script_token : option Error;
  script_users : nat → option string → option RequestConfiguration →
                 Fetched User;                     (* by request number *)
  script_devices : nat → option string → option RequestConfiguration →
                   Fetched Device;
  script_counts : nat → Collection → Fetched DirectoryObject
}.

Definition sim_fresh {E} (w : Sim) : (E + nat) * Sim :=
  (inr (sim_handles w),
   {| sim_clock := sim_clock w; sim_handles := S (sim_handles w);
      sim_gets := sim_gets w |}).

Definition sim_served {A} (a : A) (w : Sim) : A * Sim :=
  (a, {| sim_clock := sim_clock w; sim_handles := sim_handles w;
         sim_gets := S (sim_gets w) |}).

Definition simulate (sc : Script) : World Sim :=
  {| Getenv := λ k _, script_env sc k;
     Now := λ w, (sim_clock w,
                  {| sim_clock := sim_clock w + Second;
                     sim_handles := sim_handles w; sim_gets := sim_gets w |});
     Sleep := λ d w, {| sim_clock := sim_clock w + d;
                        sim_handles := sim_handles w; sim_gets := sim_gets w |};
     FormatRFC3339 := λ _, "1970-01-01T00:00:00Z";
     NewDefaultAzureCredential := λ tenantID w,
       match script_credential sc tenantID with
       | Some err => (inl err, w)
       | None => sim_fresh w
       end;
     GetToken := λ _ _ w,
       match script_token sc with
       | Some err => (inl err, w)
       | None => (inr tt, w)
       end;
     NewAzureIdentityAuthenticationProvider := λ _ w, sim_fresh w;
     NewGraphRequestAdapter := λ _ w, sim_fresh w;
     NewGraphServiceClient := λ _ w,
       (sim_handles w,
        {| sim_clock := sim_clock w; sim_handles := S (sim_handles w);
           sim_gets := sim_gets w |});
     UsersGet := λ _ url cfg w, sim_served (script_users sc (sim_gets w) url cfg) w;
     DevicesGet := λ _ url cfg w,
       sim_served (script_devices sc (sim_gets w) url cfg) w;
     ApplicationsGet := λ _ _ _ w,
       sim_served (script_counts sc (sim_gets w) ApplicationsC) w;
     ServicePrincipalsGet := λ _ _ _ w,
       sim_served (script_counts sc (sim_gets w) ServicePrincipalsC) w;
     GroupsGet := λ _ _ _ w,
       sim_served (script_counts sc (sim_gets w) GroupsC) w |}.

Definition sim_start : Sim :=
  {| sim_clock := 0; sim_handles := O; sim_gets := O |}.

Definition start {C} (c : C) : St C Sim :=
  {| coll := c; world := sim_start; trace := [] |}.

Definition no_env : string → string := λ _, "".

Definition one_tenant (t : string) : Config :=
  {| Tenants := [t];
     General := {| ScrapeTime := 60 * Second |};
     Users := {| ScrapeTime := 60 * Second |};
     Devices := {| ScrapeTime := 60 * Second |};
     Applications := {| ScrapeTime := 0 |};
     ServicePrincipals := {| ScrapeTime := 0 |};
     Groups := {| ScrapeTime := 0 |};
     ConditionalAccessPolicies := {| ScrapeTime := 0 |};
     DirectoryRoles := {| ScrapeTime := 0 |} |}.

Definition user (id : string) : User :=
  {| user_GetId := Some id;
     user_GetUserPrincipalName := Some (id +:+ "@example.org");
     user_GetDisplayName := Some id;
     user_GetAccountEnabled := Some true;
     user_GetUserType := Some "Member";
     user_GetCreationType := None |}.

Definition device (id : string) : Device :=
  {| device_GetId := Some id;
     device_GetDisplayName := Some id;
     device_GetDeviceCategory := None;
     device_GetOperatingSystem := Some "Linux";
     device_GetOperatingSystemVersion := None;
     device_GetTrustType := None;
     device_GetEnrollmentType := None;
     device_GetAccountEnabled := Some true;
     device_GetManagementType := None;
     device_GetRegistrationDateTime := None |}.

Definition page {E} (value : list E) (next : option string)
    : CollectionResponse E :=
  {| GetValue := Some value; GetOdataNextLink := next; GetOdataCount := None |}.

(** A directory with two pages of users (and of devices), served by request:
    a request on the collection answers the first page, whose next link
    designates the second. *)
Definition second_page : string := "https://graph.microsoft.com/v1.0/next?$skiptoken=2".

Definition two_pages : Script :=
  {| script_env := no_env;
     script_credential := λ _, None;
     script_token := None;
     script_users := λ _ url _,
       match url with
       | None => inr (Some (page [user "u1"] (Some second_page)))
       | Some _ => inr (Some (page [user "u2"] None))
       end;
     script_devices := λ _ url _,
       match url with
       | None => inr (Some (page [device "d1"] (Some second_page)))
       | Some _ => inr (Some (page [device "d2"] None))
       end;
     script_counts := λ _ _, inr None |}.

(** The same directory when the request after the first one fails. *)
Definition second_fetch_fails : Script :=
  {| script_env := no_env;
     script_credential := λ _, None;
     script_token := None;
     script_users := λ n _ _,
       match n with
       | O => inr (Some (page [user "u1"] (Some second_page)))
       | _ => inl "503 Service Unavailable"
       end;
     script_devices := λ n _ _,
       match n with
       | O => inr (Some (page [device "d1"] (Some second_page)))
       | _ => inl "503 Service Unavailable"
       end;
     script_counts := λ _ _, inr None |}.

(** ** What the world answers to a pagination

    [Answers Get client w result pages e w']: asked on the collection with no
    request configuration again and again from the world state [w], as long as
    the last answer carries a next link, the world answers the pages [pages]
    and then either a page without next link ([e = None]) or the error
    [e = Some err]; [w'] is the world after the last request.  [result] is the
    page in hand when the asking starts. *)

Section Answers.
Context {W E : Type}
        (Get : Client → option string → option RequestConfiguration →
               W → Fetched E * W)
        (client : Client).


(** The entities of a sequence of pages, in order. *)
Definition entities_of (pages : list (CollectionResponse E)) : list E :=
  foldl append_value [] pages.

(** The paginated result as the spec words it, for comparison with
    [next_pages]: the first page, then each page fetched through the next
    link of the page before ([WithUrl]), for at most [fuel] links. *)
Fixpoint spec_paginated_result (fuel : nat) (w : W)
    (result : CollectionResponse E) : list (CollectionResponse E) :=
  result ::
  match fuel, GetOdataNextLink result with
  | S fuel', Some link =>
    if bool_decide (0 < String.length link)%nat then
      match Get client (Some link) None w with
      | (inr (Some result'), w') => spec_paginated_result fuel' w' result'
      | _ => []
      end
    else []
  | _, _ => []
  end.

End Answers.

(** A user record whose unguarded fields are present. *)
Definition user_complete (u : User) : Prop :=
  is_Some (user_GetId u) ∧ is_Some (user_GetUserPrincipalName u)
  ∧ is_Some (user_GetDisplayName u).

Definition device_complete (d : Device) : Prop :=
  is_Some (device_GetId d) ∧ is_Some (device_GetDisplayName d).

(** ** Concurrent callers of [GetGraphClient]

    Each caller runs the two critical sections in order; the read-write mutex
    makes each section atomic with respect to the sections of the other
    callers, so a run is an interleaving of whole sections, given by the
    schedule (the index of the caller that runs its next section). *)

Inductive Caller : Type :=
| Entering
| Missed
| Returned (result : Error + Client).

Section Callers.
Context {W : Type}
        (fast : string → M (St BaseCollector W) (option Client))
        (slow : string → M (St BaseCollector W) (Error + Client))
        (tenantID : string).

Definition caller_step (th : Caller) : M (St BaseCollector W) Caller :=
  match th with
  | Entering =>
    let* cached := fast tenantID in
    match cached with
    | Some client => ret (Returned (inr client))
    | None => ret Missed
    end
  | Missed =>
    let* result := slow tenantID in
    ret (Returned result)
  | Returned result => ret (Returned result)
  end.

Fixpoint run_callers (schedule : list nat) (callers : list Caller)
    : M (St BaseCollector W) (list Caller) :=
  match schedule with
  | [] => ret callers
  | i :: schedule' =>
    match callers !! i with
    | Some th =>
      let* th' := caller_step th in
      run_callers schedule' (<[i := th']> callers)
    | None => run_callers schedule' callers
    end
  end.
End Callers.

(** The clients constructed along a trace. *)
Definition constructed_clients (tr : list Event) : list Client :=
  omap (λ e, match e with
             | CallNewGraphServiceClient _ client => Some client
             | _ => None
             end) tr.

(** ** More scripted worlds *)

(** Every identity call succeeds; requests answer an empty last page. *)
Definition healthy (env : string → string) : Script :=
  {| script_env := env;
     script_credential := λ _, None;
     script_token := None;
     script_users := λ _ _ _, inr (Some (page [] None));
     script_devices := λ _ _ _, inr (Some (page [] None));
     script_counts := λ _ _, inr None |}.

Definition env_tenant (t : string) : string → string :=
  λ k, if decide (k = "AZURE_TENANT_ID") then t else "".

(** The credential chain cannot be built. *)
Definition no_credential : Script :=
  {| script_env := no_env;
     script_credential := λ _, Some "no credential source available";
     script_token := None;
     script_users := λ _ _ _, inr (Some (page [] None));
     script_devices := λ _ _ _, inr (Some (page [] None));
     script_counts := λ _ _, inr None |}.

(** The credential is built but the token request is refused. *)
Definition token_refused : Script :=
  {| script_env := no_env;
     script_credential := λ _, None;
     script_token := Some "AADSTS7000215: invalid client secret";
     script_users := λ _ _ _, inr (Some (page [] None));
     script_devices := λ _ _ _, inr (Some (page [] None));
     script_counts := λ _ _, inr None |}.


(** [Get] answers a nil response and a nil error. *)
Definition nil_response : Script :=
  {| script_env := no_env;
     script_credential := λ _, None;
     script_token := None;
     script_users := λ _ _ _, inr None;
     script_devices := λ _ _ _, inr None;
     script_counts := λ _ _, inr None |}.


(** Counts for the general collector: the users count fails, the devices
    count answers 5, the others answer no count. *)
Definition counted {E} (n : Z) : Fetched E :=
  inr (Some {| GetValue := None; GetOdataNextLink := None;
               GetOdataCount := Some n |}).

Definition users_count_fails : Script :=
  {| script_env := no_env;
     script_credential := λ _, None;
     script_token := None;
     script_users := λ _ _ _, inl "503 Service Unavailable";
     script_devices := λ _ _ _, counted 5;
     script_counts := λ _ c,
       match c with
       | ApplicationsC => counted 7
       | _ => inr None
       end |}.

(** A user as the directory may return it, without display name. *)
Definition nameless : User :=
  {| user_GetId := Some "u9";
     user_GetUserPrincipalName := Some "u9@example.org";
     user_GetDisplayName := None;
     user_GetAccountEnabled := None;
     user_GetUserType := None;
     user_GetCreationType := None |}.

(** A user with the three unguarded fields and nothing else. *)
Definition bare : User :=
  {| user_GetId := Some "u7";
     user_GetUserPrincipalName := Some "u7@example.org";
     user_GetDisplayName := Some "User Seven";
     user_GetAccountEnabled := None;
     user_GetUserType := None;
     user_GetCreationType := None |}.

Definition with_users (cfg : Config) (cache : gmap string (list User))
    : EntityCollector User :=
  set_entityList (λ _, cache) (NewUsersCollector cfg).

(** ** Pure views used by the statements *)

#[global] Instance Domain_eq_dec : EqDecision Domain.
Proof. solve_decision. Defined.

(** The tenant [GetGraphClient] of [Hardened] works for after it has resolved
    the empty tenant from the environment. *)
Definition effective_tenant {W} (Γ : World W) (tenantID : string) (w : W)
    : string :=
  if decide (tenantID = "") then Getenv Γ "AZURE_TENANT_ID" w else tenantID.

Section Views.
Context {E : Type}.




(** What [Collect] does to the collector for one tenant of the cache, when
    [values] are the label values of the entities. *)
Context (values : string → E → list string).


End Views.


(** The label values [UsersCollector.labels] computes, when the unguarded
    fields are [id], [upn] and [dn]. *)
Definition user_values (tenantID id upn dn : string) (u : User) : list string :=
  [ tenantID; id; upn; dn;
    match user_GetAccountEnabled u with Some true => "true" | _ => "false" end;
    match user_GetUserType u with Some t => t | None => "unknown" end;
    match user_GetCreationType u with Some t => t | None => "unknown" end ].

(** The answers of the world to the five count queries of the general
    collector, asked in the collector's order from the world state [w]. *)
Inductive Answer : Type :=
| Failed
| Counted (n : Z)
| NoCount.

Definition answer {E} (f : Fetched E) : Answer :=
  match f with
  | inl _ => Failed
  | inr (Some page) =>
    match GetOdataCount page with
    | Some n => Counted n
    | None => NoCount
    end
  | inr None => NoCount
  end.

Definition count_answers {W} (Γ : World W) (client : Client) (w : W)
    : list (string * Answer) :=
  let '(r1, w) := UsersGet Γ client None None w in
  let '(r2, w) := DevicesGet Γ client None None w in
  let '(r3, w) := ApplicationsGet Γ client None None w in
  let '(r4, w) := ServicePrincipalsGet Γ client None None w in
  let '(r5, w) := GroupsGet Γ client None None w in
  [ ("user_count", answer r1); ("device_count", answer r2);
    ("application_count", answer r3);
    ("service_principal_count", answer r4); ("group_count", answer r5) ].

Definition is_failed (a : Answer) : bool :=
  match a with Failed => true | _ => false end.


(** The effect of one count query on the statistics in hand and on the
    collector. *)
Definition store (metric : string) (a : Answer) (st : gmap string Z)
    : gmap string Z :=
  match a with
  | Counted n => <[metric := n]> st
  | _ => st
  end.

Definition charged (tenantID : string) (a : Answer) (c : GeneralCollector)
    : GeneralCollector :=
  if is_failed a
  then GeneralCollector.on_gBase (set_scrapeErrors (CounterVec_Inc tenantID)) c
  else c.



(** Only the general collector is enabled. *)
Definition general_only : Config :=
  {| Tenants := ["t1"];
     General := {| ScrapeTime := 300 * Second |};
     Users := {| ScrapeTime := 0 |};
     Devices := {| ScrapeTime := -1 |};
     Applications := {| ScrapeTime := 0 |};
     ServicePrincipals := {| ScrapeTime := 0 |};
     Groups := {| ScrapeTime := 0 |};
     ConditionalAccessPolicies := {| ScrapeTime := 0 |};
     DirectoryRoles := {| ScrapeTime := 0 |} |}.


(** Concrete collectors and their first states, for the examples. *)
Definition previous_users : gmap string (list User) :=
  {[ "t1" := [user "a"; user "b"] ]}.

Definition users_with_snapshot : St (EntityCollector User) Sim :=
  start (with_users (one_tenant "t1") previous_users).

Definition fresh_users : St (EntityCollector User) Sim :=
  start (NewUsersCollector (one_tenant "t1")).

Definition fresh_devices : St (EntityCollector Device) Sim :=
  start (NewDevicesCollector (one_tenant "t1")).

(** The users collector on the base collector of its file, the devices
    collector on the base collector of its file, in a scripted world. *)
Definition users_cycle (sc : Script) (fuel : nat)
    : M (St (EntityCollector User) Sim) unit :=
  UsersCollector.collect (simulate sc) (Hardened.ops (simulate sc)) fuel.

Definition devices_cycle (sc : Script) (fuel : nat)
    : M (St (EntityCollector Device) Sim) unit :=
  DevicesCollector.collect (simulate sc) (Plain.ops (simulate sc)) fuel.

(** The label values of a user, with empty strings where an unguarded field
    is nil (never used for a complete user). *)
Definition users_values (tenantID : string) (u : User) : list string :=
  user_values tenantID (default "" (user_GetId u))
              (default "" (user_GetUserPrincipalName u))
              (default "" (user_GetDisplayName u)) u.

(** A request that goes to the collection itself, not to a next link. *)
Definition to_collection (e : Event) : Prop :=
  match e with
  | CallGet _ _ rawUrl _ => rawUrl = None
  | _ => True
  end.

(** The directory returns one user without display name. *)
Definition nameless_directory : Script :=
  {| script_env := no_env;
     script_credential := λ _, None;
     script_token := None;
     script_users := λ _ _ _, inr (Some (page [nameless] None));
     script_devices := λ _ _ _, inr (Some (page [] None));
     script_counts := λ _ _, inr None |}.

(** The directory returns one user with the unguarded fields only. *)
Definition bare_directory : Script :=
  {| script_env := no_env;
     script_credential := λ _, None;
     script_token := None;
     script_users := λ _ _ _, inr (Some (page [bare] None));
     script_devices := λ _ _ _, inr (Some (page [] None));
     script_counts := λ _ _, inr None |}.

(** A base collector on its own, to call [GetGraphClient] directly. *)
Definition fresh_base (tenants : list string) : St BaseCollector Sim :=
  start (NewBaseCollector "users" (60 * Second)
           {| Tenants := tenants;
              General := {| ScrapeTime := 60 * Second |};
              Users := {| ScrapeTime := 60 * Second |};
              Devices := {| ScrapeTime := 60 * Second |};
              Applications := {| ScrapeTime := 0 |};
              ServicePrincipals := {| ScrapeTime := 0 |};
              Groups := {| ScrapeTime := 0 |};
              ConditionalAccessPolicies := {| ScrapeTime := 0 |};
              DirectoryRoles := {| ScrapeTime := 0 |} |}).

(** A world in which every step of the client creation succeeds. *)
Definition creation_succeeds {W} (Γ : World W) : Prop :=
  (∀ t w, ∃ cred w', NewDefaultAzureCredential Γ t w = (inr cred, w'))
  ∧ (∀ cred scopes w, ∃ w', GetToken Γ cred scopes w = (inr tt, w'))
  ∧ (∀ cred w, ∃ auth w',
       NewAzureIdentityAuthenticationProvider Γ cred w = (inr auth, w'))
  ∧ (∀ auth w, ∃ adapter w', NewGraphRequestAdapter Γ auth w = (inr adapter, w')).

(** What the interleaving argument needs of the two critical sections, for
    the tenant [tenantID]. *)
Record Factory {W} (fast : string → M (St BaseCollector W) (option Client))
    (slow : string → M (St BaseCollector W) (Error + Client))
    (tenantID : string) : Prop := {
  factory_fast : ∀ s, fast tenantID s = (Val (graphClients (coll s) !! tenantID), s);
  factory_hit : ∀ s client,
    graphClients (coll s) !! tenantID = Some client →
    slow tenantID s = (Val (inr client), s);
  factory_miss : ∀ s,
    graphClients (coll s) !! tenantID = None →
    ∃ client s', slow tenantID s = (Val (inr client), s')
      ∧ graphClients (coll s') !! tenantID = Some client
      ∧ constructed_clients (trace s')
        = constructed_clients (trace s) ++ [client]
}.

(** The invariant of the interleavings, from the state [s0] on: either no
    client exists yet and no caller has returned, or one client was
    constructed and every caller that has returned holds it. *)
Definition one_client {W} (tenantID : string) (s0 : St BaseCollector W)
    (callers : list Caller) (s : St BaseCollector W) : Prop :=
  (graphClients (coll s) !! tenantID = None
   ∧ (∀ i r, callers !! i ≠ Some (Returned r))
   ∧ constructed_clients (trace s) = constructed_clients (trace s0))
  ∨ (∃ client,
       graphClients (coll s) !! tenantID = Some client
       ∧ (∀ i r, callers !! i = Some (Returned r) → r = inr client)
       ∧ constructed_clients (trace s)
         = constructed_clients (trace s0) ++ [client]).

(** One iteration of the refresh loop as the collector with [recover] runs
    it: the cycle, whatever its end, then the sleep of the scrape interval. *)
Definition after_cycle {W C} (Γ : World W) (scrape : C → Duration)
    (collect : M (St C W) unit) (s : St C W) : St C W :=
  let s' := snd (collect s) in
  {| coll := coll s'; world := Sleep Γ (scrape (coll s')) (world s');
     trace := trace s' ++ [CallSleep (scrape (coll s'))] |}.

Definition devices_scrape (c : EntityCollector Device) : Duration :=
  scrapeTime (Base c).

Definition users_scrape (c : EntityCollector User) : Duration :=
  scrapeTime (Base c).

Definition fresh_general : St GeneralCollector Sim :=
  start (NewGeneralCollector (one_tenant "t1")).

(** The general collector after a cycle and a render in which every count
    was answered: users 3, devices 5, applications 7. *)
Definition all_counted : Script :=
  {| script_env := no_env;
     script_credential := λ _, None;
     script_token := None;
     script_users := λ _ _ _, counted 3;
     script_devices := λ _ _ _, counted 5;
     script_counts := λ _ c,
       match c with
       | ApplicationsC => counted 7
       | _ => inr None
       end |}.

Definition general_cycle (sc : Script) : M (St GeneralCollector Sim) unit :=
  GeneralCollector.collect (simulate sc) (Plain.ops (simulate sc)).

Definition general_exposed : St GeneralCollector Sim :=
  snd (GeneralCollector.Collect (snd (general_cycle all_counted fresh_general))).

(** Two states of the base collector with the same scrape metrics. *)
Definition same_metrics (c c' : BaseCollector) : Prop :=
  scrapeErrors c' = scrapeErrors c
  ∧ scrapeDuration c' = scrapeDuration c
  ∧ lastScrapeTime c' = lastScrapeTime c.

(** ** package main: masking values for the debug endpoint *)

(** Go strings are byte sequences; [string] is the list of the bytes. *)
Fixpoint string_take (n : nat) (s : string) : string :=
  match n, s with
  | S n', String a s' => String a (string_take n' s')
  | _, _ => EmptyString
  end.

Fixpoint string_drop (n : nat) (s : string) : string :=
  match n, s with
  | S n', String _ s' => string_drop n' s'
  | _, _ => s
  end.

Definition slice_out_of_range : string :=
  "runtime error: slice bounds out of range".

(** [s[i:]] and [s[:j]] with the bounds check of the runtime; the indices are
    Go [int]s and may be negative.  The panic value stands for the runtime
    error, whose text also carries the offending index. *)
Definition slice_from {S} (s : string) (i : Z) : M S string :=
  if decide (0 ≤ i ≤ Z.of_nat (String.length s))
  then ret (string_drop (Z.to_nat i) s)
  else panic slice_out_of_range.

Definition slice_to {S} (s : string) (j : Z) : M S string :=
  if decide (0 ≤ j ≤ Z.of_nat (String.length s))
  then ret (string_take (Z.to_nat j) s)
  else panic slice_out_of_range.

(** [maskValue]: masks part of a string value for logging. *)
Definition maskValue {S} (value : string) : M S string :=
  if decide (value = "") then ret "<not set>"
  else if decide (Z.of_nat (String.length value) ≤ 8) then
    let* last := slice_from value (Z.of_nat (String.length value) - 4) in
    ret ("****" +:+ last)
  else
    let* first := slice_to value 4 in
    let* last := slice_from value (Z.of_nat (String.length value) - 4) in
    ret (first +:+ "****" +:+ last).

(** ** The label names of the info vectors

    As [NewUsersCollector] and [NewDevicesCollector] declare them; a call of
    [WithLabelValues] with another number of values panics. *)
Definition usersInfo_label_names : list string :=
  [ "tenant_id"; "user_id"; "user_principal_name"; "display_name";
    "account_enabled"; "user_type"; "creation_type" ].

Definition devicesInfo_label_names : list string :=
  [ "tenant_id"; "device_id"; "display_name"; "device_category";
    "operating_system"; "operating_system_version"; "trust_type";
    "enrollment_type"; "account_enabled"; "management_type"; "ownership";
    "registration_datetime" ].



(** ** More views and scripted worlds *)

(** The domains [main] wires, in its order. *)
Definition wired_domains : list Domain := [DGeneral; DUsers; DDevices].

(** The five count requests of the general collector, in its order. *)
Definition count_requests (client : Client) : list Event :=
  [ CallGet client UsersC None None; CallGet client DevicesC None None;
    CallGet client ApplicationsC None None;
    CallGet client ServicePrincipalsC None None;
    CallGet client GroupsC None None ].

(** Two tenants; the credential chain of the first cannot be built. *)
Definition two_tenants : Config :=
  {| Tenants := ["t1"; "t2"];
     General := {| ScrapeTime := 60 * Second |};
     Users := {| ScrapeTime := 60 * Second |};
     Devices := {| ScrapeTime := 60 * Second |};
     Applications := {| ScrapeTime := 0 |};
     ServicePrincipals := {| ScrapeTime := 0 |};
     Groups := {| ScrapeTime := 0 |};
     ConditionalAccessPolicies := {| ScrapeTime := 0 |};
     DirectoryRoles := {| ScrapeTime := 0 |} |}.

Definition first_tenant_down : Script :=
  {| script_env := no_env;
     script_credential := λ t,
       if decide (t = "t1") then Some "no credential source available" else None;
     script_token := None;
     script_users := λ _ _ _, inr (Some (page [user "u1"] None));
     script_devices := λ _ _ _, inr (Some (page [device "d1"] None));
     script_counts := λ _ _, inr None |}.


(** A user of an earlier snapshot that the directory no longer returns. *)
Definition users_rendered_before : St (EntityCollector User) Sim :=
  snd (UsersCollector.Collect users_with_snapshot).

(** A collect closure that always panics. *)
Definition always_panics {W C} : M (St C W) unit := panic "boom".

(** A collect closure that always returns. *)
Definition always_returns {W C} : M (St C W) unit := ret tt.

(** The gauge children of [c] are still children in [c']: every total that
    has a child keeps one, and every info sample keeps its value or is set
    to 1. *)
Definition keeps_samples {E} (c c' : EntityCollector E) : Prop :=
  dom (entityTotal c) ⊆ dom (entityTotal c')
  ∧ ∀ l v, entityInfo c !! l = Some v →
           entityInfo c' !! l = Some v ∨ entityInfo c' !! l = Some 1.

(** ** Scripted worlds for incomplete records and unvalidated tokens *)

(** The directory returns a user without display name, then a user with the
    three unguarded fields. *)
Definition mixed_directory : Script :=
  {| script_env := no_env;
     script_credential := λ _, None;
     script_token := None;
     script_users := λ _ _ _, inr (Some (page [nameless; bare] None));
     script_devices := λ _ _ _, inr (Some (page [] None));
     script_counts := λ _ _, inr None |}.

(** The first request of a cycle is answered one user without display name,
    every later request an empty page. *)
Definition nameless_then_empty : Script :=
  {| script_env := no_env;
     script_credential := λ _, None;
     script_token := None;
     script_users := λ n _ _,
       match n with
       | O => inr (Some (page [nameless] None))
       | _ => inr (Some (page [] None))
       end;
     script_devices := λ _ _ _, inr (Some (page [] None));
     script_counts := λ _ _, inr None |}.

(** Two tenants; the second was fetched with two users and rendered. *)
Definition second_tenant_rendered : St (EntityCollector User) Sim :=
  snd (UsersCollector.Collect
         (start (with_users two_tenants {[ "t2" := [user "a"; user "b"] ]}))).

(** ** The label validation of the Prometheus vectors

    [vec.WithLabelValues(lvs...)] of client_golang validates its arguments
    and panics with the error of the validation: the number of values must be
    the number of label names the vector was declared with, and every value
    must be valid UTF-8 ([utf8.ValidString]).  [CounterVec_Inc],
    [SummaryVec_Observe] and the inserts into the gauge vectors above are the
    calls on valid arguments. *)

Definition in_range (lo hi : N) (b : Ascii.ascii) : bool :=
  ((lo <=? Ascii.N_of_ascii b) && (Ascii.N_of_ascii b <=? hi))%N.

(** A continuation byte, [10xxxxxx]. *)
Definition continuation (b : Ascii.ascii) : bool := in_range 0x80 0xBF b.

(** The second byte of a three-byte sequence: no overlong encoding after
    [E0], no surrogate after [ED]. *)
Definition second_of_three (b0 b1 : Ascii.ascii) : bool :=
  if in_range 0xE0 0xE0 b0 then in_range 0xA0 0xBF b1
  else if in_range 0xED 0xED b0 then in_range 0x80 0x9F b1
  else continuation b1.

(** The second byte of a four-byte sequence: no overlong encoding after
    [F0], nothing beyond U+10FFFF after [F4]. *)
Definition second_of_four (b0 b1 : Ascii.ascii) : bool :=
  if in_range 0xF0 0xF0 b0 then in_range 0x90 0xBF b1
  else if in_range 0xF4 0xF4 b0 then in_range 0x80 0x8F b1
  else continuation b1.

(** [utf8.ValidString]: the bytes of [s] are a sequence of well-formed UTF-8
    encodings. *)
Fixpoint ValidString (s : string) : bool :=
  match s with
  | EmptyString => true
  | String b0 s1 =>
    if in_range 0x00 0x7F b0 then ValidString s1
    else
      match s1 with
      | EmptyString => false
      | String b1 s2 =>
        if in_range 0xC2 0xDF b0 then continuation b1 && ValidString s2
        else
          match s2 with
          | EmptyString => false
          | String b2 s3 =>
            if in_range 0xE0 0xEF b0 then
              second_of_three b0 b1 && continuation b2 && ValidString s3
            else
              match s3 with
              | EmptyString => false
              | String b3 s4 =>
                in_range 0xF0 0xF4 b0 && second_of_four b0 b1
                && continuation b2 && continuation b3 && ValidString s4
              end
          end
      end
  end.

Definition inconsistent_cardinality : string := "inconsistent label cardinality".

Definition invalid_label_value : string := "label value is not valid UTF-8".

Definition WithLabelValues {S} (names values : list string) : M S unit :=
  if decide (length values = length names) then
    if forallb ValidString values then ret tt else panic invalid_label_value
  else panic inconsistent_cardinality.

(** The label names of the three vectors of the base collector. *)
Definition base_label_names : list string := ["tenant_id"].

(** The byte [0xFF] alone: a tenant id that is not valid UTF-8. *)
Definition not_utf8 : string := String (Ascii.ascii_of_N 255) EmptyString.

(** *** The cycle of the general collector with the validation written out

    [collect] of the general collector once more, each [WithLabelValues] of
    the source being a call that may panic.  On tenant ids that are valid
    UTF-8 it is [GeneralCollector.collect]. *)

Module Checked.
Section Checked.
Context {W : Type} (Γ : World W) (base : BaseOps W).

(** [c.scrapeErrors.WithLabelValues(tenantID).Inc()] *)
Definition scrapeErrors_Inc (tenantID : string)
    : M (St GeneralCollector W) unit :=
  WithLabelValues base_label_names [tenantID] ;;
  GeneralCollector.scrapeErrors_Inc tenantID.

Definition count {E} (Get : Client → option string → option RequestConfiguration →
                            W → Fetched E * W)
    (which : Collection) (metric : string)
    (tenantID : string) (client : Client) (stats : gmap string Z)
    : M (St GeneralCollector W) (gmap string Z) :=
  let* fetched := extern (Get client None None)
                         (λ _, CallGet client which None None) in
  match fetched with
  | inl err => scrapeErrors_Inc tenantID ;; ret stats
  | inr (Some page) =>
    match GetOdataCount page with
    | Some n => ret (<[metric := n]> stats)
    | None => ret stats
    end
  | inr None => ret stats
  end.

Definition collect_tenant (tenantID : string)
    : M (St GeneralCollector W) unit :=
  let* start := time_Now Γ in
  let* got := embedded gBase GeneralCollector.set_gBase
                       (ops_GetGraphClient base tenantID) in
  match got with
  | inl err => scrapeErrors_Inc tenantID
  | inr client =>
    let stats : gmap string Z := ∅ in
    let* stats := count (UsersGet Γ) UsersC "user_count"
                        tenantID client stats in
    let* stats := count (DevicesGet Γ) DevicesC "device_count"
                        tenantID client stats in
    let* stats := count (ApplicationsGet Γ) ApplicationsC "application_count"
                        tenantID client stats in
    let* stats := count (ServicePrincipalsGet Γ) ServicePrincipalsC
                        "service_principal_count" tenantID client stats in
    let* stats := count (GroupsGet Γ) GroupsC "group_count"
                        tenantID client stats in
    update (GeneralCollector.set_stats (<[tenantID := stats]>)) ;;
    let* finish := time_Now Γ in
    WithLabelValues base_label_names [tenantID] ;;
    update (GeneralCollector.on_gBase
              (set_scrapeDuration
                 (SummaryVec_Observe tenantID (finish - start)))) ;;
    WithLabelValues base_label_names [tenantID] ;;
    let* now := time_Now Γ in
    update (GeneralCollector.on_gBase
              (set_lastScrapeTime (<[tenantID := now `div` Second]>)))
  end.

Definition collect : M (St GeneralCollector W) unit :=
  let* tenants := embedded gBase GeneralCollector.set_gBase
                           (ops_GetTenants base) in
  for_each tenants collect_tenant.

End Checked.
End Checked.

(** A general collector whose configuration names no tenant, in a world
    whose [AZURE_TENANT_ID] is not valid UTF-8. *)
Definition general_without_tenants : St GeneralCollector Sim :=
  start (NewGeneralCollector
           {| Tenants := [];
              General := {| ScrapeTime := 60 * Second |};
              Users := {| ScrapeTime := 0 |};
              Devices := {| ScrapeTime := 0 |};
              Applications := {| ScrapeTime := 0 |};
              ServicePrincipals := {| ScrapeTime := 0 |};
              Groups := {| ScrapeTime := 0 |};
              ConditionalAccessPolicies := {| ScrapeTime := 0 |};
              DirectoryRoles := {| ScrapeTime := 0 |} |}).

Definition general_scrape (c : GeneralCollector) : Duration :=
  scrapeTime (gBase c).
(** ** Facts about the monad and the primitives *)

Section MonadFacts.
Context {S A B : Type}.

Lemma bind_Val (m : M S A) (k : A → M S B) s a s' :
  m s = (Val a, s') → bind m k s = k a s'.
Proof. intros H. unfold bind. by rewrite H. Qed.

Lemma bind_Panic (m : M S A) (k : A → M S B) s v s' :
  m s = (Panic v, s') → bind m k s = (Panic v, s').
Proof. intros H. unfold bind. by rewrite H. Qed.

Lemma bind_Running (m : M S A) (k : A → M S B) s s' :
  m s = (Running, s') → bind m k s = (Running, s').
Proof. intros H. unfold bind. by rewrite H. Qed.
End MonadFacts.

Section PrimitiveFacts.
Context {W : Type} (Γ : World W) {C : Type}.

Lemma time_Now_eq (s : St C W) :
  time_Now Γ s
  = (Val (fst (Now Γ (world s))),
     {| coll := coll s; world := snd (Now Γ (world s)); trace := trace s |}).
Proof. unfold time_Now, peek. by destruct (Now Γ (world s)). Qed.

Lemma update_eq (f : C → C) (s : St C W) :
  update f s
  = (Val tt, {| coll := f (coll s); world := world s; trace := trace s |}).
Proof. reflexivity. Qed.
End PrimitiveFacts.

Ltac decide_by_computation :=
  match goal with
  | |- ?P => apply (@bool_decide_unpack P _); vm_compute; exact I
  end.

(** ** [IsEnabled] and the wiring of [main] *)

Lemma Seconds_nonpos d : Qle_bool (Seconds d) 0 = true ↔ d ≤ 0.
Proof.
  unfold Seconds. rewrite Qle_bool_iff.
  pose proof (Z.quot_rem' d Second) as Hd.
  unfold Qdiv. change (/ inject_Z Second)%Q with (1 # 1000000000)%Q.
  change Second with 1000000000 in Hd |- *.
  generalize dependent (d ÷ 1000000000). generalize (d `rem` 1000000000).
  intros r q Hd. unfold Qle, Qplus, Qmult, inject_Z. cbn [Qnum Qden].
  lia.
Qed.

Lemma IsEnabled_spec c : IsEnabled c = true ↔ 0 < ScrapeTime c.
Proof.
  unfold IsEnabled.
  rewrite negb_true_iff, <- not_true_iff_false, Seconds_nonpos. lia.
Qed.

Lemma IsEnabled_false c : ScrapeTime c ≤ 0 → IsEnabled c = false.
Proof. intros H. apply not_true_iff_false. rewrite IsEnabled_spec. lia. Qed.

(** C9.  A domain whose scrape interval is zero or negative is disabled:
    [IsEnabled] answers false, [main] does not construct its collector, starts
    no refresh goroutine for it and registers none of its metric families. *)
Theorem disabled_domain_is_not_wired (cfg : Config) (d : Domain) :
  ScrapeTime (domain_config cfg d) ≤ 0 →
  IsEnabled (domain_config cfg d) = false
  ∧ (d ∉ constructed (main cfg))
  ∧ (d ∉ goroutines (main cfg))
  ∧ (∀ family, family ∈ domain_families d → family ∉ registry (main cfg)).
Proof.
  intros Hd. pose proof (IsEnabled_false _ Hd) as Hoff.
  split; [done|].
  rewrite <- Forall_forall.
  unfold main, enable. cbn [domain_config].
  destruct (IsEnabled (General cfg)) eqn:Hg, (IsEnabled (Users cfg)) eqn:Hu,
           (IsEnabled (Devices cfg)) eqn:Hv;
    destruct d; simpl in Hoff; try congruence.
  all: repeat split; decide_by_computation.
Qed.

Lemma disabled_domain_is_not_wired_witness :
  ScrapeTime (domain_config general_only DDevices) ≤ 0
  ∧ IsEnabled (domain_config general_only DDevices) = false
  ∧ (DDevices ∉ constructed (main general_only))
  ∧ (DDevices ∉ goroutines (main general_only))
  ∧ (∀ family, family ∈ domain_families DDevices →
               family ∉ registry (main general_only)).
Proof.
  split.
  - vm_compute. discriminate.
  - apply (disabled_domain_is_not_wired general_only DDevices).
    vm_compute. discriminate.
Defined.

(** The enabled domain of the same configuration is wired. *)
Example general_only_wires_general :
  constructed (main general_only) = [DGeneral]
  ∧ goroutines (main general_only) = [DGeneral]
  ∧ registry (main general_only) = domain_families DGeneral.
Proof. by vm_compute. Qed.

(** ** The users and devices collectors: one tenant of a cycle *)

Section EntityFacts.
Context {W : Type} (Γ : World W) {E : Type}.
Context (base : BaseOps W)
        (Get : Client → option string → option RequestConfiguration →
               W → Fetched E * W)
        (which : Collection)
        (query : RequestConfiguration).

Lemma embedded_frame {A} (m : M (St BaseCollector W) A)
    (s s' : St (EntityCollector E) W) r :
  embedded Base set_Base m s = (r, s') →
  entityList (coll s') = entityList (coll s)
  ∧ entityTotal (coll s') = entityTotal (coll s)
  ∧ entityInfo (coll s') = entityInfo (coll s).
Proof.
  unfold embedded. destruct (m _) as [r0 s0]. intros [= <- <-]. done.
Qed.

Lemma fetch_eq client cfg (s : St (EntityCollector E) W) r w' :
  Get client None cfg (world s) = (r, w') →
  fetch Get which client cfg s
  = (Val r, {| coll := coll s; world := w';
               trace := trace s ++ [CallGet client which None cfg] |}).
Proof. intros H. unfold fetch, extern. by rewrite H. Qed.




End EntityFacts.


(** ** Vectors after a run of [Set] calls *)

Section FoldInsert.
Context {K V A : Type} `{Countable K} (key : A → K) (val : A → V).



End FoldInsert.


(** ** [Collect] of the users and devices collectors *)

Section RenderFacts.
Context {W E : Type}
        (labels : string → E → M (St (EntityCollector E) W) (list string))
        (values : string → E → list string).










End RenderFacts.

(** ** Pagination: what a cycle stores for a tenant *)

Section Stored.
Context {E : Type}.



End Stored.







(** The same on a whole cycle and a render: the earlier snapshot of two users
    is gone and the total is 0. *)
Example empty_result_cycle_then_render :
  let s' := snd (users_cycle (healthy no_env) 0 users_with_snapshot) in
  let s'' := snd (UsersCollector.Collect s') in
  entityList (coll users_with_snapshot) !! "t1" = Some [user "a"; user "b"]
  ∧ entityList (coll s') !! "t1" = Some []
  ∧ fst (UsersCollector.Collect s') = Val tt
  ∧ entityTotal (coll s'') !! "t1" = Some 0.
Proof. cbv zeta. repeat split; vm_compute; reflexivity. Qed.

Example empty_result_cycle_then_render_devices :
  let s' := snd (devices_cycle (healthy no_env) 0 fresh_devices) in
  let s'' := snd (DevicesCollector.Collect (simulate (healthy no_env)) s') in
  entityList (coll s') !! "t1" = Some []
  ∧ entityTotal (coll s'') !! "t1" = Some 0.
Proof. cbv zeta. repeat split; vm_compute; reflexivity. Qed.

(** C10.  Two tenants, the second cached with two users and rendered with
    the total 2.  In the next cycle the first tenant returns one user without
    display name and the second an empty page: the cycle returns without an
    error, the entry of the second tenant is the empty list, and the next
    render panics on the first tenant's record, so the total of the second
    tenant is not set to 0: its gauge still holds 2. *)
Theorem incomplete_record_hides_the_empty_total :
  let s := second_tenant_rendered in
  let s' := snd (users_cycle nameless_then_empty 1 s) in
  let s'' := snd (UsersCollector.Collect s') in
  entityList (coll s) !! "t2" = Some [user "a"; user "b"]
  ∧ entityTotal (coll s) !! "t2" = Some 2
  ∧ fst (users_cycle nameless_then_empty 1 s) = Val tt
  ∧ scrapeErrors (Base (coll s')) = ∅
  ∧ entityList (coll s') !! "t1" = Some [nameless]
  ∧ entityList (coll s') !! "t2" = Some []
  ∧ fst (UsersCollector.Collect s') = Panic nil_dereference
  ∧ entityTotal (coll s'') !! "t2" = Some 2.
Proof. cbv zeta. repeat split; vm_compute; reflexivity. Qed.

(** ** Scrape duration and last scrape time *)




(** The recorded values on a cycle whose second request fails. *)
Example later_failure_still_records :
  let s' := snd (users_cycle second_fetch_fails 3 fresh_users) in
  scrapeErrors (Base (coll s')) !! "t1" = Some 1%nat
  ∧ scrapeDuration (Base (coll s')) !! "t1" = Some [Second]
  ∧ lastScrapeTime (Base (coll s')) !! "t1" = Some 2.
Proof. cbv zeta. repeat split; vm_compute; reflexivity. Qed.

(** ** Pagination: which page the loop asks for *)

(** Every request of [next_pages] goes to the collection with a nil request
    configuration, whatever the next link in hand is; a world that answers by
    request therefore answers the first page again.  Here: the loop against
    such a world, when the first page has a next link, is still running at
    any bound, the collector untouched. *)
Section SamePageAgain.
Context {W E : Type}
        (Get : Client → option string → option RequestConfiguration →
               W → Fetched E * W)
        (which : Collection) (client : Client) (first : CollectionResponse E).
Hypothesis first_has_next : has_next first = true.
Hypothesis same_answer : ∀ w, ∃ w', Get client None None w = (inr (Some first), w').

Lemma next_pages_same_page fuel tenantID acc (s : St (EntityCollector E) W) :
  ∃ s', next_pages Get which fuel tenantID client first acc s = (Running, s')
    ∧ coll s' = coll s
    ∧ (Forall to_collection (trace s) → Forall to_collection (trace s')).
Proof.
  revert acc s. induction fuel as [|fuel IH]; intros acc s; simpl;
    rewrite first_has_next.
  - by exists s.
  - destruct (same_answer (world s)) as [w' Hw'].
    erewrite bind_Val; [|by apply fetch_eq].
    simpl. unfold bind at 1. simpl.
    destruct (IH (append_value acc first)
                 {| coll := coll s; world := w';
                    trace := trace s ++ [CallGet client which None None] |})
      as (s' & -> & Hc & Ht).
    exists s'. split; [done|]. split; [done|].
    intros Hs. apply Ht. simpl. apply Forall_app. split; [done|].
    by repeat constructor.
Qed.

Lemma collect_tenant_same_page (Γ : World W) (base : BaseOps W)
    (query : RequestConfiguration) fuel tenantID
    (s s1 : St (EntityCollector E) W) w2 :
  embedded Base set_Base (ops_GetGraphClient base tenantID)
           (snd (time_Now Γ s)) = (Val (inr client), s1) →
  Get client None (Some query) (world s1) = (inr (Some first), w2) →
  ∃ s', collect_tenant Γ base Get which query fuel tenantID s = (Running, s')
    ∧ entityList (coll s') = entityList (coll s)
    ∧ (Forall to_collection (trace s1) → Forall to_collection (trace s')).
Proof.
  intros Hclient Hget. unfold collect_tenant.
  erewrite bind_Val; [|apply time_Now_eq].
  pose proof Hclient as Hframe. apply embedded_frame in Hframe.
  rewrite time_Now_eq in Hclient, Hframe. simpl in Hclient, Hframe.
  destruct Hframe as (HL & _ & _).
  erewrite bind_Val; [|exact Hclient].
  cbv beta iota.
  erewrite bind_Val; [|apply fetch_eq; exact Hget].
  cbv beta iota. unfold bind at 1. simpl.
  destruct (next_pages_same_page fuel tenantID (append_value [] first)
              {| coll := coll s1; world := w2;
                 trace := trace s1 ++ [CallGet client which None (Some query)] |})
    as (s' & Hrun & Hc & Ht).
  exists s'. split; [by erewrite bind_Running|].
  split; [by rewrite Hc|].
  intros Hs1. apply Ht. simpl. apply Forall_app. split; [done|].
  by repeat constructor.
Qed.
End SamePageAgain.

(** C2.  The directory has two pages and answers by request.  At any bound
    the cycle is still in the pagination loop of the tenant: the list
    [u1; u2] (resp. [d1; d2]) of the paginated result is never stored, and no
    request of the cycle carries the next link. *)
Theorem next_link_is_not_followed (fuel : nat) :
  let Γ := simulate two_pages in
  let first_users := page [user "u1"] (Some second_page) in
  let first_devices := page [device "d1"] (Some second_page) in
  let u := users_cycle two_pages fuel fresh_users in
  let d := devices_cycle two_pages fuel fresh_devices in
  entities_of (spec_paginated_result (UsersGet Γ) 3%nat 5 sim_start first_users)
    = [user "u1"; user "u2"]
  ∧ entities_of (spec_paginated_result (DevicesGet Γ) 3%nat 5 sim_start first_devices)
    = [device "d1"; device "d2"]
  ∧ (fst u = Running
     ∧ entityList (coll (snd u)) !! "t1" = None
     ∧ Forall to_collection (trace (snd u)))
  ∧ (fst d = Running
     ∧ entityList (coll (snd d)) !! "t1" = None
     ∧ Forall to_collection (trace (snd d))).
Proof.
  cbv zeta. split; [by vm_compute|]. split; [by vm_compute|]. split.
  - unfold users_cycle, UsersCollector.collect, collect.
    erewrite bind_Val; [|vm_compute; reflexivity].
    simpl for_each.
    edestruct (collect_tenant_same_page
                 (UsersGet (simulate two_pages)) UsersC 3%nat
                 (page [user "u1"] (Some second_page)) eq_refl
                 (λ w, ex_intro _ _ eq_refl)
                 (simulate two_pages) (Hardened.ops (simulate two_pages))
                 UsersCollector.query fuel "t1" fresh_users)
      as (s' & Hrun & HL & Ht);
      [vm_compute; reflexivity|vm_compute; reflexivity|].
    erewrite bind_Running; [|exact Hrun].
    simpl. split; [done|]. split.
    + rewrite HL. by vm_compute.
    + apply Ht. vm_compute. by repeat constructor.
  - unfold devices_cycle, DevicesCollector.collect, collect.
    erewrite bind_Val; [|vm_compute; reflexivity].
    simpl for_each.
    edestruct (collect_tenant_same_page
                 (DevicesGet (simulate two_pages)) DevicesC 3%nat
                 (page [device "d1"] (Some second_page)) eq_refl
                 (λ w, ex_intro _ _ eq_refl)
                 (simulate two_pages) (Plain.ops (simulate two_pages))
                 DevicesCollector.query fuel "t1" fresh_devices)
      as (s' & Hrun & HL & Ht);
      [vm_compute; reflexivity|vm_compute; reflexivity|].
    erewrite bind_Running; [|exact Hrun].
    simpl. split; [done|]. split.
    + rewrite HL. by vm_compute.
    + apply Ht. vm_compute. by repeat constructor.
Qed.

(** ** Rendering user records *)

(** C5.  A user returned without display name is cached as returned, and
    the render of that cache panics with a nil dereference; a complete user
    cached after it gets no info sample, although the fields the render
    guards ([accountEnabled], [userType], [creationType]) are absent in both
    records. *)
Theorem render_faults_on_absent_display_name :
  let s' := snd (users_cycle nameless_directory 1 fresh_users) in
  let m' := snd (users_cycle mixed_directory 1 fresh_users) in
  user_GetDisplayName nameless = None
  ∧ fst (users_cycle nameless_directory 1 fresh_users) = Val tt
  ∧ entityList (coll s') !! "t1" = Some [nameless]
  ∧ fst (UsersCollector.Collect s') = Panic nil_dereference
  ∧ fst (users_cycle mixed_directory 1 fresh_users) = Val tt
  ∧ entityList (coll m') !! "t1" = Some [nameless; bare]
  ∧ fst (UsersCollector.Collect m') = Panic nil_dereference
  ∧ entityInfo (coll (snd (UsersCollector.Collect m'))) = ∅.
Proof. cbv zeta. repeat split; vm_compute; reflexivity. Qed.



(** The sample of the user returned with [accountEnabled] absent. *)
Example absent_account_enabled_renders_false :
  let s := snd (users_cycle bare_directory 1 fresh_users) in
  let s' := snd (UsersCollector.Collect s) in
  fst (UsersCollector.Collect s) = Val tt
  ∧ entityTotal (coll s') !! "t1" = Some 1
  ∧ entityInfo (coll s')
      !! [ "t1"; "u7"; "u7@example.org"; "User Seven"; "false"; "unknown"; "unknown" ]
    = Some 1.
Proof. cbv zeta. repeat split; vm_compute; reflexivity. Qed.

(** ** The client factory *)

Section HardenedFactory.
Context {W : Type} (Γ : World W).

(** A cached client is returned as it is: no call, no change. *)
Lemma Hardened_cached tenantID client (s : St BaseCollector W) :
  graphClients (coll s) !! tenantID = Some client →
  Hardened.GetGraphClient Γ tenantID s = (Val (inr client), s).
Proof.
  intros Hc. unfold Hardened.GetGraphClient, Hardened.GetGraphClient_fast.
  unfold bind, this, gets, ret. by rewrite Hc.
Qed.

(** The state in which the slow path asks for a credential. *)
Lemma Hardened_resolves tenantID (s : St BaseCollector W) :
  (if decide (tenantID = "")
   then os_Getenv Γ "AZURE_TENANT_ID"
   else ret tenantID) s
  = (Val (effective_tenant Γ tenantID (world s)), s).
Proof.
  unfold effective_tenant. destruct (decide (tenantID = "")); [|done].
  unfold os_Getenv, peek. by destruct s.
Qed.

Lemma Hardened_uncached tenantID (s : St BaseCollector W) :
  graphClients (coll s) !! tenantID = None →
  Hardened.GetGraphClient Γ tenantID s
  = (let tenantID := effective_tenant Γ tenantID (world s) in
     let* cred := extern (NewDefaultAzureCredential Γ tenantID)
                         (λ _, CallNewDefaultAzureCredential tenantID) in
     match cred with
     | inl err => ret (inl ("failed to create credential: " +:+ err))
     | inr cred =>
       let* tok := extern (GetToken Γ cred graph_scopes)
                          (λ _, CallGetToken cred graph_scopes) in
       match tok with
       | inl err => ret (inl ("failed to validate credential: " +:+ err))
       | inr _ =>
         let* authProvider :=
           extern (NewAzureIdentityAuthenticationProvider Γ cred)
                  (λ _, CallNewAzureIdentityAuthenticationProvider cred) in
         match authProvider with
         | inl err => ret (inl ("failed to create auth provider: " +:+ err))
         | inr authProvider =>
           let* adapter := extern (NewGraphRequestAdapter Γ authProvider)
                                  (λ _, CallNewGraphRequestAdapter authProvider) in
           match adapter with
           | inl err => ret (inl ("failed to create adapter: " +:+ err))
           | inr adapter =>
             let* client := extern (NewGraphServiceClient Γ adapter)
                                   (CallNewGraphServiceClient adapter) in
             update (set_graphClients (<[tenantID := client]>)) ;;
             ret (inr client)
           end
         end
       end
     end) s.
Proof.
  intros Hc. unfold Hardened.GetGraphClient, Hardened.GetGraphClient_fast.
  unfold bind at 1. unfold this, gets, bind at 1, ret at 1. rewrite Hc.
  unfold Hardened.GetGraphClient_slow.
  unfold bind at 1. unfold this, gets. rewrite Hc.
  unfold bind at 1. by rewrite Hardened_resolves.
Qed.

(** A call for a tenant that is not cached asks for a credential. *)
Lemma Hardened_attempts tenantID (s : St BaseCollector W) :
  graphClients (coll s) !! tenantID = None →
  ∃ tr, trace (snd (Hardened.GetGraphClient Γ tenantID s))
        = trace s
          ++ CallNewDefaultAzureCredential
               (effective_tenant Γ tenantID (world s)) :: tr.
Proof.
  intros Hc. rewrite Hardened_uncached by done. cbv zeta.
  set (t := effective_tenant Γ tenantID (world s)).
  unfold bind, extern, ret, update, modify.
  destruct (NewDefaultAzureCredential Γ t (world s)) as [[e|cred] w1]; simpl.
  { by exists []. }
  destruct (GetToken Γ cred graph_scopes w1) as [[e|?] w2]; simpl.
  { eexists. by rewrite <- app_assoc. }
  destruct (NewAzureIdentityAuthenticationProvider Γ cred w2) as [[e|auth] w3];
    simpl.
  { eexists. by rewrite <- !app_assoc. }
  destruct (NewGraphRequestAdapter Γ auth w3) as [[e|adapter] w4]; simpl.
  { eexists. by rewrite <- !app_assoc. }
  destruct (NewGraphServiceClient Γ adapter w4) as [client w5]; simpl.
  eexists. by rewrite <- !app_assoc.
Qed.
End HardenedFactory.

(** The two messages differ whatever the underlying errors are. *)
Lemma credential_errors_differ (e1 e2 : Error) :
  "failed to create credential: " +:+ e1
  ≠ "failed to validate credential: " +:+ e2.
Proof. simpl. discriminate. Qed.

(** X24.  The base collector of collector/users.go: for a tenant that is
    not cached, a failure to build the credential and a failure to validate
    it by a token request are returned as two different errors; in both cases
    the client cache is left as it was, and the next call for the tenant asks
    for a credential again. *)
Theorem credential_failures_are_distinct_and_not_cached
    {W : Type} (Γ : World W) (tenantID : string) (s : St BaseCollector W) :
  graphClients (coll s) !! tenantID = None →
  let tenant := effective_tenant Γ tenantID (world s) in
  let retried (s' : St BaseCollector W) :=
    graphClients (coll s') = graphClients (coll s)
    ∧ ∃ tr, trace (snd (Hardened.GetGraphClient Γ tenantID s'))
            = trace s'
              ++ CallNewDefaultAzureCredential
                   (effective_tenant Γ tenantID (world s')) :: tr in
  (∀ e w1,
     NewDefaultAzureCredential Γ tenant (world s) = (inl e, w1) →
     ∃ s', Hardened.GetGraphClient Γ tenantID s
           = (Val (inl ("failed to create credential: " +:+ e)), s')
       ∧ retried s')
  ∧ (∀ cred w1 e w2,
       NewDefaultAzureCredential Γ tenant (world s) = (inr cred, w1) →
       GetToken Γ cred graph_scopes w1 = (inl e, w2) →
       ∃ s', Hardened.GetGraphClient Γ tenantID s
             = (Val (inl ("failed to validate credential: " +:+ e)), s')
         ∧ retried s')
  ∧ (∀ e1 e2 : Error,
       "failed to create credential: " +:+ e1
       ≠ "failed to validate credential: " +:+ e2).
Proof.
  intros Hc. cbv zeta. split; [|split].
  - intros e w1 Hcred. rewrite Hardened_uncached by done. cbv zeta.
    unfold bind, extern. rewrite Hcred. eexists. split; [reflexivity|].
    split; [done|]. by apply Hardened_attempts.
  - intros cred w1 e w2 Hcred Htok. rewrite Hardened_uncached by done. cbv zeta.
    unfold bind, extern. rewrite Hcred. simpl. rewrite Htok.
    eexists. split; [reflexivity|].
    split; [done|]. by apply Hardened_attempts.
  - apply credential_errors_differ.
Qed.

Lemma credential_failures_are_distinct_and_not_cached_witness :
  let Γ := simulate token_refused in
  let s := fresh_base ["t1"] in
  graphClients (coll s) !! "t1" = None
  ∧ (∀ e w1,
       NewDefaultAzureCredential Γ (effective_tenant Γ "t1" (world s)) (world s)
       = (inl e, w1) →
       ∃ s', Hardened.GetGraphClient Γ "t1" s
             = (Val (inl ("failed to create credential: " +:+ e)), s')
         ∧ graphClients (coll s') = graphClients (coll s)
         ∧ ∃ tr, trace (snd (Hardened.GetGraphClient Γ "t1" s'))
                 = trace s'
                   ++ CallNewDefaultAzureCredential
                        (effective_tenant Γ "t1" (world s')) :: tr)
  ∧ (∀ cred w1 e w2,
       NewDefaultAzureCredential Γ (effective_tenant Γ "t1" (world s)) (world s)
       = (inr cred, w1) →
       GetToken Γ cred graph_scopes w1 = (inl e, w2) →
       ∃ s', Hardened.GetGraphClient Γ "t1" s
             = (Val (inl ("failed to validate credential: " +:+ e)), s')
         ∧ graphClients (coll s') = graphClients (coll s)
         ∧ ∃ tr, trace (snd (Hardened.GetGraphClient Γ "t1" s'))
                 = trace s'
                   ++ CallNewDefaultAzureCredential
                        (effective_tenant Γ "t1" (world s')) :: tr)
  ∧ (∀ e1 e2 : Error,
       "failed to create credential: " +:+ e1
       ≠ "failed to validate credential: " +:+ e2).
Proof.
  cbv zeta.
  assert (H : graphClients (coll (fresh_base ["t1"])) !! "t1" = None)
    by (vm_compute; reflexivity).
  split; [exact H|].
  exact (credential_failures_are_distinct_and_not_cached
           (simulate token_refused) "t1" (fresh_base ["t1"]) H).
Defined.

(** Both failures on scripted worlds, and the retry in the next call. *)
Example credential_failure_then_retry :
  let Γ := simulate no_credential in
  let r1 := Hardened.GetGraphClient Γ "t1" (fresh_base ["t1"]) in
  let r2 := Hardened.GetGraphClient Γ "t1" (snd r1) in
  fst r1 = Val (inl "failed to create credential: no credential source available")
  ∧ graphClients (coll (snd r1)) !! "t1" = None
  ∧ trace (snd r2) = [ CallNewDefaultAzureCredential "t1";
                       CallNewDefaultAzureCredential "t1" ].
Proof. cbv zeta. repeat split; vm_compute; reflexivity. Qed.

Example token_failure_then_retry :
  let Γ := simulate token_refused in
  let r1 := Hardened.GetGraphClient Γ "t1" (fresh_base ["t1"]) in
  let r2 := Hardened.GetGraphClient Γ "t1" (snd r1) in
  fst r1 = Val (inl "failed to validate credential: AADSTS7000215: invalid client secret")
  ∧ graphClients (coll (snd r1)) !! "t1" = None
  ∧ trace (snd r2) = [ CallNewDefaultAzureCredential "t1";
                       CallGetToken 0%nat graph_scopes;
                       CallNewDefaultAzureCredential "t1";
                       CallGetToken 1%nat graph_scopes ].
Proof. cbv zeta. repeat split; vm_compute; reflexivity. Qed.

(** The base collector without token validation: a failure to build the
    credential is returned and nothing is cached. *)
Lemma Plain_credential_failure {W} (Γ : World W) tenantID
    (s : St BaseCollector W) e w1 :
  graphClients (coll s) !! tenantID = None →
  NewDefaultAzureCredential Γ tenantID (world s) = (inl e, w1) →
  ∃ s', Plain.GetGraphClient Γ tenantID s
        = (Val (inl ("failed to create credential: " +:+ e)), s')
    ∧ graphClients (coll s') = graphClients (coll s).
Proof.
  intros Hc Hcred.
  unfold Plain.GetGraphClient, Plain.GetGraphClient_fast, Plain.GetGraphClient_slow.
  unfold bind, this, gets, ret, extern. rewrite Hc. simpl. rewrite Hc, Hcred.
  eexists. split; reflexivity.
Qed.

(** The base collector without token validation never asks for a token:
    a call leaves no token request in the trace. *)
Lemma Plain_never_asks_for_a_token {W} (Γ : World W) tenantID
    (s : St BaseCollector W) cred scopes :
  CallGetToken cred scopes ∈ trace (snd (Plain.GetGraphClient Γ tenantID s)) →
  CallGetToken cred scopes ∈ trace s.
Proof.
  unfold Plain.GetGraphClient, Plain.GetGraphClient_fast, Plain.GetGraphClient_slow.
  unfold bind, this, gets, ret, extern, update, modify.
  destruct (graphClients (coll s) !! tenantID) as [c|] eqn:Hc; simpl;
    rewrite ?Hc; [done|].
  destruct (NewDefaultAzureCredential Γ tenantID (world s)) as [[e|c1] w1]; simpl.
  { rewrite elem_of_app, list_elem_of_singleton. by intros [?|?]. }
  destruct (NewAzureIdentityAuthenticationProvider Γ c1 w1) as [[e|auth] w2];
    simpl.
  { rewrite !elem_of_app, !list_elem_of_singleton. by intros [[?|?]|?]. }
  destruct (NewGraphRequestAdapter Γ auth w2) as [[e|adapter] w3]; simpl.
  { rewrite !elem_of_app, !list_elem_of_singleton. by intros [[[?|?]|?]|?]. }
  destruct (NewGraphServiceClient Γ adapter w3) as [client w4]. simpl.
  rewrite !elem_of_app, !list_elem_of_singleton. by intros [[[[?|?]|?]|?]|?].
Qed.

(** C6.  The identity provider builds the credential and refuses the token.
    [GetGraphClient] of collector/users.go returns the validation error and
    caches nothing.  [GetGraphClient] of part_004 does not ask for a token:
    the failure is not surfaced, the call returns a client and caches it, and
    the next call returns the cached client without any attempt. *)
Theorem plain_factory_caches_an_unvalidated_client :
  let Γ := simulate token_refused in
  let h := Hardened.GetGraphClient Γ "t1" (fresh_base ["t1"]) in
  let p1 := Plain.GetGraphClient Γ "t1" (fresh_base ["t1"]) in
  let p2 := Plain.GetGraphClient Γ "t1" (snd p1) in
  GetToken Γ 0%nat graph_scopes (world (snd p1))
  = (inl "AADSTS7000215: invalid client secret", world (snd p1))
  ∧ fst h = Val (inl "failed to validate credential: AADSTS7000215: invalid client secret")
  ∧ graphClients (coll (snd h)) !! "t1" = None
  ∧ fst p1 = Val (inr 3%nat)
  ∧ graphClients (coll (snd p1)) !! "t1" = Some 3%nat
  ∧ trace (snd p1) = [ CallNewDefaultAzureCredential "t1";
                       CallNewAzureIdentityAuthenticationProvider 0%nat;
                       CallNewGraphRequestAdapter 1%nat;
                       CallNewGraphServiceClient 2%nat 3%nat ]
  ∧ fst p2 = Val (inr 3%nat)
  ∧ trace (snd p2) = trace (snd p1).
Proof. cbv zeta. repeat split; vm_compute; reflexivity. Qed.

(** C4.  With [AZURE_TENANT_ID] set, a call for the empty tenant stores the
    client under the resolved tenant; the next call for the empty tenant does
    not find it and constructs a second client. *)
Theorem empty_tenant_is_created_again :
  let Γ := simulate (healthy (env_tenant "abc")) in
  let r1 := Hardened.GetGraphClient Γ "" (fresh_base [""]) in
  let r2 := Hardened.GetGraphClient Γ "" (snd r1) in
  fst r1 = Val (inr 3%nat)
  ∧ graphClients (coll (snd r1)) !! "" = None
  ∧ graphClients (coll (snd r1)) !! "abc" = Some 3%nat
  ∧ fst r2 = Val (inr 7%nat)
  ∧ constructed_clients (trace (snd r2)) = [3; 7]%nat.
Proof. cbv zeta. repeat split; vm_compute; reflexivity. Qed.

(** The same through the users collector: the tenant list holds the empty
    tenant, and two cycles construct two clients. *)
Example empty_tenant_two_cycles :
  let sc := healthy (env_tenant "abc") in
  let s0 := start (NewUsersCollector (one_tenant "")) in
  let s1 := snd (users_cycle sc 1 s0) in
  let s2 := snd (users_cycle sc 1 s1) in
  constructed_clients (trace s1) = [3%nat]
  ∧ constructed_clients (trace s2) = [3; 7]%nat.
Proof. cbv zeta. repeat split; vm_compute; reflexivity. Qed.

Section PlainFactory.
Context {W : Type} (Γ : World W).

Lemma Plain_cached tenantID client (s : St BaseCollector W) :
  graphClients (coll s) !! tenantID = Some client →
  Plain.GetGraphClient Γ tenantID s = (Val (inr client), s).
Proof.
  intros Hc. unfold Plain.GetGraphClient, Plain.GetGraphClient_fast.
  unfold bind, this, gets, ret. by rewrite Hc.
Qed.

(** A successful call leaves the client it returns in the cache, under the
    tenant it was called for. *)
Lemma Plain_stores tenantID client (s s' : St BaseCollector W) :
  Plain.GetGraphClient Γ tenantID s = (Val (inr client), s') →
  graphClients (coll s') !! tenantID = Some client.
Proof.
  destruct (graphClients (coll s) !! tenantID) as [c|] eqn:Hc.
  { rewrite (Plain_cached _ c) by done. by intros [= <- <-]. }
  unfold Plain.GetGraphClient, Plain.GetGraphClient_fast, Plain.GetGraphClient_slow.
  unfold bind, this, gets, ret, extern, update, modify. rewrite Hc. simpl.
  rewrite Hc.
  destruct (NewDefaultAzureCredential Γ tenantID (world s)) as [[e|cred] w1];
    simpl; [discriminate|].
  destruct (NewAzureIdentityAuthenticationProvider Γ cred w1) as [[e|auth] w2];
    simpl; [discriminate|].
  destruct (NewGraphRequestAdapter Γ auth w2) as [[e|adapter] w3];
    simpl; [discriminate|].
  destruct (NewGraphServiceClient Γ adapter w3) as [c w4]; simpl.
  intros [= <- <-]. simpl. apply lookup_insert_eq.
Qed.

(** Sequential idempotence: after a successful call, a call for the same
    tenant returns the same client, performs no call and changes nothing. *)
Lemma Plain_idempotent tenantID client (s s' : St BaseCollector W) :
  Plain.GetGraphClient Γ tenantID s = (Val (inr client), s') →
  Plain.GetGraphClient Γ tenantID s' = (Val (inr client), s').
Proof. intros H. apply Plain_cached. by eapply Plain_stores. Qed.

Lemma Plain_factory tenantID :
  creation_succeeds Γ →
  Factory (Plain.GetGraphClient_fast) (Plain.GetGraphClient_slow Γ) tenantID.
Proof.
  intros (Hcred & _ & Hauth & Hadapter). split.
  - intros s. unfold Plain.GetGraphClient_fast, bind, this, gets, ret. done.
  - intros s client Hc. unfold Plain.GetGraphClient_slow, bind, this, gets, ret.
    by rewrite Hc.
  - intros s Hc. unfold Plain.GetGraphClient_slow.
    unfold bind, this, gets, ret, extern, update, modify. rewrite Hc.
    destruct (Hcred tenantID (world s)) as (cred & w1 & ->). simpl.
    destruct (Hauth cred w1) as (auth & w2 & ->). simpl.
    destruct (Hadapter auth w2) as (adapter & w3 & ->). simpl.
    destruct (NewGraphServiceClient Γ adapter w3) as [c w4]. simpl.
    eexists _, _. split; [reflexivity|]. simpl. split.
    + apply lookup_insert_eq.
    + unfold constructed_clients. rewrite !omap_app. simpl.
      by rewrite !app_nil_r.
Qed.
End PlainFactory.

Section HardenedFactoryStable.
Context {W : Type} (Γ : World W).

(** With a non-empty tenant the client is stored under the tenant the call
    was made for. *)
Lemma Hardened_stores tenantID client (s s' : St BaseCollector W) :
  tenantID ≠ "" →
  Hardened.GetGraphClient Γ tenantID s = (Val (inr client), s') →
  graphClients (coll s') !! tenantID = Some client.
Proof.
  intros Hne.
  destruct (graphClients (coll s) !! tenantID) as [c|] eqn:Hc.
  { rewrite (Hardened_cached _ _ c) by done. by intros [= <- <-]. }
  rewrite Hardened_uncached by done. cbv zeta.
  unfold effective_tenant. rewrite decide_False by done.
  unfold bind, ret, extern, update, modify.
  destruct (NewDefaultAzureCredential Γ tenantID (world s)) as [[e|cred] w1];
    simpl; [discriminate|].
  destruct (GetToken Γ cred graph_scopes w1) as [[e|?] w2];
    simpl; [discriminate|].
  destruct (NewAzureIdentityAuthenticationProvider Γ cred w2) as [[e|auth] w3];
    simpl; [discriminate|].
  destruct (NewGraphRequestAdapter Γ auth w3) as [[e|adapter] w4];
    simpl; [discriminate|].
  destruct (NewGraphServiceClient Γ adapter w4) as [c w5]; simpl.
  intros [= <- <-]. simpl. apply lookup_insert_eq.
Qed.

Lemma Hardened_idempotent tenantID client (s s' : St BaseCollector W) :
  tenantID ≠ "" →
  Hardened.GetGraphClient Γ tenantID s = (Val (inr client), s') →
  Hardened.GetGraphClient Γ tenantID s' = (Val (inr client), s').
Proof. intros Hne H. apply Hardened_cached. by eapply Hardened_stores. Qed.

Lemma Hardened_factory tenantID :
  tenantID ≠ "" →
  creation_succeeds Γ →
  Factory (Hardened.GetGraphClient_fast) (Hardened.GetGraphClient_slow Γ) tenantID.
Proof.
  intros Hne (Hcred & Htok & Hauth & Hadapter). split.
  - intros s. unfold Hardened.GetGraphClient_fast, bind, this, gets, ret. done.
  - intros s client Hc.
    unfold Hardened.GetGraphClient_slow, bind, this, gets, ret. by rewrite Hc.
  - intros s Hc. unfold Hardened.GetGraphClient_slow.
    unfold bind at 1. unfold this, gets. rewrite Hc.
    unfold bind at 1. rewrite Hardened_resolves.
    unfold effective_tenant. rewrite decide_False by done.
    unfold bind, ret, extern, update, modify.
    destruct (Hcred tenantID (world s)) as (cred & w1 & ->). simpl.
    destruct (Htok cred graph_scopes w1) as (w2 & ->). simpl.
    destruct (Hauth cred w2) as (auth & w3 & ->). simpl.
    destruct (Hadapter auth w3) as (adapter & w4 & ->). simpl.
    destruct (NewGraphServiceClient Γ adapter w4) as [c w5]. simpl.
    eexists _, _. split; [reflexivity|]. simpl. split.
    + apply lookup_insert_eq.
    + unfold constructed_clients. rewrite !omap_app. simpl.
      by rewrite !app_nil_r.
Qed.
End HardenedFactoryStable.

(** *** Concurrent first requests *)

Section OneClient.
Context {W : Type}
        (fast : string → M (St BaseCollector W) (option Client))
        (slow : string → M (St BaseCollector W) (Error + Client))
        (tenantID : string)
        (F : Factory fast slow tenantID)
        (s0 : St BaseCollector W).

Lemma caller_step_one_client callers s i th :
  one_client tenantID s0 callers s →
  callers !! i = Some th →
  ∃ th' s', caller_step fast slow tenantID th s = (Val th', s')
    ∧ one_client tenantID s0 (<[i := th']> callers) s'.
Proof.
  intros Hinv Hi.
  assert (Hlt : (i < length callers)%nat) by (by eapply lookup_lt_Some).
  assert (Hupd : ∀ th' j r,
             <[i := th']> callers !! j = Some (Returned r) →
             (j = i ∧ th' = Returned r) ∨ (j ≠ i ∧ callers !! j = Some (Returned r))).
  { intros th' j r Hj. destruct (decide (j = i)) as [->|Hne].
    - rewrite list_lookup_insert_eq in Hj by done. left. split; congruence.
    - rewrite list_lookup_insert_ne in Hj by done. by right. }
  unfold one_client in *.
  destruct Hinv as [(Hnone & Hret & Htr)|(client & Hsome & Hret & Htr)].
  - destruct th as [| |r]; simpl.
    + unfold bind. rewrite (factory_fast _ _ _ F), Hnone.
      eexists _, s. split; [reflexivity|]. left. repeat split; try done.
      intros j r Hj. apply Hupd in Hj as [[_ ?]|[_ Hj]]; [done|by eapply Hret].
    + destruct (factory_miss _ _ _ F s Hnone) as (client & s' & Hslow & Hc & Hcons).
      unfold bind. rewrite Hslow. eexists _, s'. split; [reflexivity|].
      right. exists client. split; [done|]. split.
      * intros j r Hj. apply Hupd in Hj as [[_ [= <-]]|[_ Hj]]; [done|].
        by apply Hret in Hj.
      * by rewrite Hcons, Htr.
    + by apply Hret in Hi.
  - destruct th as [| |r]; simpl.
    + unfold bind. rewrite (factory_fast _ _ _ F), Hsome.
      eexists _, s. split; [reflexivity|]. right. exists client.
      repeat split; try done.
      intros j r Hj. apply Hupd in Hj as [[_ [= <-]]|[_ Hj]]; [done|by eapply Hret].
    + unfold bind. rewrite (factory_hit _ _ _ F s client Hsome).
      eexists _, s. split; [reflexivity|]. right. exists client.
      repeat split; try done.
      intros j r Hj. apply Hupd in Hj as [[_ [= <-]]|[_ Hj]]; [done|by eapply Hret].
    + eexists _, s. split; [reflexivity|]. right. exists client.
      repeat split; try done.
      intros j r' Hj. apply Hupd in Hj as [[_ [= <-]]|[_ Hj]]; by eapply Hret.
Qed.

Lemma run_callers_one_client schedule callers s :
  one_client tenantID s0 callers s →
  ∃ callers' s',
    run_callers fast slow tenantID schedule callers s = (Val callers', s')
    ∧ one_client tenantID s0 callers' s'.
Proof.
  revert callers s. induction schedule as [|i schedule IH]; intros callers s Hinv.
  - by exists callers, s.
  - simpl. destruct (callers !! i) as [th|] eqn:Hi; [|by apply IH].
    destruct (caller_step_one_client callers s i th Hinv Hi)
      as (th' & s1 & Hstep & Hinv').
    unfold bind. rewrite Hstep. by apply IH.
Qed.

(** Any number of callers asking for a tenant that is not cached, under any
    schedule: at most one client is constructed; a caller that has returned
    holds a client, and that client is the one constructed. *)
Lemma concurrent_callers_share_one_client schedule n :
  graphClients (coll s0) !! tenantID = None →
  ∃ callers s',
    run_callers fast slow tenantID schedule (replicate n Entering) s0
    = (Val callers, s')
    ∧ (constructed_clients (trace s') = constructed_clients (trace s0)
       ∨ ∃ client, constructed_clients (trace s')
                   = constructed_clients (trace s0) ++ [client])
    ∧ (∀ i r, callers !! i = Some (Returned r) →
         ∃ client, r = inr client
           ∧ constructed_clients (trace s')
             = constructed_clients (trace s0) ++ [client]).
Proof.
  intros Hnone.
  destruct (run_callers_one_client schedule (replicate n Entering) s0)
    as (callers & s' & Hrun & Hinv).
  { left. repeat split; try done.
    intros i r Hi. apply lookup_replicate in Hi as [? _]. done. }
  exists callers, s'. split; [done|].
  destruct Hinv as [(_ & Hret & Htr)|(client & _ & Hret & Htr)].
  - split; [by left|]. intros i r Hi. by apply Hret in Hi.
  - split; [right; by exists client|].
    intros i r Hi. exists client. split; [by eapply Hret|done].
Qed.
End OneClient.

(** Three callers of the base collector without token validation, each
    running its fast section before any runs its slow section. *)
Example three_callers_one_client :
  let Γ := simulate (healthy no_env) in
  let r := run_callers Plain.GetGraphClient_fast (Plain.GetGraphClient_slow Γ) "t1"
             [0; 1; 2; 2; 0; 1]%nat (replicate 3 Entering) (fresh_base ["t1"]) in
  fst r = Val [Returned (inr 3%nat); Returned (inr 3%nat); Returned (inr 3%nat)]
  ∧ constructed_clients (trace (snd r)) = [3%nat].
Proof. cbv zeta. split; vm_compute; reflexivity. Qed.

(** The same callers for the empty tenant with [AZURE_TENANT_ID] set, on the
    base collector that resolves it: each slow section constructs a client. *)
Example three_callers_three_clients :
  let Γ := simulate (healthy (env_tenant "abc")) in
  let r := run_callers Hardened.GetGraphClient_fast (Hardened.GetGraphClient_slow Γ) ""
             [0; 1; 2; 2; 0; 1]%nat (replicate 3 Entering) (fresh_base [""]) in
  fst r = Val [Returned (inr 7%nat); Returned (inr 11%nat); Returned (inr 3%nat)]
  ∧ constructed_clients (trace (snd r)) = [3; 7; 11]%nat.
Proof. cbv zeta. split; vm_compute; reflexivity. Qed.

(** ** The refresh loop *)

Section Loops.
Context {W C : Type} (Γ : World W) (scrape : C → Duration).

(** Without [recover], the panic of a cycle ends the goroutine: the loop
    does not sleep and runs no further cycle. *)
Lemma Plain_loop_panics n (collect : M (St C W) unit) s v s' :
  collect s = (Panic v, s') →
  Plain.StartCacheInvalidator Γ scrape (S n) collect s = (Panic v, s').
Proof. intros H. simpl. by erewrite bind_Panic. Qed.

(** With [recover] around the cycle, a cycle that returns or panics is
    followed by the sleep of the scrape interval and by the next cycle. *)
Lemma Hardened_cycles_step n (collect : M (St C W) unit) s :
  fst (collect s) ≠ Running →
  Hardened.cycles Γ scrape (S n) collect s
  = Hardened.cycles Γ scrape n collect (after_cycle Γ scrape collect s).
Proof.
  intros Hend. simpl. unfold bind at 1. unfold recover, after_cycle.
  destruct (collect s) as [[[]|v|] s']; simpl in *; try done.
Qed.

Lemma Hardened_cycles_survive n (collect : M (St C W) unit) s :
  (∀ s, fst (collect s) ≠ Running) →
  Hardened.cycles Γ scrape n collect s
  = (Running, Nat.iter n (after_cycle Γ scrape collect) s).
Proof.
  intros Hend. revert s. induction n as [|n IH]; intros s; [done|].
  rewrite Hardened_cycles_step by done. rewrite IH.
  by rewrite Nat.iter_succ_r.
Qed.

Lemma Hardened_loop_survives restarts n (collect : M (St C W) unit) s :
  (∀ s, fst (collect s) ≠ Running) →
  Hardened.StartCacheInvalidator Γ scrape restarts n collect s
  = (Running, Nat.iter n (after_cycle Γ scrape collect) s).
Proof.
  intros Hend. destruct restarts; simpl; by rewrite Hardened_cycles_survive.
Qed.
End Loops.

(** C3.  The goroutine of the base collector without [recover], running the
    devices collector against a world that answers a nil response: the first
    cycle panics on the nil response and the panic ends the goroutine; the
    loop never sleeps and no second cycle runs, however long it is
    observed. *)
Theorem plain_loop_ends_with_the_panic (n : nat) :
  let Γ := simulate nil_response in
  let r := Plain.StartCacheInvalidator Γ devices_scrape (S n)
             (devices_cycle nil_response 3) fresh_devices in
  fst (devices_cycle nil_response 3 fresh_devices) = Panic nil_dereference
  ∧ fst r = Panic nil_dereference
  ∧ trace (snd r)
    = [ CallNewDefaultAzureCredential "t1";
        CallNewAzureIdentityAuthenticationProvider 0%nat;
        CallNewGraphRequestAdapter 1%nat;
        CallNewGraphServiceClient 2%nat 3%nat;
        CallGet 3%nat DevicesC None (Some DevicesCollector.query) ].
Proof.
  cbv zeta.
  assert (H : devices_cycle nil_response 3 fresh_devices
              = (Panic nil_dereference,
                 snd (devices_cycle nil_response 3 fresh_devices)))
    by (vm_compute; reflexivity).
  split; [by rewrite H|].
  rewrite (Plain_loop_panics _ _ n _ _ _ _ H).
  split; [done|]. vm_compute. reflexivity.
Qed.

(** The same cycles under the loop with [recover], for the users collector:
    each panicking cycle is followed by the sleep of the scrape interval and
    by the next cycle. *)
Example hardened_loop_sleeps_and_goes_on :
  let Γ := simulate nil_response in
  let r := Hardened.StartCacheInvalidator Γ users_scrape 1 2
             (users_cycle nil_response 3) fresh_users in
  fst (users_cycle nil_response 3 fresh_users) = Panic nil_dereference
  ∧ fst r = Running
  ∧ trace (snd r)
    = [ CallNewDefaultAzureCredential "t1";
        CallGetToken 0%nat graph_scopes;
        CallNewAzureIdentityAuthenticationProvider 0%nat;
        CallNewGraphRequestAdapter 1%nat;
        CallNewGraphServiceClient 2%nat 3%nat;
        CallGet 3%nat UsersC None (Some UsersCollector.query);
        CallSleep (60 * Second);
        CallGet 3%nat UsersC None (Some UsersCollector.query);
        CallSleep (60 * Second) ].
Proof. cbv zeta. repeat split; vm_compute; reflexivity. Qed.

(** ** The general collector *)

Section GeneralFacts.
Context {W : Type} (Γ : World W) (base : BaseOps W).

Lemma count_eq {E}
    (Get : Client → option string → option RequestConfiguration →
           W → Fetched E * W)
    which metric tenantID client st (s : St GeneralCollector W) r w' :
  Get client None None (world s) = (r, w') →
  GeneralCollector.count Get which metric tenantID client st s
  = (Val (store metric (answer r) st),
     {| coll := charged tenantID (answer r) (coll s); world := w';
        trace := trace s ++ [CallGet client which None None] |}).
Proof.
  intros H. unfold GeneralCollector.count, bind, extern. rewrite H.
  destruct r as [err|[page|]]; simpl; [done| |done].
  unfold answer. by destruct (GetOdataCount page).
Qed.




End GeneralFacts.

Section GeneralRender.
Context {W : Type}.



End GeneralRender.

Lemma embedded_general_frame {W A} (m : M (St BaseCollector W) A)
    (s s' : St GeneralCollector W) r :
  embedded gBase GeneralCollector.set_gBase m s = (r, s') →
  stats (coll s') = stats (coll s)
  ∧ statsMetric (coll s') = statsMetric (coll s).
Proof. unfold embedded. destruct (m _) as [r0 s0]. intros [= <- <-]. done. Qed.



(** The values of that run.  Before: users 3, devices 5, applications 7
    exposed.  The cycle in which the users count fails stores devices and
    applications only and counts one error; the render after it still shows
    the users count 3. *)
Example users_count_failure_keeps_stale_gauge :
  let s' := snd (general_cycle users_count_fails general_exposed) in
  let s'' := snd (GeneralCollector.Collect s') in
  count_answers (simulate users_count_fails) 3%nat (world general_exposed)
  = [ ("user_count", Failed); ("device_count", Counted 5);
      ("application_count", Counted 7);
      ("service_principal_count", NoCount); ("group_count", NoCount) ]
  ∧ statsMetric (coll general_exposed) !! ("t1", "user_count") = Some 3
  ∧ scrapeErrors (gBase (coll general_exposed)) !! "t1" = None
  ∧ (stats (coll s') !! "t1") ≫= (.!! "user_count") = None
  ∧ (stats (coll s') !! "t1") ≫= (.!! "device_count") = Some 5
  ∧ (stats (coll s') !! "t1") ≫= (.!! "application_count") = Some 7
  ∧ scrapeErrors (gBase (coll s')) !! "t1" = Some 1%nat
  ∧ statsMetric (coll s'') !! ("t1", "user_count") = Some 3
  ∧ statsMetric (coll s'') !! ("t1", "device_count") = Some 5
  ∧ statsMetric (coll s'') !! ("t1", "application_count") = Some 7.
Proof. cbv zeta. repeat split; vm_compute; reflexivity. Qed.

(** The end-to-end example of the general collector: counts 3 and 5 for
    tenant t1 after one cycle. *)
Example general_end_to_end :
  statsMetric (coll general_exposed) !! ("t1", "user_count") = Some 3
  ∧ statsMetric (coll general_exposed) !! ("t1", "device_count") = Some 5.
Proof. split; vm_compute; reflexivity. Qed.

(** ** The other tenants of a cycle *)

Section OtherTenants.
Context {W : Type} (Γ : World W) {E : Type}.
Context (base : BaseOps W)
        (Get : Client → option string → option RequestConfiguration →
               W → Fetched E * W)
        (which : Collection)
        (query : RequestConfiguration).

(** The pagination loop never writes the cache, however it ends. *)
Lemma next_pages_cache fuel tenantID client result acc
    (s : St (EntityCollector E) W) :
  entityList (coll (snd (next_pages Get which fuel tenantID client result acc s)))
  = entityList (coll s).
Proof.
  revert result acc s. induction fuel as [|fuel IH]; intros result acc s; simpl;
    destruct (has_next result); try done.
  unfold bind at 1, fetch, extern.
  destruct (Get client None None (world s)) as [[err|[result'|]] w']; simpl;
    try done.
  unfold bind at 1. simpl. by rewrite IH.
Qed.

(** The iteration of the tenant loop for one tenant leaves the cache
    entries of the other tenants as they were, however it ends. *)
Lemma collect_tenant_other fuel tenantID other (s : St (EntityCollector E) W) :
  tenantID ≠ other →
  entityList (coll (snd (collect_tenant Γ base Get which query fuel tenantID s)))
    !! other
  = entityList (coll s) !! other.
Proof.
  intros Hne. unfold collect_tenant.
  erewrite bind_Val; [|apply time_Now_eq].
  unfold bind at 1.
  destruct (embedded Base set_Base (ops_GetGraphClient base tenantID) _)
    as [got s1] eqn:Hgot.
  apply embedded_frame in Hgot as (HL & _ & _). simpl in HL.
  destruct got as [[err|client]|v|]; simpl; try by rewrite HL.
  unfold bind at 1, fetch, extern.
  destruct (Get client None (Some query) (world s1)) as [[err|[result|]] w2];
    simpl; try by rewrite HL.
  unfold bind at 1. simpl. unfold bind at 1.
  pose proof (next_pages_cache fuel tenantID client result
                (append_value [] result)
                {| coll := coll s1; world := w2;
                   trace := trace s1 ++ [CallGet client which None (Some query)] |})
    as Hpages.
  destruct (next_pages _ _ _ _ _ _ _ _) as [[entities|v|] s3]; simpl in *;
    try by rewrite Hpages, HL.
  unfold bind, update, modify, time_Now, peek. simpl.
  destruct (Now Γ (world s3)) as [t1 w4]. simpl.
  destruct (Now Γ w4) as [t2 w5]. simpl.
  rewrite lookup_insert_ne by done. by rewrite Hpages, HL.
Qed.
End OtherTenants.

(** A cycle is the sequence of the iterations of its tenants: the entry of a
    tenant that occurs once in the tenant list is, before its iteration, what
    it was when the cycle began, and after the cycle, however the cycle ends,
    what its iteration left. *)
Section Cycle.
Context {W : Type} (Γ : World W) {E : Type}.
Context (base : BaseOps W)
        (Get : Client → option string → option RequestConfiguration →
               W → Fetched E * W)
        (which : Collection)
        (query : RequestConfiguration).

Lemma iterations_other fuel tenants other (s : St (EntityCollector E) W) :
  other ∉ tenants →
  entityList (coll (snd (for_each tenants
                           (collect_tenant Γ base Get which query fuel) s)))
    !! other
  = entityList (coll s) !! other.
Proof.
  revert s. induction tenants as [|t tenants IH]; intros s Hnot; [done|].
  apply not_elem_of_cons in Hnot as [Hne Hnot].
  simpl. unfold bind.
  pose proof (collect_tenant_other Γ base Get which query fuel t other s
                (not_eq_sym Hne)) as Hone.
  destruct (collect_tenant Γ base Get which query fuel t s) as [[[]|v|] s1];
    simpl in *; try done.
  by rewrite IH.
Qed.

Lemma cycle_entry fuel before tenantID after (s s0 sT : St (EntityCollector E) W) :
  embedded Base set_Base (ops_GetTenants base) s
  = (Val (before ++ tenantID :: after), s0) →
  for_each before (collect_tenant Γ base Get which query fuel) s0 = (Val tt, sT) →
  tenantID ∉ before → tenantID ∉ after →
  entityList (coll sT) !! tenantID = entityList (coll s) !! tenantID
  ∧ entityList (coll (snd (collect Γ base Get which query fuel s))) !! tenantID
    = entityList
        (coll (snd (collect_tenant Γ base Get which query fuel tenantID sT)))
        !! tenantID.
Proof.
  intros Htenants Hbefore Hnb Hna.
  pose proof Htenants as Hframe. apply embedded_frame in Hframe as (HL & _ & _).
  split.
  - rewrite <- HL.
    pose proof (iterations_other fuel before tenantID s0 Hnb) as H.
    by rewrite Hbefore in H.
  - unfold collect. erewrite bind_Val; [|exact Htenants].
    assert (Happ : ∀ l1 l2 (st st' : St (EntityCollector E) W),
               for_each l1 (collect_tenant Γ base Get which query fuel) st
               = (Val tt, st') →
               for_each (l1 ++ l2) (collect_tenant Γ base Get which query fuel) st
               = for_each l2 (collect_tenant Γ base Get which query fuel) st').
    { induction l1 as [|t l1 IH]; intros l2 st st' H; simpl in *.
      - by injection H as <-.
      - unfold bind in *.
        destruct (collect_tenant Γ base Get which query fuel t st) as [[[]|v|] s1];
          try done.
        by apply IH. }
    rewrite (Happ _ _ _ _ Hbefore). simpl. unfold bind.
    destruct (collect_tenant Γ base Get which query fuel tenantID sT)
      as [[[]|v|] s1]; simpl; try done.
    by apply iterations_other.
Qed.
End Cycle.

(** [GetGraphClient] records no scrape metric, in either base collector: in
    the statements above the metrics of the state in which it has returned are
    those of the state in which the iteration began. *)
Section FactoryMetrics.
Context {W : Type} (Γ : World W).

Lemma Hardened_metrics tenantID (s : St BaseCollector W) :
  same_metrics (coll s) (coll (snd (Hardened.GetGraphClient Γ tenantID s))).
Proof.
  destruct (graphClients (coll s) !! tenantID) as [c|] eqn:Hc.
  { by erewrite Hardened_cached. }
  rewrite Hardened_uncached by done. cbv zeta.
  set (t := effective_tenant Γ tenantID (world s)).
  unfold bind, extern, ret, update, modify.
  destruct (NewDefaultAzureCredential Γ t (world s)) as [[e|cred] w1]; simpl;
    [done|].
  destruct (GetToken Γ cred graph_scopes w1) as [[e|?] w2]; simpl; [done|].
  destruct (NewAzureIdentityAuthenticationProvider Γ cred w2) as [[e|auth] w3];
    simpl; [done|].
  destruct (NewGraphRequestAdapter Γ auth w3) as [[e|adapter] w4]; simpl;
    [done|].
  by destruct (NewGraphServiceClient Γ adapter w4) as [client w5].
Qed.

Lemma Plain_metrics tenantID (s : St BaseCollector W) :
  same_metrics (coll s) (coll (snd (Plain.GetGraphClient Γ tenantID s))).
Proof.
  destruct (graphClients (coll s) !! tenantID) as [c|] eqn:Hc.
  { by erewrite Plain_cached. }
  unfold Plain.GetGraphClient, Plain.GetGraphClient_fast, Plain.GetGraphClient_slow.
  unfold bind, this, gets, ret, extern, update, modify. rewrite Hc. simpl.
  rewrite Hc.
  destruct (NewDefaultAzureCredential Γ tenantID (world s)) as [[e|cred] w1];
    simpl; [done|].
  destruct (NewAzureIdentityAuthenticationProvider Γ cred w1) as [[e|auth] w2];
    simpl; [done|].
  destruct (NewGraphRequestAdapter Γ auth w2) as [[e|adapter] w3];
    simpl; [done|].
  by destruct (NewGraphServiceClient Γ adapter w3) as [c w4].
Qed.
End FactoryMetrics.

(** * Further properties of the code *)

(** ** package main: [maskValue] *)

Lemma string_drop_length n s :
  String.length (string_drop n s) = (String.length s - n)%nat.
Proof.
  revert s. induction n as [|n IH]; intros [|a s]; simpl; done.
Qed.

Lemma string_take_length n s :
  String.length (string_take n s) = (n `min` String.length s)%nat.
Proof.
  revert s. induction n as [|n IH]; intros [|a s]; simpl; try done.
  by rewrite IH.
Qed.

Lemma string_app_length (s1 s2 : string) :
  String.length (s1 +:+ s2) = (String.length s1 + String.length s2)%nat.
Proof. induction s1 as [|a s1 IH]; simpl; [done|by rewrite IH]. Qed.

(** X1.  A value of one, two or three bytes makes [maskValue] panic: the
    start of its last-four slice is negative. *)
Theorem maskValue_short_value_panics {S : Type} (value : string) (s : S) :
  (0 < String.length value < 4)%nat →
  maskValue value s = (Panic slice_out_of_range, s).
Proof.
  intros Hlen. unfold maskValue.
  rewrite decide_False by (intros ->; simpl in Hlen; lia).
  rewrite decide_True by lia.
  unfold slice_from. rewrite decide_False by lia. reflexivity.
Qed.

Lemma maskValue_short_value_panics_witness :
  (0 < String.length "abc" < 4)%nat
  ∧ maskValue "abc" tt = (Panic slice_out_of_range, tt).
Proof.
  split.
  - simpl. lia.
  - apply (maskValue_short_value_panics "abc" tt). simpl. lia.
Defined.

(** The last four bytes of a value of four bytes or more. *)
Lemma slice_last_four {S : Type} (value : string) (st : S) :
  (4 ≤ String.length value)%nat →
  slice_from value (Z.of_nat (String.length value) - 4) st
  = (Val (string_drop (String.length value - 4) value), st).
Proof.
  intros Hlen. unfold slice_from. rewrite decide_True by lia.
  replace (Z.to_nat (Z.of_nat (String.length value) - 4))
    with (String.length value - 4)%nat by lia.
  reflexivity.
Qed.

Lemma maskValue_long {S : Type} (value : string) (s : S) :
  (8 < String.length value)%nat →
  maskValue value s
  = (Val (string_take 4 value +:+ "****"
          +:+ string_drop (String.length value - 4) value), s).
Proof.
  intros Hgt. unfold maskValue.
  rewrite decide_False by (intros ->; simpl in Hgt; lia).
  rewrite decide_False by lia.
  unfold bind, slice_to. rewrite decide_True by lia. simpl.
  by rewrite slice_last_four by lia.
Qed.

(** X2.  On a value of four bytes or more [maskValue] returns.  Up to eight
    bytes the result is four stars and the last four bytes of the value, so a
    value of four bytes is shown whole; beyond eight bytes it is the first
    four bytes, four stars and the last four bytes, twelve bytes whatever the
    length of the value. *)
Theorem maskValue_shows_the_ends {S : Type} (value : string) (s : S) :
  (4 ≤ String.length value)%nat →
  let last := string_drop (String.length value - 4) value in
  String.length last = 4%nat
  ∧ ((String.length value ≤ 8)%nat →
     maskValue value s = (Val ("****" +:+ last), s))
  ∧ ((String.length value = 4)%nat →
     maskValue value s = (Val ("****" +:+ value), s))
  ∧ ((8 < String.length value)%nat →
     maskValue value s = (Val (string_take 4 value +:+ "****" +:+ last), s)
     ∧ String.length (string_take 4 value +:+ "****" +:+ last) = 12%nat).
Proof.
  intros Hlen. cbv zeta.
  assert (Hne : value ≠ "") by (intros ->; simpl in Hlen; lia).
  assert (Hfrom : ∀ st : S,
             slice_from value (Z.of_nat (String.length value) - 4) st
             = (Val (string_drop (String.length value - 4) value), st))
    by (intros st; by apply slice_last_four).
  split; [rewrite string_drop_length; lia|].
  split; [|split].
  - intros Hle. unfold maskValue.
    rewrite decide_False by done. rewrite decide_True by lia.
    unfold bind. by rewrite Hfrom.
  - intros H4. unfold maskValue.
    rewrite decide_False by done. rewrite decide_True by lia.
    unfold bind. rewrite Hfrom. by rewrite H4.
  - intros Hgt. split.
    + by apply maskValue_long.
    + rewrite !string_app_length, string_take_length, string_drop_length.
      rewrite Nat.min_l by lia. change (String.length "****") with 4%nat. lia.
Qed.

Lemma maskValue_shows_the_ends_witness :
  (4 ≤ String.length "0123456789abcdef")%nat
  ∧ maskValue "0123456789abcdef" tt = (Val "0123****cdef", tt)
  ∧ maskValue "abcd" tt = (Val "****abcd", tt).
Proof.
  split; [simpl; lia|]. split.
  - apply (maskValue_shows_the_ends "0123456789abcdef" tt); simpl; lia.
  - apply (maskValue_shows_the_ends "abcd" tt); simpl; lia.
Defined.

(** X3.  Two values longer than eight bytes with the same first four and the
    same last four bytes have the same mask: neither the middle of the value
    nor its length shows. *)
Theorem maskValue_hides_the_middle {S : Type} (v1 v2 : string) (s : S) :
  (8 < String.length v1)%nat → (8 < String.length v2)%nat →
  string_take 4 v1 = string_take 4 v2 →
  string_drop (String.length v1 - 4) v1 = string_drop (String.length v2 - 4) v2 →
  maskValue v1 s = maskValue v2 s.
Proof.
  intros H1 H2 Hfirst Hlast.
  rewrite !maskValue_long by done. by rewrite Hfirst, Hlast.
Qed.

Lemma maskValue_hides_the_middle_witness :
  (8 < String.length "0123456789abcdef")%nat
  ∧ (8 < String.length "0123-cdef")%nat
  ∧ string_take 4 "0123456789abcdef" = string_take 4 "0123-cdef"
  ∧ string_drop (String.length "0123456789abcdef" - 4) "0123456789abcdef"
    = string_drop (String.length "0123-cdef" - 4) "0123-cdef"
  ∧ maskValue "0123456789abcdef" tt = maskValue "0123-cdef" tt.
Proof.
  assert (H1 : (8 < String.length "0123456789abcdef")%nat) by (simpl; lia).
  assert (H2 : (8 < String.length "0123-cdef")%nat) by (simpl; lia).
  assert (H3 : string_take 4 "0123456789abcdef" = string_take 4 "0123-cdef")
    by reflexivity.
  assert (H4 : string_drop (String.length "0123456789abcdef" - 4) "0123456789abcdef"
               = string_drop (String.length "0123-cdef" - 4) "0123-cdef")
    by reflexivity.
  repeat (split; [assumption|]).
  exact (maskValue_hides_the_middle _ _ tt H1 H2 H3 H4).
Defined.

(** ** The wiring of [main], both ways *)

(** X4.  [main] wires exactly the domains whose scrape interval is positive,
    in the order general, users, devices: for each of them one collector, one
    refresh goroutine and its metric families; no family is registered
    twice, so [MustRegister] has no duplicate to refuse. *)
Theorem main_wires_exactly_the_enabled_domains (cfg : Config) :
  constructed (main cfg)
  = filter (λ d, IsEnabled (domain_config cfg d) = true) wired_domains
  ∧ goroutines (main cfg) = constructed (main cfg)
  ∧ registry (main cfg) = mjoin (domain_families <$> constructed (main cfg))
  ∧ NoDup (registry (main cfg))
  ∧ (∀ d, d ∈ constructed (main cfg) ↔ 0 < ScrapeTime (domain_config cfg d)).
Proof.
  assert (Hfilter : constructed (main cfg)
                    = filter (λ d, IsEnabled (domain_config cfg d) = true)
                             wired_domains
                    ∧ goroutines (main cfg) = constructed (main cfg)
                    ∧ registry (main cfg)
                      = mjoin (domain_families <$> constructed (main cfg))
                    ∧ NoDup (registry (main cfg))).
  { unfold main, enable, wired_domains.
    rewrite !filter_cons, filter_nil. cbn [domain_config].
    destruct (IsEnabled (General cfg)), (IsEnabled (Users cfg)),
             (IsEnabled (Devices cfg)); simpl;
      (split; [reflexivity|split; [reflexivity|split; [reflexivity|]]]);
      decide_by_computation. }
  destruct Hfilter as (Hc & Hg & Hr & Hnd).
  repeat (split; [assumption|]).
  intros d. rewrite Hc, list_elem_of_filter, IsEnabled_spec.
  split; [by intros [? _]|]. intros Hd. split; [done|].
  unfold wired_domains. destruct d; set_solver.
Qed.

(** ** [GetTenants] *)

(** [GetTenants] of the hardened base collector, in closed form. *)
Lemma Hardened_GetTenants_eq {W} (Γ : World W) (s : St BaseCollector W) :
  Hardened.GetTenants Γ s
  = (Val match Tenants (config (coll s)) with
         | [] => [Getenv Γ "AZURE_TENANT_ID" (world s)]
         | configured => configured
         end, s).
Proof.
  unfold Hardened.GetTenants, bind, this, gets.
  destruct (Tenants (config (coll s))) as [|t ts] eqn:Ht; simpl; [|done].
  unfold os_Getenv, peek. destruct s as [c w tr]; simpl.
  destruct (decide (Getenv Γ "AZURE_TENANT_ID" w ≠ "")) as [Hne|Hempty]; [done|].
  apply dec_stable in Hempty. by rewrite Hempty.
Qed.

(** X5.  [GetTenants] never returns an empty list and changes nothing.  The
    collector next to the users collector returns the configured tenants when
    there are any, and else the one tenant [AZURE_TENANT_ID] names (the empty
    tenant when the variable is unset); the one next to the devices collector
    returns the configured tenants or else the empty tenant, whatever the
    environment. *)
Theorem GetTenants_is_never_empty {W : Type} (Γ : World W)
    (s : St BaseCollector W) :
  (∃ tenants,
     Hardened.GetTenants Γ s = (Val tenants, s)
     ∧ tenants ≠ []
     ∧ tenants = match Tenants (config (coll s)) with
                 | [] => [Getenv Γ "AZURE_TENANT_ID" (world s)]
                 | configured => configured
                 end)
  ∧ (∃ tenants,
       Plain.GetTenants s = (Val tenants, s)
       ∧ tenants ≠ []
       ∧ tenants = match Tenants (config (coll s)) with
                   | [] => [""]
                   | configured => configured
                   end).
Proof.
  split.
  - eexists. split; [apply Hardened_GetTenants_eq|]. split; [|done].
    by destruct (Tenants (config (coll s))).
  - unfold Plain.GetTenants, bind, this, gets.
    destruct (Tenants (config (coll s))) as [|t ts] eqn:Ht; simpl.
    + eexists. split; [reflexivity|]. done.
    + eexists. split; [reflexivity|]. done.
Qed.

(** ** The client factory: what a call changes *)

Ltac run_factory :=
  unfold bind, ret, extern, update, modify; simpl;
  repeat match goal with
         | |- context [NewDefaultAzureCredential ?G ?t ?w] =>
           destruct (NewDefaultAzureCredential G t w) as [[?|?] ?]; simpl
         | |- context [GetToken ?G ?c ?sc ?w] =>
           destruct (GetToken G c sc w) as [[?|?] ?]; simpl
         | |- context [NewAzureIdentityAuthenticationProvider ?G ?c ?w] =>
           destruct (NewAzureIdentityAuthenticationProvider G c w) as [[?|?] ?];
           simpl
         | |- context [NewGraphRequestAdapter ?G ?a ?w] =>
           destruct (NewGraphRequestAdapter G a w) as [[?|?] ?]; simpl
         | |- context [NewGraphServiceClient ?G ?a ?w] =>
           destruct (NewGraphServiceClient G a w) as [? ?]; simpl
         end.

Lemma Plain_uncached {W} (Γ : World W) tenantID (s : St BaseCollector W) :
  graphClients (coll s) !! tenantID = None →
  Plain.GetGraphClient Γ tenantID s
  = (let* cred := extern (NewDefaultAzureCredential Γ tenantID)
                         (λ _, CallNewDefaultAzureCredential tenantID) in
     match cred with
     | inl err => ret (inl ("failed to create credential: " +:+ err))
     | inr cred =>
       let* authProvider :=
         extern (NewAzureIdentityAuthenticationProvider Γ cred)
                (λ _, CallNewAzureIdentityAuthenticationProvider cred) in
       match authProvider with
       | inl err => ret (inl ("failed to create auth provider: " +:+ err))
       | inr authProvider =>
         let* adapter := extern (NewGraphRequestAdapter Γ authProvider)
                                (λ _, CallNewGraphRequestAdapter authProvider) in
         match adapter with
         | inl err => ret (inl ("failed to create adapter: " +:+ err))
         | inr adapter =>
           let* client := extern (NewGraphServiceClient Γ adapter)
                                 (CallNewGraphServiceClient adapter) in
           update (set_graphClients (<[tenantID := client]>)) ;;
           ret (inr client)
         end
       end
     end) s.
Proof.
  intros Hc. unfold Plain.GetGraphClient, Plain.GetGraphClient_fast.
  unfold bind at 1. unfold this, gets, bind at 1, ret at 1. rewrite Hc.
  unfold Plain.GetGraphClient_slow.
  unfold bind at 1. unfold this, gets. by rewrite Hc.
Qed.

Lemma constructed_clients_snoc tr e :
  constructed_clients (tr ++ [e])
  = constructed_clients tr
    ++ match e with
       | CallNewGraphServiceClient _ client => [client]
       | _ => []
       end.
Proof. unfold constructed_clients. rewrite omap_app. by destruct e. Qed.

(** X6.  When [GetGraphClient] returns an error, in either base collector,
    the collector is as it was before the call (no client is cached), no
    Graph client was constructed, and the error text begins with
    ["failed to "]. *)
Theorem failed_client_creation_changes_nothing {W : Type} (Γ : World W)
    (tenantID : string) (s s' : St BaseCollector W) (e : Error) :
  Hardened.GetGraphClient Γ tenantID s = (Val (inl e), s')
  ∨ Plain.GetGraphClient Γ tenantID s = (Val (inl e), s') →
  coll s' = coll s
  ∧ constructed_clients (trace s') = constructed_clients (trace s)
  ∧ String.prefix "failed to " e = true.
Proof.
  intros [H|H].
  - destruct (graphClients (coll s) !! tenantID) as [c|] eqn:Hc.
    { by rewrite (Hardened_cached _ _ c) in H. }
    rewrite Hardened_uncached in H by done. revert H. cbv zeta.
    run_factory; intros [= <- <-]; simpl;
      rewrite ?constructed_clients_snoc, ?app_nil_r; done.
  - destruct (graphClients (coll s) !! tenantID) as [c|] eqn:Hc.
    { by rewrite (Plain_cached _ _ c) in H. }
    rewrite Plain_uncached in H by done. revert H.
    run_factory; intros [= <- <-]; simpl;
      rewrite ?constructed_clients_snoc, ?app_nil_r; done.
Qed.

Lemma failed_client_creation_changes_nothing_witness :
  let Γ := simulate token_refused in
  let s := fresh_base ["t1"] in
  let e := "failed to validate credential: AADSTS7000215: invalid client secret" in
  let s' := snd (Hardened.GetGraphClient Γ "t1" s) in
  (Hardened.GetGraphClient Γ "t1" s = (Val (inl e), s')
   ∨ Plain.GetGraphClient Γ "t1" s = (Val (inl e), s'))
  ∧ coll s' = coll s
  ∧ constructed_clients (trace s') = constructed_clients (trace s)
  ∧ String.prefix "failed to " e = true.
Proof.
  cbv zeta.
  assert (H : Hardened.GetGraphClient (simulate token_refused) "t1" (fresh_base ["t1"])
              = (Val (inl "failed to validate credential: AADSTS7000215: invalid client secret"),
                 snd (Hardened.GetGraphClient (simulate token_refused) "t1"
                        (fresh_base ["t1"]))))
    by (vm_compute; reflexivity).
  split; [left; exact H|].
  exact (failed_client_creation_changes_nothing
           (simulate token_refused) "t1" (fresh_base ["t1"]) _ _ (or_introl H)).
Defined.

(** X7.  A call of [GetGraphClient] never removes or replaces a cached
    client in the base collector next to the devices collector; in the one
    next to the users collector the same holds for every key but the tenant
    resolved from the environment when the call is for the empty tenant. *)
Theorem cached_clients_stay {W : Type} (Γ : World W)
    (tenantID key : string) (client : Client) (s : St BaseCollector W) :
  graphClients (coll s) !! key = Some client →
  graphClients (coll (snd (Plain.GetGraphClient Γ tenantID s))) !! key = Some client
  ∧ (tenantID ≠ "" ∨ key ≠ Getenv Γ "AZURE_TENANT_ID" (world s) →
     graphClients (coll (snd (Hardened.GetGraphClient Γ tenantID s))) !! key
     = Some client).
Proof.
  intros Hkey. split.
  - destruct (graphClients (coll s) !! tenantID) as [c|] eqn:Hc.
    { by rewrite (Plain_cached _ _ c). }
    rewrite Plain_uncached by done.
    run_factory; try done.
    rewrite lookup_insert_ne; [done|]. intros <-. congruence.
  - intros Hstable.
    destruct (graphClients (coll s) !! tenantID) as [c|] eqn:Hc.
    { by rewrite (Hardened_cached _ _ c). }
    rewrite Hardened_uncached by done. cbv zeta.
    run_factory; try done.
    rewrite lookup_insert_ne; [done|].
    unfold effective_tenant. case_decide as Hempty.
    + destruct Hstable as [?|Hne]; [done|]. by intros <-.
    + intros <-. congruence.
Qed.

Lemma cached_clients_stay_witness :
  let Γ := simulate (healthy (env_tenant "abc")) in
  let s := snd (Hardened.GetGraphClient Γ "t1" (fresh_base ["t1"; ""])) in
  graphClients (coll s) !! "t1" = Some 3%nat
  ∧ graphClients (coll (snd (Plain.GetGraphClient Γ "" s))) !! "t1" = Some 3%nat
  ∧ (("" : string) ≠ "" ∨ "t1" ≠ Getenv Γ "AZURE_TENANT_ID" (world s) →
     graphClients (coll (snd (Hardened.GetGraphClient Γ "" s))) !! "t1"
     = Some 3%nat).
Proof.
  cbv zeta.
  assert (H : graphClients
                (coll (snd (Hardened.GetGraphClient
                              (simulate (healthy (env_tenant "abc"))) "t1"
                              (fresh_base ["t1"; ""])))) !! "t1" = Some 3%nat)
    by (vm_compute; reflexivity).
  split; [exact H|].
  exact (cached_clients_stay (simulate (healthy (env_tenant "abc"))) "" "t1" 3%nat
           _ H).
Defined.

(** A successful call leaves the returned client in the cache under the
    tenant the call resolved. *)
Lemma Hardened_stores_resolved {W} (Γ : World W) tenantID client
    (s s' : St BaseCollector W) :
  Hardened.GetGraphClient Γ tenantID s = (Val (inr client), s') →
  graphClients (coll s') !! tenantID = Some client
  ∨ graphClients (coll s') !! effective_tenant Γ tenantID (world s) = Some client.
Proof.
  destruct (graphClients (coll s) !! tenantID) as [c|] eqn:Hc.
  { rewrite (Hardened_cached _ _ c) by done. intros [= <- <-]. by left. }
  rewrite Hardened_uncached by done. cbv zeta.
  run_factory; intros [= <- <-]; simpl. right. apply lookup_insert_eq.
Qed.

(** X8.  When no tenant is configured and [AZURE_TENANT_ID] does not change,
    every tenant [GetTenants] returns is cached under its own name: once
    [GetGraphClient] has succeeded for it, the next call returns the same
    client, performs no call and changes nothing. *)
Theorem fallback_tenants_are_cached_once {W : Type} (Γ : World W)
    (s : St BaseCollector W) :
  Tenants (config (coll s)) = [] →
  (∀ w w', Getenv Γ "AZURE_TENANT_ID" w = Getenv Γ "AZURE_TENANT_ID" w') →
  ∃ tenants,
    Hardened.GetTenants Γ s = (Val tenants, s)
    ∧ ∀ tenantID client (s1 s2 : St BaseCollector W),
        tenantID ∈ tenants →
        Hardened.GetGraphClient Γ tenantID s1 = (Val (inr client), s2) →
        Hardened.GetGraphClient Γ tenantID s2 = (Val (inr client), s2).
Proof.
  intros Hnone Henv.
  eexists. split; [apply Hardened_GetTenants_eq|]. rewrite Hnone.
  intros tenantID client s1 s2 Hin Hcall.
  apply list_elem_of_singleton in Hin.
  apply Hardened_cached.
  destruct (Hardened_stores_resolved Γ tenantID client s1 s2 Hcall) as [H|H];
    [done|].
  unfold effective_tenant in H. case_decide as Hempty; [|done].
  rewrite (Henv (world s1) (world s)), <- Hin in H. done.
Qed.

Lemma fallback_tenants_are_cached_once_witness :
  let Γ := simulate (healthy (env_tenant "abc")) in
  let s := fresh_base [] in
  Tenants (config (coll s)) = []
  ∧ (∀ w w', Getenv Γ "AZURE_TENANT_ID" w = Getenv Γ "AZURE_TENANT_ID" w')
  ∧ ∃ tenants,
      Hardened.GetTenants Γ s = (Val tenants, s)
      ∧ ∀ tenantID client (s1 s2 : St BaseCollector Sim),
          tenantID ∈ tenants →
          Hardened.GetGraphClient Γ tenantID s1 = (Val (inr client), s2) →
          Hardened.GetGraphClient Γ tenantID s2 = (Val (inr client), s2).
Proof.
  cbv zeta.
  assert (H1 : Tenants (config (coll (fresh_base []))) = []) by reflexivity.
  assert (H2 : ∀ w w' : Sim,
             Getenv (simulate (healthy (env_tenant "abc"))) "AZURE_TENANT_ID" w
             = Getenv (simulate (healthy (env_tenant "abc"))) "AZURE_TENANT_ID" w')
    by (intros w w'; reflexivity).
  split; [exact H1|]. split; [exact H2|].
  exact (fallback_tenants_are_cached_once
           (simulate (healthy (env_tenant "abc"))) (fresh_base []) H1 H2).
Defined.

(** ** One iteration of the tenant loop, however it ends *)

Section Iteration.
Context {W : Type} (Γ : World W) {E : Type}.
Context (base : BaseOps W)
        (Get : Client → option string → option RequestConfiguration →
               W → Fetched E * W)
        (which : Collection)
        (query : RequestConfiguration).

(** The pagination loop changes the collector by at most one counted
    error. *)
Lemma next_pages_coll fuel tenantID client result acc
    (s s' : St (EntityCollector E) W) r :
  next_pages Get which fuel tenantID client result acc s = (r, s') →
  coll s' = coll s
  ∨ coll s' = on_Base (set_scrapeErrors (CounterVec_Inc tenantID)) (coll s).
Proof.
  revert result acc s. induction fuel as [|fuel IH]; intros result acc s; simpl;
    destruct (has_next result); try (intros [= <- <-]; by left).
  unfold bind at 1, fetch, extern.
  destruct (Get client None None (world s)) as [[err|[result'|]] w']; simpl.
  - intros [= <- <-]. by right.
  - unfold bind at 1. simpl. intros H. by apply IH in H.
  - intros [= <- <-]. by left.
Qed.

(** The cache after an iteration is the cache before it, or the cache
    before it with the entry of the tenant written. *)
Lemma collect_tenant_entries fuel tenantID (s : St (EntityCollector E) W) :
  entityList (coll (snd (collect_tenant Γ base Get which query fuel tenantID s)))
  = entityList (coll s)
  ∨ ∃ entities,
      entityList
        (coll (snd (collect_tenant Γ base Get which query fuel tenantID s)))
      = <[tenantID := entities]> (entityList (coll s)).
Proof.
  destruct (collect_tenant Γ base Get which query fuel tenantID s)
    as [r s'] eqn:Hrun.
  simpl. revert Hrun. unfold collect_tenant.
  erewrite bind_Val; [|apply time_Now_eq].
  unfold bind at 1.
  destruct (embedded Base set_Base (ops_GetGraphClient base tenantID) _)
    as [got s1] eqn:Hgot.
  apply embedded_frame in Hgot as (HL & _ & _). simpl in HL.
  destruct got as [[err|client]|v|]; simpl;
    try (intros [= <- <-]; left; by rewrite <- HL).
  unfold bind at 1, fetch, extern.
  destruct (Get client None (Some query) (world s1)) as [[err|[result|]] w2];
    simpl; try (intros [= <- <-]; left; by rewrite <- HL).
  unfold bind at 1. simpl. unfold bind at 1.
  pose proof (next_pages_cache Get which fuel tenantID client result
                (append_value [] result)
                {| coll := coll s1; world := w2;
                   trace := trace s1 ++ [CallGet client which None (Some query)] |})
    as Hpages.
  destruct (next_pages _ _ _ _ _ _ _ _) as [[entities|v|] s3]; simpl in *;
    try (intros [= <- <-]; left; by rewrite Hpages, HL).
  unfold bind, update, modify, time_Now, peek. simpl.
  destruct (Now Γ (world s3)) as [t1 w4]. simpl.
  destruct (Now Γ w4) as [t2 w5]. simpl.
  intros [= <- <-]. right. exists entities. simpl. by rewrite Hpages, HL.
Qed.

Lemma collect_tenant_dom fuel tenantID (s : St (EntityCollector E) W) :
  dom (entityList (coll s))
  ⊆ dom (entityList
           (coll (snd (collect_tenant Γ base Get which query fuel tenantID s)))).
Proof.
  destruct (collect_tenant_entries fuel tenantID s) as [->|[es ->]]; [done|].
  rewrite dom_insert. set_solver.
Qed.

Lemma iterations_dom fuel tenants (s : St (EntityCollector E) W) :
  dom (entityList (coll s))
  ⊆ dom (entityList
           (coll (snd (for_each tenants
                         (collect_tenant Γ base Get which query fuel) s)))).
Proof.
  revert s. induction tenants as [|t tenants IH]; intros s; [done|].
  simpl. unfold bind.
  pose proof (collect_tenant_dom fuel t s) as Hone.
  destruct (collect_tenant Γ base Get which query fuel t s) as [[[]|v|] s1];
    simpl in *; try done.
  etrans; [exact Hone|apply IH].
Qed.

(** The error counter after an iteration, when [GetGraphClient] leaves the
    scrape metrics alone. *)
Lemma collect_tenant_errors fuel tenantID (s : St (EntityCollector E) W) :
  (∀ t s0, same_metrics (coll s0) (coll (snd (ops_GetGraphClient base t s0)))) →
  scrapeErrors
    (Base (coll (snd (collect_tenant Γ base Get which query fuel tenantID s))))
  = scrapeErrors (Base (coll s))
  ∨ scrapeErrors
      (Base (coll (snd (collect_tenant Γ base Get which query fuel tenantID s))))
    = CounterVec_Inc tenantID (scrapeErrors (Base (coll s))).
Proof.
  intros Hbase.
  destruct (collect_tenant Γ base Get which query fuel tenantID s)
    as [r s'] eqn:Hrun.
  simpl. revert Hrun. unfold collect_tenant.
  erewrite bind_Val; [|apply time_Now_eq].
  unfold bind at 1, embedded. simpl.
  pose proof (Hbase tenantID
                {| coll := Base (coll s); world := (Now Γ (world s)).2;
                   trace := trace s |}) as (HE & _ & _).
  destruct (ops_GetGraphClient base tenantID _) as [got s1]. simpl in HE.
  destruct got as [[err|client]|v|]; simpl;
    try (intros [= <- <-]; simpl; by left).
  { intros [= <- <-]. right. simpl. by rewrite HE. }
  unfold bind at 1, fetch, extern. simpl.
  destruct (Get client None (Some query) (world s1)) as [[err|[result|]] w2];
    simpl; try (intros [= <- <-]; simpl; by left).
  { intros [= <- <-]. right. simpl. by rewrite HE. }
  unfold bind at 1. simpl. unfold bind at 1.
  destruct (next_pages _ _ _ _ _ _ _ _) as [rp s3] eqn:Hpages.
  apply next_pages_coll in Hpages. simpl in Hpages.
  destruct rp as [entities|v|]; simpl.
  - unfold bind, update, modify, time_Now, peek. simpl.
    destruct (Now Γ (world s3)) as [t1 w4]. simpl.
    destruct (Now Γ w4) as [t2 w5]. simpl.
    intros [= <- <-]. simpl.
    destruct Hpages as [->| ->]; simpl; [by left|right; by rewrite HE].
  - intros [= <- <-].
    destruct Hpages as [->| ->]; simpl; [by left|right; by rewrite HE].
  - intros [= <- <-].
    destruct Hpages as [->| ->]; simpl; [by left|right; by rewrite HE].
Qed.

(** The iterations of the tenants before a tenant, then the rest. *)
Lemma for_each_app {S A} (l1 l2 : list A) (body : A → M S unit) st st' :
  for_each l1 body st = (Val tt, st') →
  for_each (l1 ++ l2) body st = for_each l2 body st'.
Proof.
  revert st. induction l1 as [|a l1 IH]; intros st H; simpl in *.
  - by injection H as <-.
  - unfold bind in *. destruct (body a st) as [[[]|v|] s1]; try done.
    by apply IH.
Qed.
End Iteration.

(** ** Cycles of the users and devices collectors *)



(** X10.  A cycle never removes a cache entry, however it ends, and leaves
    the entry of every tenant that [GetTenants] does not return as it was:
    the entities of a tenant taken out of the configuration stay cached. *)
Theorem cycle_keeps_unlisted_tenants
    {W E : Type} (Γ : World W) (base : BaseOps W)
    (Get : Client → option string → option RequestConfiguration →
           W → Fetched E * W)
    (which : Collection) (query : RequestConfiguration)
    (fuel : nat) (s s0 : St (EntityCollector E) W) (tenants : list string) :
  embedded Base set_Base (ops_GetTenants base) s = (Val tenants, s0) →
  dom (entityList (coll s))
  ⊆ dom (entityList (coll (snd (collect Γ base Get which query fuel s))))
  ∧ ∀ other, (other ∉ tenants) →
      entityList (coll (snd (collect Γ base Get which query fuel s))) !! other
      = entityList (coll s) !! other.
Proof.
  intros Htenants.
  pose proof Htenants as Hframe. apply embedded_frame in Hframe as (HL & _ & _).
  unfold collect. erewrite bind_Val; [|exact Htenants].
  rewrite <- HL. split.
  - apply iterations_dom.
  - intros other Hother. by apply iterations_other.
Qed.

Lemma cycle_keeps_unlisted_tenants_witness :
  let Γ := simulate first_tenant_down in
  let base := Hardened.ops Γ in
  let s := start (with_users two_tenants {[ "t0" := [user "a"] ]}) in
  let s' := snd (UsersCollector.collect Γ base 1 s) in
  embedded Base set_Base (ops_GetTenants base) s = (Val ["t1"; "t2"], s)
  ∧ dom (entityList (coll s)) ⊆ dom (entityList (coll s'))
  ∧ ∀ other, (other ∉ ["t1"; "t2"]) →
      entityList (coll s') !! other = entityList (coll s) !! other.
Proof.
  cbv zeta.
  set (Γ := simulate first_tenant_down).
  assert (H : embedded Base set_Base (ops_GetTenants (Hardened.ops Γ))
                (start (with_users two_tenants {[ "t0" := [user "a"] ]}))
              = (Val ["t1"; "t2"],
                 start (with_users two_tenants {[ "t0" := [user "a"] ]})))
    by (vm_compute; reflexivity).
  split; [exact H|].
  exact (cycle_keeps_unlisted_tenants
           Γ (Hardened.ops Γ) (UsersGet Γ) UsersC UsersCollector.query 1 _ _ _ H).
Defined.

(** X11.  One iteration of the tenant loop counts at most one scrape error,
    for its own tenant, however it ends: with the base collector of either
    file, the error counters after the iteration are those before it, or
    those with the counter of the tenant incremented once. *)
Theorem iteration_counts_at_most_one_error
    {W E : Type} (Γ : World W)
    (Get : Client → option string → option RequestConfiguration →
           W → Fetched E * W)
    (which : Collection) (query : RequestConfiguration)
    (fuel : nat) (tenantID : string) (s : St (EntityCollector E) W) :
  let before := scrapeErrors (Base (coll s)) in
  let after base :=
    scrapeErrors
      (Base (coll (snd (collect_tenant Γ base Get which query fuel tenantID s)))) in
  (after (Hardened.ops Γ) = before
   ∨ after (Hardened.ops Γ) = CounterVec_Inc tenantID before)
  ∧ (after (Plain.ops Γ) = before
     ∨ after (Plain.ops Γ) = CounterVec_Inc tenantID before).
Proof.
  cbv zeta. split.
  - apply collect_tenant_errors. intros t s0. apply Hardened_metrics.
  - apply collect_tenant_errors. intros t s0. apply Plain_metrics.
Qed.

(** X12.  A nil response to the first request of a tenant ends the whole
    cycle with a nil dereference: no error is counted, nothing is written
    since the client was obtained, and the tenants listed after it are not
    visited in this cycle. *)
Theorem nil_response_ends_the_cycle
    {W E : Type} (Γ : World W) (base : BaseOps W)
    (Get : Client → option string → option RequestConfiguration →
           W → Fetched E * W)
    (which : Collection) (query : RequestConfiguration)
    (fuel : nat) (before after : list string) (tenantID : string)
    (s s0 sT s1 : St (EntityCollector E) W) (client : Client) (w2 : W) :
  embedded Base set_Base (ops_GetTenants base) s
  = (Val (before ++ tenantID :: after), s0) →
  for_each before (collect_tenant Γ base Get which query fuel) s0 = (Val tt, sT) →
  embedded Base set_Base (ops_GetGraphClient base tenantID)
           (snd (time_Now Γ sT)) = (Val (inr client), s1) →
  Get client None (Some query) (world s1) = (inr None, w2) →
  collect Γ base Get which query fuel s
  = (Panic nil_dereference,
     {| coll := coll s1; world := w2;
        trace := trace s1 ++ [CallGet client which None (Some query)] |}).
Proof.
  intros Htenants Hbefore Hclient Hget.
  unfold collect. erewrite bind_Val; [|exact Htenants].
  rewrite (for_each_app _ _ _ _ _ Hbefore). simpl.
  erewrite bind_Panic; [done|].
  unfold collect_tenant.
  erewrite bind_Val; [|apply time_Now_eq].
  rewrite time_Now_eq in Hclient. simpl in Hclient.
  erewrite bind_Val; [|exact Hclient].
  cbv beta iota.
  erewrite bind_Val; [|apply fetch_eq; exact Hget].
  reflexivity.
Qed.

Lemma nil_response_ends_the_cycle_witness :
  let Γ := simulate nil_response in
  let base := Plain.ops Γ in
  let s := start (NewDevicesCollector two_tenants) in
  let s1 := snd (embedded Base set_Base (ops_GetGraphClient base "t1")
                          (snd (time_Now Γ s))) in
  let w2 := {| sim_clock := Second; sim_handles := 4; sim_gets := 1 |} in
  embedded Base set_Base (ops_GetTenants base) s = (Val ([] ++ "t1" :: ["t2"]), s)
  ∧ for_each [] (DevicesCollector.collect_tenant Γ base 3) s = (Val tt, s)
  ∧ embedded Base set_Base (ops_GetGraphClient base "t1") (snd (time_Now Γ s))
    = (Val (inr 3%nat), s1)
  ∧ DevicesGet Γ 3%nat None (Some DevicesCollector.query) (world s1)
    = (inr None, w2)
  ∧ DevicesCollector.collect Γ base 3 s
    = (Panic nil_dereference,
       {| coll := coll s1; world := w2;
          trace := trace s1
                   ++ [CallGet 3%nat DevicesC None (Some DevicesCollector.query)] |}).
Proof.
  cbv zeta.
  set (Γ := simulate nil_response).
  set (s := start (NewDevicesCollector two_tenants)).
  assert (H1 : embedded Base set_Base (ops_GetTenants (Plain.ops Γ)) s
               = (Val ([] ++ "t1" :: ["t2"]), s))
    by (vm_compute; reflexivity).
  assert (H2 : for_each [] (DevicesCollector.collect_tenant Γ (Plain.ops Γ) 3) s
               = (Val tt, s)) by reflexivity.
  assert (H3 : embedded Base set_Base (ops_GetGraphClient (Plain.ops Γ) "t1")
                 (snd (time_Now Γ s))
               = (Val (inr 3%nat),
                  snd (embedded Base set_Base
                         (ops_GetGraphClient (Plain.ops Γ) "t1")
                         (snd (time_Now Γ s)))))
    by (vm_compute; reflexivity).
  assert (H4 : DevicesGet Γ 3%nat None (Some DevicesCollector.query)
                 (world (snd (embedded Base set_Base
                                (ops_GetGraphClient (Plain.ops Γ) "t1")
                                (snd (time_Now Γ s)))))
               = (inr None,
                  {| sim_clock := Second; sim_handles := 4; sim_gets := 1 |}))
    by (vm_compute; reflexivity).
  split; [exact H1|]. split; [exact H2|]. split; [exact H3|]. split; [exact H4|].
  exact (nil_response_ends_the_cycle
           Γ (Plain.ops Γ) (DevicesGet Γ) DevicesC DevicesCollector.query
           3 [] ["t2"] "t1" s s s _ 3%nat _ H1 H2 H3 H4).
Defined.



(** ** [Collect] only adds to the vectors *)

Section RenderGrows.
Context {W E : Type}
        (labels : string → E → M (St (EntityCollector E) W) (list string)).
Hypothesis labels_read_only : ∀ t e s, snd (labels t e s) = s.

Lemma keeps_samples_refl (c : EntityCollector E) : keeps_samples c c.
Proof. split; [done|]. intros l v H. by left. Qed.

Lemma keeps_samples_trans (c1 c2 c3 : EntityCollector E) :
  keeps_samples c1 c2 → keeps_samples c2 c3 → keeps_samples c1 c3.
Proof.
  intros [HT1 HI1] [HT2 HI2]. split; [by etrans|].
  intros l v H. destruct (HI1 l v H) as [H2|H2].
  - by apply HI2.
  - destruct (HI2 l 1 H2) as [?|?]; by right.
Qed.

Lemma keeps_samples_info values (c : EntityCollector E) :
  keeps_samples c (set_entityInfo (<[values := 1]>) c).
Proof.
  split; [done|]. intros l v H. simpl.
  destruct (decide (values = l)) as [->|Hne].
  - right. apply lookup_insert_eq.
  - left. by rewrite lookup_insert_ne.
Qed.

Lemma keeps_samples_total t n (c : EntityCollector E) :
  keeps_samples c (set_entityTotal (<[t := n]>) c).
Proof.
  split; [|intros l v H; by left]. simpl. rewrite dom_insert. set_solver.
Qed.

Lemma render_entities_grows t es (s : St (EntityCollector E) W) :
  keeps_samples (coll s)
    (coll (snd (for_each es (λ entity,
                  let* values := labels t entity in
                  update (set_entityInfo (<[values := 1]>))) s))).
Proof.
  revert s. induction es as [|e es IH]; intros s; [apply keeps_samples_refl|].
  simpl. unfold bind at 1. unfold bind at 1.
  pose proof (labels_read_only t e s) as Hl.
  destruct (labels t e s) as [[values|v|] s1]; simpl in Hl; subst s1; simpl;
    try apply keeps_samples_refl.
  eapply keeps_samples_trans; [|apply IH]. apply keeps_samples_info.
Qed.

Lemma render_tenants_grows kvs (s : St (EntityCollector E) W) :
  keeps_samples (coll s)
    (coll (snd (for_each kvs (λ '(tenantID, entities),
                  update (set_entityTotal
                            (<[tenantID := Z.of_nat (length entities)]>)) ;;
                  for_each entities (λ entity,
                    let* values := labels tenantID entity in
                    update (set_entityInfo (<[values := 1]>)))) s))).
Proof.
  revert s. induction kvs as [|[t es] kvs IH]; intros s;
    [apply keeps_samples_refl|].
  simpl. unfold bind at 1. unfold bind at 1. rewrite update_eq.
  match goal with
  | |- context [for_each es ?body ?st] =>
    pose proof (render_entities_grows t es st) as Hes;
    destruct (for_each es body st) as [[[]|v|] s2]
  end; simpl in *.
  - eapply keeps_samples_trans; [apply keeps_samples_total|].
    eapply keeps_samples_trans; [exact Hes|apply IH].
  - eapply keeps_samples_trans; [apply keeps_samples_total|exact Hes].
  - eapply keeps_samples_trans; [apply keeps_samples_total|exact Hes].
Qed.

Lemma Collect_grows (s : St (EntityCollector E) W) :
  keeps_samples (coll s) (coll (snd (Collect labels s))).
Proof.
  unfold Collect, this. unfold bind at 1. unfold gets.
  apply render_tenants_grows.
Qed.
End RenderGrows.

Lemma users_labels_read_only {W} t (u : User) (s : St (EntityCollector User) W) :
  snd (UsersCollector.labels t u s) = s.
Proof.
  unfold UsersCollector.labels.
  by destruct (user_GetId u), (user_GetUserPrincipalName u), (user_GetDisplayName u).
Qed.

Lemma devices_labels_read_only {W} (Γ : World W) t (d : Device)
    (s : St (EntityCollector Device) W) :
  snd (DevicesCollector.labels Γ t d s) = s.
Proof.
  unfold DevicesCollector.labels.
  by destruct (device_GetId d), (device_GetDisplayName d).
Qed.

(** X14.  [Collect] of the users and of the devices collector never removes
    a sample, whether it returns or panics: a total that was exposed stays
    exposed, and an info sample keeps its value or is set to 1.  The info
    sample of an entity that is no longer in the cache stays exposed. *)
Theorem Collect_never_removes_a_sample {W : Type} (Γ : World W)
    (su : St (EntityCollector User) W) (sd : St (EntityCollector Device) W) :
  keeps_samples (coll su) (coll (snd (UsersCollector.Collect su)))
  ∧ keeps_samples (coll sd) (coll (snd (DevicesCollector.Collect Γ sd))).
Proof.
  split.
  - apply Collect_grows. intros. apply users_labels_read_only.
  - apply Collect_grows. intros. apply devices_labels_read_only.
Qed.

(** A user who left the directory: rendered from the earlier snapshot, then
    a cycle that finds an empty directory, then the next render. *)
Example departed_user_stays_exposed :
  let s1 := snd (users_cycle (healthy no_env) 1 users_rendered_before) in
  let s2 := snd (UsersCollector.Collect s1) in
  entityList (coll s1) !! "t1" = Some []
  ∧ entityTotal (coll s2) !! "t1" = Some 0
  ∧ entityInfo (coll s2) !! users_values "t1" (user "a") = Some 1.
Proof. cbv zeta. repeat split; vm_compute; reflexivity. Qed.

(** ** Rendering device records *)




(** X16.  The label values computed for an info sample are as many as the
    label names the vector was declared with, so [WithLabelValues] is never
    called with a wrong number of values; computing them fails only by the
    nil dereference of an absent unguarded field. *)
Theorem info_label_values_match_label_names {W : Type} (Γ : World W)
    (tenantID : string) (u : User) (d : Device)
    (su : St (EntityCollector User) W) (sd : St (EntityCollector Device) W) :
  match fst (UsersCollector.labels tenantID u su) with
  | Val values => length values = length usersInfo_label_names ∧ user_complete u
  | Panic v => v = nil_dereference ∧ ¬ user_complete u
  | Running => False
  end
  ∧ match fst (DevicesCollector.labels Γ tenantID d sd) with
    | Val values =>
      length values = length devicesInfo_label_names ∧ device_complete d
    | Panic v => v = nil_dereference ∧ ¬ device_complete d
    | Running => False
    end.
Proof.
  split.
  - unfold UsersCollector.labels, user_complete.
    destruct (user_GetId u), (user_GetUserPrincipalName u),
             (user_GetDisplayName u); simpl;
      try (split; [reflexivity|]; repeat split; by eexists);
      split; try reflexivity; intros (H1 & H2 & H3);
      by (apply is_Some_None in H1 || apply is_Some_None in H2
          || apply is_Some_None in H3).
  - unfold DevicesCollector.labels, device_complete.
    destruct (device_GetId d), (device_GetDisplayName d); simpl;
      try (split; [reflexivity|]; repeat split; by eexists);
      split; try reflexivity; intros (H1 & H2);
      by (apply is_Some_None in H1 || apply is_Some_None in H2).
Qed.

(** ** The general collector: what an iteration does *)

Section GeneralTotal.
Context {W : Type} (Γ : World W) (base : BaseOps W).

(** An iteration after [GetGraphClient] has returned [got] in [s1]. *)
Lemma general_collect_tenant_eq tenantID (s s1 : St GeneralCollector W) got :
  embedded gBase GeneralCollector.set_gBase (ops_GetGraphClient base tenantID)
           (snd (time_Now Γ s)) = (Val got, s1) →
  ∃ s', GeneralCollector.collect_tenant Γ base tenantID s = (Val tt, s')
    ∧ match got with
      | inl _ =>
        trace s' = trace s1
        ∧ world s' = world s1
        ∧ stats (coll s') = stats (coll s)
        ∧ statsMetric (coll s') = statsMetric (coll s)
        ∧ scrapeErrors (gBase (coll s'))
          = CounterVec_Inc tenantID (scrapeErrors (gBase (coll s1)))
        ∧ scrapeDuration (gBase (coll s')) = scrapeDuration (gBase (coll s1))
        ∧ lastScrapeTime (gBase (coll s')) = lastScrapeTime (gBase (coll s1))
      | inr client =>
        trace s' = trace s1 ++ count_requests client
        ∧ is_Some (stats (coll s') !! tenantID)
        ∧ statsMetric (coll s') = statsMetric (coll s)
        ∧ (∃ d, scrapeDuration (gBase (coll s'))
                = SummaryVec_Observe tenantID d
                    (scrapeDuration (gBase (coll s1))))
        ∧ (∃ t, lastScrapeTime (gBase (coll s'))
                = <[tenantID := t]> (lastScrapeTime (gBase (coll s1))))
      end.
Proof.
  intros Hclient.
  assert (Hframe : stats (coll s1) = stats (coll s)
                   ∧ statsMetric (coll s1) = statsMetric (coll s)).
  { apply embedded_general_frame in Hclient. by rewrite time_Now_eq in Hclient. }
  destruct Hframe as [HS HG].
  unfold GeneralCollector.collect_tenant.
  erewrite bind_Val; [|apply time_Now_eq].
  rewrite time_Now_eq in Hclient. simpl in Hclient.
  erewrite bind_Val; [|exact Hclient].
  destruct got as [err|client].
  { eexists. split; [reflexivity|]. simpl. by rewrite HS, HG. }
  cbv beta iota zeta.
  destruct (UsersGet Γ client None None (world s1)) as [r1 w1] eqn:H1.
  destruct (DevicesGet Γ client None None w1) as [r2 w2] eqn:H2.
  destruct (ApplicationsGet Γ client None None w2) as [r3 w3] eqn:H3.
  destruct (ServicePrincipalsGet Γ client None None w3) as [r4 w4] eqn:H4.
  destruct (GroupsGet Γ client None None w4) as [r5 w5] eqn:H5.
  erewrite bind_Val; [|apply count_eq; exact H1].
  erewrite bind_Val; [|apply count_eq; exact H2].
  erewrite bind_Val; [|apply count_eq; exact H3].
  erewrite bind_Val; [|apply count_eq; exact H4].
  erewrite bind_Val; [|apply count_eq; exact H5].
  unfold bind, update, modify, time_Now, peek. simpl.
  destruct (Now Γ w5) as [t1 w6]. simpl.
  destruct (Now Γ w6) as [t2 w7]. simpl.
  eexists. split; [reflexivity|]. simpl.
  set (a1 := answer r1). set (a2 := answer r2). set (a3 := answer r3).
  set (a4 := answer r4). set (a5 := answer r5).
  clearbody a1 a2 a3 a4 a5.
  split; [by rewrite <- !app_assoc|].
  split.
  { unfold charged. repeat case_match; simpl; rewrite lookup_insert_eq;
      by eexists. }
  split.
  { rewrite <- HG. unfold charged. by repeat case_match. }
  split; eexists; unfold charged; by repeat case_match.
Qed.

Hypothesis client_returns :
  ∀ t s, ∃ got s', ops_GetGraphClient base t s = (Val got, s').
Hypothesis tenants_return :
  ∀ s, ∃ tenants s', ops_GetTenants base s = (Val tenants, s').

Lemma general_collect_tenant_returns tenantID (s : St GeneralCollector W) :
  ∃ s', GeneralCollector.collect_tenant Γ base tenantID s = (Val tt, s').
Proof.
  destruct (client_returns tenantID
              {| coll := gBase (coll (snd (time_Now Γ s)));
                 world := world (snd (time_Now Γ s));
                 trace := trace (snd (time_Now Γ s)) |})
    as (got & s0 & Hgot).
  destruct (general_collect_tenant_eq tenantID s
              {| coll := GeneralCollector.set_gBase (coll s0)
                           (coll (snd (time_Now Γ s)));
                 world := world s0; trace := trace s0 |} got)
    as (s' & Hrun & _).
  { unfold embedded. by rewrite Hgot. }
  by exists s'.
Qed.

Lemma general_iterations_return tenants (s : St GeneralCollector W) :
  ∃ s', for_each tenants (GeneralCollector.collect_tenant Γ base) s
        = (Val tt, s').
Proof.
  revert s. induction tenants as [|t tenants IH]; intros s; [by exists s|].
  simpl. destruct (general_collect_tenant_returns t s) as (s1 & H1).
  erewrite bind_Val; [|exact H1]. apply IH.
Qed.

Lemma general_collect_returns (s : St GeneralCollector W) :
  ∃ s', GeneralCollector.collect Γ base s = (Val tt, s').
Proof.
  unfold GeneralCollector.collect.
  destruct (tenants_return {| coll := gBase (coll s); world := world s;
                              trace := trace s |}) as (tenants & s0 & Ht).
  erewrite bind_Val; [|unfold embedded; by rewrite Ht].
  apply general_iterations_return.
Qed.
End GeneralTotal.

Lemma Hardened_returns {W} (Γ : World W) t (s : St BaseCollector W) :
  ∃ got s', Hardened.GetGraphClient Γ t s = (Val got, s').
Proof.
  destruct (graphClients (coll s) !! t) as [c|] eqn:Hc.
  { rewrite (Hardened_cached _ _ c) by done. by eexists _, _. }
  rewrite Hardened_uncached by done. cbv zeta.
  run_factory; by eexists _, _.
Qed.

Lemma Plain_returns {W} (Γ : World W) t (s : St BaseCollector W) :
  ∃ got s', Plain.GetGraphClient Γ t s = (Val got, s').
Proof.
  destruct (graphClients (coll s) !! t) as [c|] eqn:Hc.
  { rewrite (Plain_cached _ _ c) by done. by eexists _, _. }
  rewrite Plain_uncached by done.
  run_factory; by eexists _, _.
Qed.

Lemma Plain_GetTenants_returns {W} (Γ : World W) (s : St BaseCollector W) :
  ∃ tenants s', Plain.GetTenants (W := W) s = (Val tenants, s').
Proof.
  unfold Plain.GetTenants, bind, this, gets.
  destruct (Tenants (config (coll s))); simpl; by eexists _, _.
Qed.

(** ** The general collector with the label validation *)

Section CheckedFacts.
Context {W : Type} (Γ : World W) (base : BaseOps W).

Lemma WithLabelValues_valid {S} tenantID (s : S) :
  ValidString tenantID = true →
  WithLabelValues base_label_names [tenantID] s = (Val tt, s).
Proof. intros H. unfold WithLabelValues. simpl. by rewrite H. Qed.

Lemma WithLabelValues_invalid {S} tenantID (s : S) :
  ValidString tenantID = false →
  WithLabelValues base_label_names [tenantID] s
  = (Panic invalid_label_value, s).
Proof. intros H. unfold WithLabelValues. simpl. by rewrite H. Qed.

Lemma Checked_scrapeErrors_Inc_valid tenantID (s : St GeneralCollector W) :
  ValidString tenantID = true →
  Checked.scrapeErrors_Inc tenantID s
  = GeneralCollector.scrapeErrors_Inc tenantID s.
Proof.
  intros H. unfold Checked.scrapeErrors_Inc.
  erewrite bind_Val; [done|by apply WithLabelValues_valid].
Qed.

Lemma Checked_count_valid {E}
    (Get : Client → option string → option RequestConfiguration →
           W → Fetched E * W)
    which metric tenantID client st (s : St GeneralCollector W) :
  ValidString tenantID = true →
  Checked.count Get which metric tenantID client st s
  = GeneralCollector.count Get which metric tenantID client st s.
Proof.
  intros H. unfold Checked.count, GeneralCollector.count.
  unfold bind at 1 3. destruct (extern _ _ s) as [[[err|[page|]]|v|] s1];
    try done.
  unfold bind. by rewrite Checked_scrapeErrors_Inc_valid.
Qed.

(** On a tenant id that is valid UTF-8 the iteration with the validation
    is the iteration without it. *)
Lemma Checked_collect_tenant_valid tenantID (s : St GeneralCollector W) :
  ValidString tenantID = true →
  Checked.collect_tenant Γ base tenantID s
  = GeneralCollector.collect_tenant Γ base tenantID s.
Proof.
  intros H. unfold Checked.collect_tenant, GeneralCollector.collect_tenant.
  unfold bind at 1 14. destruct (time_Now Γ s) as [[start|v|] s0]; try done.
  unfold bind at 1 13.
  destruct (embedded gBase GeneralCollector.set_gBase _ s0)
    as [[[err|client]|v|] s1]; try done.
  { by apply Checked_scrapeErrors_Inc_valid. }
  unfold bind at 1 12. rewrite Checked_count_valid by done.
  destruct (GeneralCollector.count _ _ _ _ _ _ s1) as [[st1|v|] s2]; try done.
  unfold bind at 1 11. rewrite Checked_count_valid by done.
  destruct (GeneralCollector.count _ _ _ _ _ _ s2) as [[st2|v|] s3]; try done.
  unfold bind at 1 10. rewrite Checked_count_valid by done.
  destruct (GeneralCollector.count _ _ _ _ _ _ s3) as [[st3|v|] s4]; try done.
  unfold bind at 1 9. rewrite Checked_count_valid by done.
  destruct (GeneralCollector.count _ _ _ _ _ _ s4) as [[st4|v|] s5]; try done.
  unfold bind at 1 8. rewrite Checked_count_valid by done.
  destruct (GeneralCollector.count _ _ _ _ _ _ s5) as [[st5|v|] s6]; try done.
  unfold bind, update, modify, time_Now, peek. simpl.
  destruct (Now Γ (world s6)) as [t1 w7]. simpl.
  rewrite !WithLabelValues_valid by done.
  reflexivity.
Qed.

Lemma Checked_iterations_valid tenants (s : St GeneralCollector W) :
  Forall (λ t, ValidString t = true) tenants →
  for_each tenants (Checked.collect_tenant Γ base) s
  = for_each tenants (GeneralCollector.collect_tenant Γ base) s.
Proof.
  intros Hvalid. revert s.
  induction Hvalid as [|t tenants Ht _ IH]; intros s; [done|].
  simpl. unfold bind. rewrite Checked_collect_tenant_valid by done.
  destruct (GeneralCollector.collect_tenant Γ base t s) as [[[]|v|] s1];
    by rewrite ?IH.
Qed.

Lemma Checked_collect_valid tenants (s s0 : St GeneralCollector W) :
  embedded gBase GeneralCollector.set_gBase (ops_GetTenants base) s
  = (Val tenants, s0) →
  Forall (λ t, ValidString t = true) tenants →
  Checked.collect Γ base s = GeneralCollector.collect Γ base s.
Proof.
  intros Htenants Hvalid. unfold Checked.collect, GeneralCollector.collect.
  erewrite !bind_Val by exact Htenants.
  by apply Checked_iterations_valid.
Qed.

(** A count on a tenant id that is not valid UTF-8 panics on the first
    failed request and returns otherwise. *)
Lemma Checked_count_invalid {E}
    (Get : Client → option string → option RequestConfiguration →
           W → Fetched E * W)
    which metric tenantID client st (s s' : St GeneralCollector W) r :
  ValidString tenantID = false →
  Checked.count Get which metric tenantID client st s = (r, s') →
  r = Panic invalid_label_value ∨ ∃ st', r = Val st'.
Proof.
  intros H. unfold Checked.count, bind at 1, extern.
  destruct (Get client None None (world s)) as [[err|[page|]] w1]; simpl.
  - unfold Checked.scrapeErrors_Inc, bind.
    rewrite WithLabelValues_invalid by done. intros [= <- <-]. by left.
  - destruct (GetOdataCount page); intros [= <- <-]; right; by eexists.
  - intros [= <- <-]. right. by eexists.
Qed.

(** An iteration on a tenant id that is not valid UTF-8 panics in
    [WithLabelValues], once [GetGraphClient] has returned. *)
Lemma Checked_collect_tenant_invalid tenantID (s s1 : St GeneralCollector W)
    got :
  embedded gBase GeneralCollector.set_gBase (ops_GetGraphClient base tenantID)
           (snd (time_Now Γ s)) = (Val got, s1) →
  ValidString tenantID = false →
  fst (Checked.collect_tenant Γ base tenantID s) = Panic invalid_label_value.
Proof.
  intros Hclient H. unfold Checked.collect_tenant.
  erewrite bind_Val; [|apply time_Now_eq].
  rewrite time_Now_eq in Hclient. simpl in Hclient.
  erewrite bind_Val; [|exact Hclient].
  destruct got as [err|client].
  { unfold Checked.scrapeErrors_Inc, bind.
    by rewrite WithLabelValues_invalid. }
  cbv beta iota zeta.
  repeat match goal with
         | |- fst (bind (Checked.count ?G ?wh ?m ?t ?c ?st) ?k ?s0) = _ =>
           unfold bind at 1;
           let Hc := fresh "Hc" in
           destruct (Checked.count G wh m t c st s0) as [? ?] eqn:Hc;
           apply Checked_count_invalid in Hc as [->|[? ->]];
           [reflexivity| |exact H]
         end.
  unfold bind, update, modify, time_Now, peek. simpl.
  match goal with
  | |- context [Now Γ ?w] => destruct (Now Γ w) as [t1 w7]
  end. simpl.
  by rewrite WithLabelValues_invalid.
Qed.
End CheckedFacts.

(** The base collector of part_004 keeps its configuration. *)
Lemma Plain_config {W} (Γ : World W) t (s : St BaseCollector W) :
  config (coll (snd (Plain.GetGraphClient Γ t s))) = config (coll s).
Proof.
  destruct (graphClients (coll s) !! t) as [c|] eqn:Hc.
  { by rewrite (Plain_cached _ _ c). }
  rewrite Plain_uncached by done.
  run_factory; done.
Qed.

Section GeneralConfig.
Context {W : Type} (Γ : World W).

Lemma general_collect_tenant_config tenantID (s : St GeneralCollector W) :
  config (gBase (coll (snd (GeneralCollector.collect_tenant
                              Γ (Plain.ops Γ) tenantID s))))
  = config (gBase (coll s)).
Proof.
  destruct (embedded gBase GeneralCollector.set_gBase
              (ops_GetGraphClient (Plain.ops Γ) tenantID)
              (snd (time_Now Γ s))) as [r s1] eqn:Hclient.
  assert (Hcfg : config (gBase (coll s1)) = config (gBase (coll s))).
  { revert Hclient. unfold embedded. simpl.
    pose proof (Plain_config Γ tenantID
                  {| coll := gBase (coll s); world := (Now Γ (world s)).2;
                     trace := trace s |}) as HP.
    rewrite time_Now_eq. simpl.
    destruct (Plain.GetGraphClient Γ tenantID _) as [r0 s0].
    intros [= <- <-]. exact HP. }
  destruct (Plain_returns Γ tenantID
              {| coll := gBase (coll (snd (time_Now Γ s)));
                 world := world (snd (time_Now Γ s));
                 trace := trace (snd (time_Now Γ s)) |}) as (got & s0 & Hgot).
  assert (Hr : r = Val got).
  { revert Hclient. unfold embedded. simpl in *. rewrite Hgot.
    by intros [= <- _]. }
  subst r. rewrite <- Hcfg.
  revert Hclient. clear Hcfg Hgot. intros Hclient.
  unfold GeneralCollector.collect_tenant.
  erewrite bind_Val; [|apply time_Now_eq].
  rewrite time_Now_eq in Hclient. simpl in Hclient.
  erewrite bind_Val; [|exact Hclient].
  destruct got as [err|client]; [done|].
  cbv beta iota zeta.
  destruct (UsersGet Γ client None None (world s1)) as [r1 w1] eqn:H1.
  destruct (DevicesGet Γ client None None w1) as [r2 w2] eqn:H2.
  destruct (ApplicationsGet Γ client None None w2) as [r3 w3] eqn:H3.
  destruct (ServicePrincipalsGet Γ client None None w3) as [r4 w4] eqn:H4.
  destruct (GroupsGet Γ client None None w4) as [r5 w5] eqn:H5.
  erewrite bind_Val; [|apply count_eq; exact H1].
  erewrite bind_Val; [|apply count_eq; exact H2].
  erewrite bind_Val; [|apply count_eq; exact H3].
  erewrite bind_Val; [|apply count_eq; exact H4].
  erewrite bind_Val; [|apply count_eq; exact H5].
  unfold bind, update, modify, time_Now, peek. simpl.
  destruct (Now Γ w5) as [t1 w6]. simpl.
  destruct (Now Γ w6) as [t2 w7]. simpl.
  unfold charged. by repeat case_match.
Qed.

Lemma general_iterations_config tenants (s : St GeneralCollector W) :
  config (gBase (coll (snd (for_each tenants
                              (GeneralCollector.collect_tenant Γ (Plain.ops Γ))
                              s))))
  = config (gBase (coll s)).
Proof.
  revert s. induction tenants as [|t tenants IH]; intros s; [done|].
  simpl. unfold bind.
  pose proof (general_collect_tenant_config t s) as Hone.
  destruct (GeneralCollector.collect_tenant Γ (Plain.ops Γ) t s)
    as [[[]|v|] s1]; simpl in *; try done.
  by rewrite IH.
Qed.

Lemma Plain_tenants_eq (s : St GeneralCollector W) :
  embedded gBase GeneralCollector.set_gBase
           (ops_GetTenants (Plain.ops Γ)) s
  = (Val match Tenants (config (gBase (coll s))) with
         | [] => [""]
         | configured => configured
         end,
     {| coll := GeneralCollector.set_gBase (gBase (coll s)) (coll s);
        world := world s; trace := trace s |}).
Proof.
  unfold embedded. simpl. unfold Plain.GetTenants, bind, this, gets. simpl.
  by destruct (Tenants (config (gBase (coll s)))).
Qed.

Lemma general_collect_config (s : St GeneralCollector W) :
  config (gBase (coll (snd (GeneralCollector.collect Γ (Plain.ops Γ) s))))
  = config (gBase (coll s)).
Proof.
  unfold GeneralCollector.collect.
  erewrite bind_Val; [|apply Plain_tenants_eq].
  by rewrite general_iterations_config.
Qed.

Lemma Plain_tenants_valid (s : St GeneralCollector W) :
  Forall (λ t, ValidString t = true) (Tenants (config (gBase (coll s)))) →
  Forall (λ t, ValidString t = true)
         match Tenants (config (gBase (coll s))) with
         | [] => [""]
         | configured => configured
         end.
Proof.
  intros H. destruct (Tenants (config (gBase (coll s)))); [|done].
  by constructor.
Qed.
End GeneralConfig.

(** X17.  An iteration of the general collector on a tenant id that is
    valid UTF-8 completes.  After a failed [GetGraphClient] it makes no
    request, counts one error and writes neither the statistics nor the
    scrape metrics; with a client it makes the five count requests in the
    order users, devices, applications, service principals, groups, whatever
    each of them answers, stores a statistics entry for the tenant and
    records the duration and the last scrape time, also when all five
    requests failed.  On a tenant id that is not valid UTF-8 the iteration
    panics in [WithLabelValues]. *)
Theorem general_iteration_asks_all_five
    {W : Type} (Γ : World W) (base : BaseOps W) (tenantID : string)
    (s s1 : St GeneralCollector W) (got : Error + Client) :
  embedded gBase GeneralCollector.set_gBase (ops_GetGraphClient base tenantID)
           (snd (time_Now Γ s)) = (Val got, s1) →
  (ValidString tenantID = true →
   ∃ s', Checked.collect_tenant Γ base tenantID s = (Val tt, s')
     ∧ match got with
       | inl _ =>
         trace s' = trace s1
         ∧ stats (coll s') = stats (coll s)
         ∧ scrapeErrors (gBase (coll s'))
           = CounterVec_Inc tenantID (scrapeErrors (gBase (coll s1)))
         ∧ scrapeDuration (gBase (coll s')) = scrapeDuration (gBase (coll s1))
         ∧ lastScrapeTime (gBase (coll s')) = lastScrapeTime (gBase (coll s1))
       | inr client =>
         trace s' = trace s1 ++ count_requests client
         ∧ is_Some (stats (coll s') !! tenantID)
         ∧ (∃ d, scrapeDuration (gBase (coll s'))
                 = SummaryVec_Observe tenantID d
                     (scrapeDuration (gBase (coll s1))))
         ∧ (∃ t, lastScrapeTime (gBase (coll s'))
                 = <[tenantID := t]> (lastScrapeTime (gBase (coll s1))))
       end)
  ∧ (ValidString tenantID = false →
     fst (Checked.collect_tenant Γ base tenantID s) = Panic invalid_label_value).
Proof.
  intros Hclient. split.
  - intros Hvalid. rewrite Checked_collect_tenant_valid by done.
    destruct (general_collect_tenant_eq Γ base tenantID s s1 got Hclient)
      as (s' & Hrun & H).
    exists s'. split; [done|].
    destruct got as [err|client].
    + destruct H as (? & _ & ? & _ & ? & ? & ?). done.
    + destruct H as (? & ? & _ & ? & ?). done.
  - intros Hinvalid. by eapply Checked_collect_tenant_invalid.
Qed.

Lemma general_iteration_asks_all_five_witness :
  let Γ := simulate users_count_fails in
  let base := Plain.ops Γ in
  let s := fresh_general in
  let s1 := snd (embedded gBase GeneralCollector.set_gBase
                          (ops_GetGraphClient base "t1") (snd (time_Now Γ s))) in
  embedded gBase GeneralCollector.set_gBase (ops_GetGraphClient base "t1")
           (snd (time_Now Γ s)) = (Val (inr 3%nat), s1)
  ∧ ValidString "t1" = true
  ∧ ∃ s', Checked.collect_tenant Γ base "t1" s = (Val tt, s')
      ∧ trace s' = trace s1 ++ count_requests 3%nat
      ∧ is_Some (stats (coll s') !! "t1")
      ∧ (∃ d, scrapeDuration (gBase (coll s'))
              = SummaryVec_Observe "t1" d (scrapeDuration (gBase (coll s1))))
      ∧ (∃ t, lastScrapeTime (gBase (coll s'))
              = <[ "t1" := t ]> (lastScrapeTime (gBase (coll s1)))).
Proof.
  cbv zeta.
  set (Γ := simulate users_count_fails).
  assert (H : embedded gBase GeneralCollector.set_gBase
                (ops_GetGraphClient (Plain.ops Γ) "t1")
                (snd (time_Now Γ fresh_general))
              = (Val (inr 3%nat),
                 snd (embedded gBase GeneralCollector.set_gBase
                        (ops_GetGraphClient (Plain.ops Γ) "t1")
                        (snd (time_Now Γ fresh_general)))))
    by (vm_compute; reflexivity).
  assert (Hvalid : ValidString "t1" = true) by reflexivity.
  split; [exact H|]. split; [exact Hvalid|].
  exact (proj1 (general_iteration_asks_all_five Γ (Plain.ops Γ) "t1"
                  fresh_general _ (inr 3%nat) H) Hvalid).
Defined.

(** X18.  A cycle of the general collector over tenant ids that are valid
    UTF-8 never panics: on the base collector of either file it returns, for
    every state and every behaviour of the identity library and of the Graph
    API (a nil page and a nil count are skipped).  The first tenant id that
    is not valid UTF-8 ends the cycle with the panic of
    [WithLabelValues]. *)
Theorem general_cycle_completes_on_valid_tenants {W : Type} (Γ : World W)
    (base : BaseOps W) (s s0 : St GeneralCollector W) (tenants : list string) :
  base = Plain.ops Γ ∨ base = Hardened.ops Γ →
  embedded gBase GeneralCollector.set_gBase (ops_GetTenants base) s
  = (Val tenants, s0) →
  (Forall (λ t, ValidString t = true) tenants →
   ∃ s', Checked.collect Γ base s = (Val tt, s'))
  ∧ (∀ before t after,
       tenants = before ++ t :: after →
       Forall (λ t, ValidString t = true) before →
       ValidString t = false →
       fst (Checked.collect Γ base s) = Panic invalid_label_value).
Proof.
  intros Hbase Htenants.
  assert (Hclient : ∀ t st, ∃ got st',
             ops_GetGraphClient base t st = (Val got, st')).
  { destruct Hbase as [-> | ->]; [apply Plain_returns|apply Hardened_returns]. }
  assert (Hlist : ∀ st, ∃ ts st', ops_GetTenants base st = (Val ts, st')).
  { destruct Hbase as [-> | ->]; intros st.
    - by apply Plain_GetTenants_returns.
    - eexists _, _. apply Hardened_GetTenants_eq. }
  split.
  - intros Hvalid. erewrite Checked_collect_valid by done.
    by apply general_collect_returns.
  - intros before t after -> Hvalid Hinvalid.
    unfold Checked.collect. erewrite bind_Val; [|exact Htenants].
    destruct (general_iterations_return Γ base Hclient before s0) as (sT & HT).
    rewrite <- Checked_iterations_valid in HT by done.
    rewrite (for_each_app _ _ _ _ _ HT). simpl.
    destruct (Hclient t {| coll := gBase (coll (snd (time_Now Γ sT)));
                           world := world (snd (time_Now Γ sT));
                           trace := trace (snd (time_Now Γ sT)) |})
      as (got & st' & Hgot).
    pose proof (Checked_collect_tenant_invalid Γ base t sT
                  {| coll := GeneralCollector.set_gBase (coll st')
                               (coll (snd (time_Now Γ sT)));
                     world := world st'; trace := trace st' |} got) as Hpanic.
    unfold bind.
    destruct (Checked.collect_tenant Γ base t sT) as [r sP]. simpl in Hpanic.
    rewrite Hpanic; [done| |done].
    unfold embedded. by rewrite Hgot.
Qed.

Lemma general_cycle_completes_on_valid_tenants_witness :
  let Γ := simulate users_count_fails in
  embedded gBase GeneralCollector.set_gBase (ops_GetTenants (Plain.ops Γ))
           fresh_general = (Val ["t1"], fresh_general)
  ∧ Forall (λ t, ValidString t = true) ["t1"]
  ∧ ∃ s', Checked.collect Γ (Plain.ops Γ) fresh_general = (Val tt, s').
Proof.
  cbv zeta.
  set (Γ := simulate users_count_fails).
  assert (H : embedded gBase GeneralCollector.set_gBase
                (ops_GetTenants (Plain.ops Γ)) fresh_general
              = (Val ["t1"], fresh_general)) by (vm_compute; reflexivity).
  assert (Hvalid : Forall (λ t, ValidString t = true) ["t1"])
    by (constructor; [reflexivity|constructor]).
  split; [exact H|]. split; [exact Hvalid|].
  exact (proj1 (general_cycle_completes_on_valid_tenants
                  Γ (Plain.ops Γ) fresh_general fresh_general ["t1"]
                  (or_introl eq_refl) H) Hvalid).
Defined.

(** The tenant taken from [AZURE_TENANT_ID] when the variable holds a byte
    that is not UTF-8: the first error to be counted panics. *)
Example invalid_environment_tenant_panics :
  let Γ := simulate (healthy (env_tenant not_utf8)) in
  ValidString not_utf8 = false
  ∧ fst (Hardened.GetTenants Γ (fresh_base [])) = Val [not_utf8]
  ∧ fst (Checked.collect Γ (Hardened.ops Γ) general_without_tenants)
    = Panic invalid_label_value.
Proof. cbv zeta. repeat split; vm_compute; reflexivity. Qed.

(** ** The refresh loops, for any collect function *)

Section LoopFacts.
Context {W C : Type} (Γ : World W) (scrape : C → Duration).

(** The loop with a [recover] around each cycle never ends by a panic. *)
Lemma Hardened_cycles_no_panic n (collect : M (St C W) unit) s v :
  fst (Hardened.cycles Γ scrape n collect s) ≠ Panic v.
Proof.
  revert s. induction n as [|n IH]; intros s; [done|].
  simpl. unfold bind at 1. unfold recover.
  destruct (collect s) as [[[]|v'|] s']; simpl; try done.
  - unfold bind at 1, this, gets. simpl. unfold bind at 1.
    unfold time_Sleep, extern. simpl. apply IH.
  - unfold bind at 1, this, gets. simpl. unfold bind at 1.
    unfold time_Sleep, extern. simpl. apply IH.
Qed.

(** While the cycles return, the loop without [recover] does what the loop
    with [recover] does. *)
Lemma Plain_loop_returns n (collect : M (St C W) unit) s :
  (∀ s, fst (collect s) = Val tt) →
  Plain.StartCacheInvalidator Γ scrape n collect s
  = (Running, Nat.iter n (after_cycle Γ scrape collect) s).
Proof.
  intros Hret. revert s. induction n as [|n IH]; intros s; [done|].
  rewrite Nat.iter_succ_r. rewrite <- IH.
  simpl. unfold bind at 1. unfold after_cycle.
  specialize (Hret s). destruct (collect s) as [r s']. simpl in Hret. subst r.
  reflexivity.
Qed.
(** The loop without [recover] runs on as long as the cycles return, which
    they do in the states of an invariant the cycles keep. *)
Lemma Plain_loop_returns_in (I : St C W → Prop) n
    (collect : M (St C W) unit) s :
  (∀ s, I s → fst (collect s) = Val tt) →
  (∀ s, I s → I (after_cycle Γ scrape collect s)) →
  I s →
  Plain.StartCacheInvalidator Γ scrape n collect s
  = (Running, Nat.iter n (after_cycle Γ scrape collect) s).
Proof.
  intros Hret Hkeep. revert s. induction n as [|n IH]; intros s Hs; [done|].
  rewrite Nat.iter_succ_r. rewrite <- IH by by apply Hkeep.
  simpl. unfold bind at 1. unfold after_cycle.
  specialize (Hret s Hs). destruct (collect s) as [r s']. simpl in Hret.
  subst r. reflexivity.
Qed.
End LoopFacts.

(** X19.  The goroutine with the two [recover]s never takes its restart
    branch: whatever [collect] does, every panic is stopped by the [recover]
    around the cycle, so the loop is left neither by a panic nor for the
    five-second restart, and the number of restarts allowed changes
    nothing. *)
Theorem restart_branch_is_never_taken {W C : Type} (Γ : World W)
    (scrape : C → Duration) (restarts n : nat) (collect : M (St C W) unit)
    (s : St C W) :
  Hardened.StartCacheInvalidator Γ scrape restarts n collect s
  = Hardened.cycles Γ scrape n collect s
  ∧ ∀ v, fst (Hardened.StartCacheInvalidator Γ scrape restarts n collect s)
         ≠ Panic v.
Proof.
  assert (H : Hardened.StartCacheInvalidator Γ scrape restarts n collect s
              = Hardened.cycles Γ scrape n collect s).
  { pose proof (Hardened_cycles_no_panic Γ scrape n collect s) as Hno.
    destruct restarts; simpl;
      destruct (Hardened.cycles Γ scrape n collect s) as [[[]|v|] s'];
      try done; by specialize (Hno v). }
  split; [done|]. rewrite H. intros v. apply Hardened_cycles_no_panic.
Qed.

(** X20.  When [collect] returns in every state, the two refresh loops do
    the same: after [n] iterations both are still running, in the state
    reached by [n] times a cycle followed by the sleep of the scrape
    interval. *)
Theorem refresh_loops_agree_while_cycles_return {W C : Type} (Γ : World W)
    (scrape : C → Duration) (restarts n : nat) (collect : M (St C W) unit)
    (s : St C W) :
  (∀ s, fst (collect s) = Val tt) →
  Plain.StartCacheInvalidator Γ scrape n collect s
  = (Running, Nat.iter n (after_cycle Γ scrape collect) s)
  ∧ Hardened.StartCacheInvalidator Γ scrape restarts n collect s
    = Plain.StartCacheInvalidator Γ scrape n collect s.
Proof.
  intros Hret. rewrite Plain_loop_returns by done. split; [done|].
  apply Hardened_loop_survives. intros s0. by rewrite Hret.
Qed.

Lemma refresh_loops_agree_while_cycles_return_witness :
  let Γ := simulate (healthy no_env) in
  (∀ s : St (EntityCollector User) Sim, fst (always_returns s) = Val tt)
  ∧ Plain.StartCacheInvalidator Γ users_scrape 2 always_returns fresh_users
    = (Running, Nat.iter 2 (after_cycle Γ users_scrape always_returns) fresh_users)
  ∧ Hardened.StartCacheInvalidator Γ users_scrape 1 2 always_returns fresh_users
    = Plain.StartCacheInvalidator Γ users_scrape 2 always_returns fresh_users.
Proof.
  cbv zeta.
  assert (H : ∀ s : St (EntityCollector User) Sim,
             fst (always_returns s) = Val tt) by (intros s; reflexivity).
  split; [exact H|].
  exact (refresh_loops_agree_while_cycles_return
           (simulate (healthy no_env)) users_scrape 1 2 always_returns
           fresh_users H).
Defined.

(** X21.  The goroutine of the general collector runs on, although its
    loop has no [recover], when the configured tenant ids are valid UTF-8:
    on the base collector of its file, after every number of iterations it
    is still running, each cycle having returned and been followed by the
    sleep of the scrape interval.  When the first configured tenant id is not
    valid UTF-8, the first cycle panics and the panic ends the goroutine. *)
Theorem general_goroutine_runs_on_valid_tenants {W : Type} (Γ : World W)
    (scrape : GeneralCollector → Duration) (n : nat) (s : St GeneralCollector W) :
  (Forall (λ t, ValidString t = true) (Tenants (config (gBase (coll s)))) →
   Plain.StartCacheInvalidator Γ scrape n (Checked.collect Γ (Plain.ops Γ)) s
   = (Running,
      Nat.iter n (after_cycle Γ scrape (Checked.collect Γ (Plain.ops Γ))) s))
  ∧ (∀ t rest,
       Tenants (config (gBase (coll s))) = t :: rest →
       ValidString t = false →
       fst (Plain.StartCacheInvalidator Γ scrape (S n)
              (Checked.collect Γ (Plain.ops Γ)) s)
       = Panic invalid_label_value).
Proof.
  assert (Hsame : ∀ s0 : St GeneralCollector W,
             Forall (λ t, ValidString t = true)
                    (Tenants (config (gBase (coll s0)))) →
             Checked.collect Γ (Plain.ops Γ) s0
             = GeneralCollector.collect Γ (Plain.ops Γ) s0).
  { intros s0 Hv. eapply Checked_collect_valid; [apply Plain_tenants_eq|].
    by apply Plain_tenants_valid. }
  split.
  - apply (Plain_loop_returns_in Γ scrape
             (λ s0, Forall (λ t, ValidString t = true)
                           (Tenants (config (gBase (coll s0)))))).
    + intros s0 Hv. rewrite Hsame by done.
      destruct (general_collect_returns Γ (Plain.ops Γ)) with (s := s0)
        as (s' & ->); [apply Plain_returns| |done].
      intros s1. by apply Plain_GetTenants_returns.
    + intros s0 Hv. unfold after_cycle. simpl.
      rewrite Hsame by done. by rewrite general_collect_config.
  - intros t rest Ht Hinvalid.
    assert (Hpanic : fst (Checked.collect Γ (Plain.ops Γ) s)
                     = Panic invalid_label_value).
    { unfold Checked.collect.
      erewrite bind_Val; [|apply Plain_tenants_eq]. rewrite Ht. simpl.
      destruct (Plain_returns Γ t
                  {| coll := gBase (coll (snd (time_Now Γ
                               {| coll := GeneralCollector.set_gBase
                                            (gBase (coll s)) (coll s);
                                  world := world s; trace := trace s |})));
                     world := world (snd (time_Now Γ
                               {| coll := GeneralCollector.set_gBase
                                            (gBase (coll s)) (coll s);
                                  world := world s; trace := trace s |}));
                     trace := trace (snd (time_Now Γ
                               {| coll := GeneralCollector.set_gBase
                                            (gBase (coll s)) (coll s);
                                  world := world s; trace := trace s |})) |})
        as (got & st' & Hgot).
      unfold bind.
      match goal with
      | |- context [Checked.collect_tenant Γ (Plain.ops Γ) t ?st] =>
        pose proof (Checked_collect_tenant_invalid Γ (Plain.ops Γ) t st
                      {| coll := GeneralCollector.set_gBase (coll st')
                                   (coll (snd (time_Now Γ st)));
                         world := world st'; trace := trace st' |} got) as Hp;
        destruct (Checked.collect_tenant Γ (Plain.ops Γ) t st) as [r sP]
      end.
      simpl in Hp. rewrite Hp; [done| |done].
      unfold embedded. simpl in *. by rewrite Hgot. }
    destruct (Checked.collect Γ (Plain.ops Γ) s) as [r sP] eqn:Hrun.
    simpl in Hpanic. subst r.
    by rewrite (Plain_loop_panics Γ scrape n _ s _ sP Hrun).
Qed.

Lemma general_goroutine_runs_on_valid_tenants_witness :
  let Γ := simulate users_count_fails in
  let collect := Checked.collect Γ (Plain.ops Γ) in
  Forall (λ t, ValidString t = true)
         (Tenants (config (gBase (coll fresh_general))))
  ∧ Plain.StartCacheInvalidator Γ general_scrape 2 collect fresh_general
    = (Running, Nat.iter 2 (after_cycle Γ general_scrape collect) fresh_general).
Proof.
  cbv zeta.
  assert (Hvalid : Forall (λ t, ValidString t = true)
                          (Tenants (config (gBase (coll fresh_general)))))
    by (constructor; [reflexivity|constructor]).
  split; [exact Hvalid|].
  exact (proj1 (general_goroutine_runs_on_valid_tenants
                  (simulate users_count_fails) general_scrape 2 fresh_general)
               Hvalid).
Defined.

(** ** Concurrent first calls of [GetGraphClient] *)

(** X22.  Double-checked locking: when the credential chain can be built,
    any number of goroutines asking for a tenant that is not cached, under
    any interleaving of their critical sections, construct at most one Graph
    client, and every goroutine that has returned holds that client.  This
    holds for every tenant in the base collector without token validation
    and for every non-empty tenant in the one with token validation. *)
Theorem concurrent_first_calls_build_one_client {W : Type} (Γ : World W)
    (tenantID : string) (s0 : St BaseCollector W)
    (schedule : list nat) (n : nat) :
  creation_succeeds Γ →
  graphClients (coll s0) !! tenantID = None →
  let shared fast slow :=
    ∃ callers s',
      run_callers fast slow tenantID schedule (replicate n Entering) s0
      = (Val callers, s')
      ∧ (length (constructed_clients (trace s'))
         ≤ S (length (constructed_clients (trace s0))))%nat
      ∧ (∀ i r, callers !! i = Some (Returned r) →
           ∃ client, r = inr client
             ∧ constructed_clients (trace s')
               = constructed_clients (trace s0) ++ [client]) in
  shared Plain.GetGraphClient_fast (Plain.GetGraphClient_slow Γ)
  ∧ (tenantID ≠ "" →
     shared Hardened.GetGraphClient_fast (Hardened.GetGraphClient_slow Γ)).
Proof.
  intros Hworld Hnone. cbv zeta. split.
  - destruct (concurrent_callers_share_one_client
                Plain.GetGraphClient_fast (Plain.GetGraphClient_slow Γ) tenantID
                (Plain_factory Γ tenantID Hworld) s0 schedule n Hnone)
      as (callers & s' & Hrun & Hcount & Hret).
    exists callers, s'. split; [done|]. split; [|done].
    destruct Hcount as [->|[client ->]]; [lia|].
    rewrite length_app. simpl. lia.
  - intros Hne.
    destruct (concurrent_callers_share_one_client
                Hardened.GetGraphClient_fast (Hardened.GetGraphClient_slow Γ)
                tenantID (Hardened_factory Γ tenantID Hne Hworld) s0 schedule n
                Hnone)
      as (callers & s' & Hrun & Hcount & Hret).
    exists callers, s'. split; [done|]. split; [|done].
    destruct Hcount as [->|[client ->]]; [lia|].
    rewrite length_app. simpl. lia.
Qed.

Lemma concurrent_first_calls_build_one_client_witness :
  let Γ := simulate (healthy no_env) in
  let s0 := fresh_base ["t1"] in
  let schedule := [0; 1; 2; 2; 0; 1]%nat in
  creation_succeeds Γ
  ∧ graphClients (coll s0) !! "t1" = None
  ∧ (∃ callers s',
       run_callers Plain.GetGraphClient_fast (Plain.GetGraphClient_slow Γ) "t1"
                   schedule (replicate 3 Entering) s0
       = (Val callers, s')
       ∧ (length (constructed_clients (trace s'))
          ≤ S (length (constructed_clients (trace s0))))%nat
       ∧ (∀ i r, callers !! i = Some (Returned r) →
            ∃ client, r = inr client
              ∧ constructed_clients (trace s')
                = constructed_clients (trace s0) ++ [client])).
Proof.
  cbv zeta.
  assert (H1 : creation_succeeds (simulate (healthy no_env))).
  { repeat split; intros; eexists; try eexists; reflexivity. }
  assert (H2 : graphClients (coll (fresh_base ["t1"])) !! "t1" = None)
    by reflexivity.
  split; [exact H1|]. split; [exact H2|].
  exact (proj1 (concurrent_first_calls_build_one_client
                  (simulate (healthy no_env)) "t1" (fresh_base ["t1"])
                  [0; 1; 2; 2; 0; 1]%nat 3 H1 H2)).
Defined.
